(** * Papadiamantis expert-evaluation client: session state machine,
      validator, timing accumulator and submission pipeline.

    Shallow embedding of [assets/app.js], version 0.2.0.  Two revisions of
    the script are covered: the one that posts the form with [fetch] (module
    [FetchSubmit]) and the one that submits the form into a hidden iframe
    (module [IframeSubmit]).  Everything else is the same in the two
    revisions.  The older 0.1.0 script, which has neither the [submitted]
    flag nor the resume logic, is not modelled.

    The model keeps the session, the part of the page the handlers write
    to (visible screen, submit control, status line, alerts, batch badge),
    [localStorage] and the list of form posts handed to the network.  The
    clock, the random source, [JSON], the page elements looked up by
    [submit] and the fate of a post are inputs. *)

From Stdlib Require Import ZArith List Bool Lia HexadecimalString.
From stdpp Require Import gmap strings list fin_maps sorting.

Local Open Scope string_scope.
Local Open Scope Z_scope.

(** ** JavaScript text

    Identifiers ([task_uid], [doc_id], storage keys, ...) are only compared
    and used as property names, so they are [string]s.  Free text typed by
    the expert is inspected by [String.prototype.trim], so it is kept as the
    sequence of its UTF-16 code units. *)

Definition JsText := list N.

(** ECMAScript [WhiteSpace] and [LineTerminator] code points, the ones
    [trim] strips. *)
Definition is_white_space (c : N) : bool :=
  ((c =? 0x9) || (c =? 0xA) || (c =? 0xB) || (c =? 0xC) || (c =? 0xD)
   || (c =? 0x20) || (c =? 0xA0) || (c =? 0x1680)
   || ((0x2000 <=? c) && (c <=? 0x200A))
   || (c =? 0x2028) || (c =? 0x2029) || (c =? 0x202F) || (c =? 0x205F)
   || (c =? 0x3000) || (c =? 0xFEFF))%N.

Fixpoint trimStart (s : JsText) : JsText :=
  match s with
  | [] => []
  | c :: rest => if is_white_space c then trimStart rest else s
  end.

Definition trim (s : JsText) : JsText :=
  rev (trimStart (rev (trimStart s))).

(** Truthiness of the JavaScript values the script tests. *)
Definition truthy_text (s : JsText) : bool :=
  match s with [] => false | _ => true end.

Definition truthy_str (s : string) : bool :=
  negb (String.eqb s "").

Definition truthy_num (v : option Z) : bool :=
  match v with
  | Some z => negb (z =? 0)
  | None => false
  end.

Definition truthy_ostr (v : option string) : bool :=
  match v with
  | Some s => truthy_str s
  | None => false
  end.

(** [Number(v)] for a rating slot: [Number(null)] is [0]. *)
Definition Number (v : option Z) : Z :=
  match v with
  | Some z => z
  | None => 0
  end.

(** ** Data model *)

Record Item := {
  doc_id : string;
  title : option string;
  excerpt : option string
}.

Record DocRef := {
  ref_doc_id : string;
  ref_title : option string
}.

(** A task object as it comes out of the assignment file: the variant is
    told by the [type] string, the fields of the other variant are absent. *)
Record Task := {
  type : string;
  task_uid : option string;
  task_id : option string;
  clustering_id : string;
  cluster_id : option string;
  batch_index : option Z;
  items : list Item;
  pair_id : option string;
  doc1 : option DocRef;
  doc2 : option DocRef;
  same_cluster : bool
}.

Record Assignment := {
  assignment_id : string;
  primary_clustering_id : option string;
  tasks : list Task
}.

Record ItemAnswer := {
  coherence : option Z;
  misplaced : bool;
  note : JsText
}.

Inductive Answer :=
| ClusterAnswer (a_items : gmap string ItemAnswer)
                (cluster_label cluster_note : JsText)
| PairAnswer (relatedness : option Z) (common_theme pair_note : JsText).

(** Property reads on an answer object; a property of the other variant
    reads as [undefined]. *)
Definition ans_items (a : Answer) : option (gmap string ItemAnswer) :=
  match a with
  | ClusterAnswer m _ _ => Some m
  | PairAnswer _ _ _ => None
  end.

Definition ans_relatedness (a : Answer) : option Z :=
  match a with
  | PairAnswer r _ _ => r
  | ClusterAnswer _ _ _ => None
  end.

Definition ans_common_theme (a : Answer) : option JsText :=
  match a with
  | PairAnswer _ c _ => Some c
  | ClusterAnswer _ _ _ => None
  end.

(** [answer.items?.[doc]] *)
Definition item_answer (a : Answer) (doc : string) : option ItemAnswer :=
  match ans_items a with
  | Some m => m !! doc
  | None => None
  end.

(** [task.task_uid || task.task_id] *)
Definition getAnswerKey (t : Task) : option string :=
  if truthy_ostr (task_uid t) then task_uid t else task_id t.

(** Property name used by [obj[key]]: [undefined] becomes ["undefined"]. *)
Definition prop_name (k : option string) : string :=
  match k with
  | Some s => s
  | None => "undefined"
  end.

(** ** Validator *)

Record Validation := { ok : bool; msg : string }.

Definition valid : Validation := {| ok := true; msg := "" |}.

Definition msg_answer_cluster : string := "Απαντήστε στο cluster.".
Definition msg_rate_all : string := "Βάλτε βαθμό (1–5) για όλα τα έργα.".
Definition msg_rate_pair : string := "Βάλτε βαθμό συγγένειας (1–5).".
Definition msg_common_theme : string :=
  "Γράψτε κοινό θεματικό στοιχείο (για ≥4).".

(** The [for(const it of task.items)] loop of the cluster branch. *)
Fixpoint validate_items (its : list Item) (answer : Answer) : Validation :=
  match its with
  | [] => valid
  | it :: rest =>
      match item_answer answer (doc_id it) with
      | Some a =>
          if truthy_num (coherence a) then validate_items rest answer
          else {| ok := false; msg := msg_rate_all |}
      | None => {| ok := false; msg := msg_rate_all |}
      end
  end.

Definition validateTask (task : Task) (answer : option Answer) : Validation :=
  if String.eqb (type task) "cluster" then
    match answer with
    | None => {| ok := false; msg := msg_answer_cluster |}
    | Some ans => validate_items (items task) ans
    end
  else if String.eqb (type task) "pair" then
    match answer with
    | None => {| ok := false; msg := msg_rate_pair |}
    | Some ans =>
        if negb (truthy_num (ans_relatedness ans)) then
          {| ok := false; msg := msg_rate_pair |}
        else if (Number (ans_relatedness ans) >=? 4)
                && negb (truthy_text (trim (default [] (ans_common_theme ans))))
        then {| ok := false; msg := msg_common_theme |}
        else valid
    end
  else valid.

(** ** Session *)

Record Session := {
  started : bool;
  taskIndex : Z;
  answers : gmap string Answer;
  startedAt : option string;
  finishedAt : option string;
  clientSessionId : option string;
  submitted : bool;
  lastSubmissionUuid : option string;
  taskTimeMs : gmap string Z;
  _lastTaskKey : option string;
  _lastTaskEnterAt : option Z
}.

Definition defaultState : Session := {|
  started := false;
  taskIndex := 0;
  answers := ∅;
  startedAt := None;
  finishedAt := None;
  clientSessionId := None;
  submitted := false;
  lastSubmissionUuid := None;
  taskTimeMs := ∅;
  _lastTaskKey := None;
  _lastTaskEnterAt := None
|}.

(** Field assignments [state.f = v]. *)
Definition set_started (v : bool) (s : Session) : Session :=
  {| started := v; taskIndex := taskIndex s; answers := answers s;
     startedAt := startedAt s; finishedAt := finishedAt s;
     clientSessionId := clientSessionId s; submitted := submitted s;
     lastSubmissionUuid := lastSubmissionUuid s; taskTimeMs := taskTimeMs s;
     _lastTaskKey := _lastTaskKey s; _lastTaskEnterAt := _lastTaskEnterAt s |}.

Definition set_taskIndex (v : Z) (s : Session) : Session :=
  {| started := started s; taskIndex := v; answers := answers s;
     startedAt := startedAt s; finishedAt := finishedAt s;
     clientSessionId := clientSessionId s; submitted := submitted s;
     lastSubmissionUuid := lastSubmissionUuid s; taskTimeMs := taskTimeMs s;
     _lastTaskKey := _lastTaskKey s; _lastTaskEnterAt := _lastTaskEnterAt s |}.

Definition set_answers (v : gmap string Answer) (s : Session) : Session :=
  {| started := started s; taskIndex := taskIndex s; answers := v;
     startedAt := startedAt s; finishedAt := finishedAt s;
     clientSessionId := clientSessionId s; submitted := submitted s;
     lastSubmissionUuid := lastSubmissionUuid s; taskTimeMs := taskTimeMs s;
     _lastTaskKey := _lastTaskKey s; _lastTaskEnterAt := _lastTaskEnterAt s |}.

Definition set_startedAt (v : option string) (s : Session) : Session :=
  {| started := started s; taskIndex := taskIndex s; answers := answers s;
     startedAt := v; finishedAt := finishedAt s;
     clientSessionId := clientSessionId s; submitted := submitted s;
     lastSubmissionUuid := lastSubmissionUuid s; taskTimeMs := taskTimeMs s;
     _lastTaskKey := _lastTaskKey s; _lastTaskEnterAt := _lastTaskEnterAt s |}.

Definition set_finishedAt (v : option string) (s : Session) : Session :=
  {| started := started s; taskIndex := taskIndex s; answers := answers s;
     startedAt := startedAt s; finishedAt := v;
     clientSessionId := clientSessionId s; submitted := submitted s;
     lastSubmissionUuid := lastSubmissionUuid s; taskTimeMs := taskTimeMs s;
     _lastTaskKey := _lastTaskKey s; _lastTaskEnterAt := _lastTaskEnterAt s |}.

Definition set_clientSessionId (v : option string) (s : Session) : Session :=
  {| started := started s; taskIndex := taskIndex s; answers := answers s;
     startedAt := startedAt s; finishedAt := finishedAt s;
     clientSessionId := v; submitted := submitted s;
     lastSubmissionUuid := lastSubmissionUuid s; taskTimeMs := taskTimeMs s;
     _lastTaskKey := _lastTaskKey s; _lastTaskEnterAt := _lastTaskEnterAt s |}.

Definition set_submitted (v : bool) (s : Session) : Session :=
  {| started := started s; taskIndex := taskIndex s; answers := answers s;
     startedAt := startedAt s; finishedAt := finishedAt s;
     clientSessionId := clientSessionId s; submitted := v;
     lastSubmissionUuid := lastSubmissionUuid s; taskTimeMs := taskTimeMs s;
     _lastTaskKey := _lastTaskKey s; _lastTaskEnterAt := _lastTaskEnterAt s |}.

Definition set_lastSubmissionUuid (v : option string) (s : Session) : Session :=
  {| started := started s; taskIndex := taskIndex s; answers := answers s;
     startedAt := startedAt s; finishedAt := finishedAt s;
     clientSessionId := clientSessionId s; submitted := submitted s;
     lastSubmissionUuid := v; taskTimeMs := taskTimeMs s;
     _lastTaskKey := _lastTaskKey s; _lastTaskEnterAt := _lastTaskEnterAt s |}.

Definition set_timing (tt : gmap string Z) (key : option string)
    (enter : option Z) (s : Session) : Session :=
  {| started := started s; taskIndex := taskIndex s; answers := answers s;
     startedAt := startedAt s; finishedAt := finishedAt s;
     clientSessionId := clientSessionId s; submitted := submitted s;
     lastSubmissionUuid := lastSubmissionUuid s; taskTimeMs := tt;
     _lastTaskKey := key; _lastTaskEnterAt := enter |}.

(** ** Small helpers of the script *)

Definition APP_VERSION : string := "0.2.0".
Definition NETLIFY_FORM_NAME : string := "papadiamantis-eval".
Definition STORAGE_PREFIX : string := "pap_eval_v2".

Definition clamp (n lo hi : Z) : Z := Z.max lo (Z.min hi n).

Definition storageKey (expertId assignmentId : string) : string :=
  STORAGE_PREFIX +:+ "::" +:+ expertId +:+ "::" +:+ assignmentId.

(** [randomId(prefix)]; [hex] is the 24-digit rendering of the twelve
    bytes drawn from [crypto.getRandomValues]. *)
Definition randomId (prefix hex : string) : string :=
  if truthy_str prefix then prefix +:+ "_" +:+ hex else hex.

(** [tasks[i]] for a numeric index: [undefined] out of range. *)
Definition task_at (a : Assignment) (i : Z) : option Task :=
  if i <? 0 then None else tasks a !! Z.to_nat i.

Definition taskCount (a : Assignment) : Z := Z.of_nat (length (tasks a)).

(** [state.answers[key]] *)
Definition answer_of (s : Session) (t : Task) : option Answer :=
  answers s !! prop_name (getAnswerKey t).

(** ** Timing accumulator *)

Definition updateTimingOnTaskSwitch (now : Z) (nextTaskKey : option string)
    (s : Session) : Session :=
  let prevKey := _lastTaskKey s in
  let prevEnter := _lastTaskEnterAt s in
  let tt :=
    if truthy_ostr prevKey && truthy_num prevEnter then
      let delta := Z.max 0 (now - Number prevEnter) in
      <[prop_name prevKey :=
          default 0 (taskTimeMs s !! prop_name prevKey) + delta]> (taskTimeMs s)
    else taskTimeMs s in
  set_timing tt nextTaskKey (Some now) s.

(** ** Cluster batches *)

(** [Array.prototype.sort] with a comparator: a stable sort.  [x] is
    inserted in front of the first element it does not have to follow. *)
Fixpoint insert_sorted {A} (cmp : A -> A -> Z) (x : A) (l : list A) : list A :=
  match l with
  | [] => [x]
  | y :: ys => if cmp x y <=? 0 then x :: y :: ys
               else y :: insert_sorted cmp x ys
  end.

Definition js_sort {A} (cmp : A -> A -> Z) (l : list A) : list A :=
  foldr (insert_sorted cmp) [] l.

(** [arr.findIndex(p)], with [-1] as [None]. *)
Fixpoint findIndex {A} (p : A -> bool) (l : list A) : option nat :=
  match l with
  | [] => None
  | x :: xs => if p x then Some O else S <$> findIndex p xs
  end.

(** [t.batch_index ?? 0] *)
Definition batch_or_0 (t : Task) : Z := default 0 (batch_index t).

Definition cmp_batch (a b : Task) : Z := batch_or_0 a - batch_or_0 b.

Definition same_cluster_as (task t : Task) : bool :=
  String.eqb (type t) "cluster"
  && String.eqb (clustering_id t) (clustering_id task)
  && bool_decide (cluster_id t = cluster_id task).

Definition same_key_as (task t : Task) : bool :=
  bool_decide (getAnswerKey t = getAnswerKey task).

Record BatchInfo := { k : option nat; K : nat }.

Definition computeClusterBatchInfo (a : Assignment) (task : Task)
    : option BatchInfo :=
  if negb (String.eqb (type task) "cluster") then None
  else
    let same := filter (fun t => same_cluster_as task t = true) (tasks a) in
    if (length same <=? 1)%nat then None
    else
      let sorted := js_sort cmp_batch same in
      let idx := findIndex (same_key_as task) sorted in
      Some {| k := S <$> idx; K := length sorted |}.

(** ** Page, storage and network *)

Inductive Screen := ScreenWelcome | ScreenTask | ScreenSubmit | ScreenThanks.

(** Texts written to [#submitStatus]. *)
Inductive Status :=
| StatusBlank            (* "" *)
| StatusIncomplete       (* "Υπάρχουν ελλιπείς απαντήσεις. Επιστρέψτε για έλεγχο." *)
| StatusSubmitting       (* "Υποβολή..." *)
| StatusFormMissing      (* "Internal error: Netlify form not found in page HTML." *)
| StatusHttpError (status : Z) (txt : string)
                         (* "Σφάλμα υποβολής (status). txt" *)
| StatusNetworkError     (* "Σφάλμα δικτύου. Δοκιμάστε ξανά." *)
| StatusSubmitError.     (* "Σφάλμα υποβολής. Δοκιμάστε ξανά." *)

(** The statuses that report a failed transmission. *)
Definition transport_error (s : Status) : bool :=
  match s with
  | StatusHttpError _ _ | StatusNetworkError | StatusSubmitError => true
  | _ => false
  end.

Definition msg_no_assignment (expertId : string) : string :=
  "Δεν βρέθηκε ανάθεση για αυτόν τον expert (λείπει data/assignments/"
  +:+ expertId +:+ ".json).".

Record UI := {
  screen : option Screen;
  btnSubmitDisabled : bool;
  submitStatus : Status;
  alerts : list string;
  partOf : option BatchInfo
}.

Inductive TaskDigest :=
| DigestCluster (uid tid : option string) (ty clustering : string)
                (cluster : option string) (batch : option Z)
                (its : list (string * string))
| DigestPair (uid tid : option string) (ty clustering : string)
             (pair : option string)
             (d1 d2 : option string * option string) (same : bool)
| DigestBase (uid tid : option string) (ty clustering : string).

Record Payload := {
  p_expert_id : string;
  p_assignment_id : string;
  p_primary_clustering_id : option string;
  p_app_version : string;
  p_submission_uuid : string;
  p_client_session_id : option string;
  p_submitted_at : string;
  p_started_at : option string;
  p_finished_at : option string;
  p_user_agent : string;
  p_timezone : string;
  p_task_time_ms : gmap string Z;
  p_tasks : list TaskDigest;
  p_answers : gmap string Answer
}.

(** One form post: the hidden fields and the payload that goes, as JSON
    text, into the [payload] field. *)
Record FormPost := {
  f_form_name : string;
  f_expert_id : string;
  f_assignment_id : string;
  f_app_version : string;
  f_submission_uuid : string;
  f_client_session_id : option string;
  f_payload : Payload
}.

(** What the transport did with a post. *)
Inductive Transport :=
| NetworkError
| Response (status : Z) (body : string).

Definition response_ok (status : Z) : bool :=
  (200 <=? status) && (status <=? 299).

(** The session in memory, the page, [localStorage], and the posts handed
    to the network so far (oldest first). *)
Record World := {
  state : Session;
  ui : UI;
  localStorage : gmap string string;
  network : list FormPost
}.

Definition with_state (f : Session -> Session) (w : World) : World :=
  {| state := f (state w); ui := ui w;
     localStorage := localStorage w; network := network w |}.

Definition with_ui (f : UI -> UI) (w : World) : World :=
  {| state := state w; ui := f (ui w);
     localStorage := localStorage w; network := network w |}.

Definition with_storage (f : gmap string string -> gmap string string)
    (w : World) : World :=
  {| state := state w; ui := ui w;
     localStorage := f (localStorage w); network := network w |}.

Definition send (p : FormPost) (w : World) : World :=
  {| state := state w; ui := ui w;
     localStorage := localStorage w; network := network w ++ [p] |}.

Definition showScreen (name : Screen) (w : World) : World :=
  with_ui (fun u =>
    {| screen := Some name; btnSubmitDisabled := btnSubmitDisabled u;
       submitStatus := submitStatus u; alerts := alerts u;
       partOf := partOf u |}) w.

Definition setSubmitDisabled (b : bool) (w : World) : World :=
  with_ui (fun u =>
    {| screen := screen u; btnSubmitDisabled := b;
       submitStatus := submitStatus u; alerts := alerts u;
       partOf := partOf u |}) w.

Definition setSubmitStatus (s : Status) (w : World) : World :=
  with_ui (fun u =>
    {| screen := screen u; btnSubmitDisabled := btnSubmitDisabled u;
       submitStatus := s; alerts := alerts u; partOf := partOf u |}) w.

Definition alert (m : string) (w : World) : World :=
  with_ui (fun u =>
    {| screen := screen u; btnSubmitDisabled := btnSubmitDisabled u;
       submitStatus := submitStatus u; alerts := alerts u ++ [m];
       partOf := partOf u |}) w.

Definition setPartOf (b : option BatchInfo) (w : World) : World :=
  with_ui (fun u =>
    {| screen := screen u; btnSubmitDisabled := btnSubmitDisabled u;
       submitStatus := submitStatus u; alerts := alerts u; partOf := b |}) w.

(** How a handler ends: normally, or with an exception nobody caught. *)
Inductive Outcome := Done | Thrown (e : string).

(** ** Services of the browser *)

Class Platform := {
  (** [JSON.parse] on a stored session record; [None] is a [SyntaxError]. *)
  JSON_parse : string -> option Session;
  JSON_stringify : Session -> string;
  (** [new Date(ms).toISOString()] *)
  toISOString : Z -> string;
  userAgent : string;
  timeZone : string
}.

Section Storage.
Context `{Platform}.

Definition saveState (key : string) (s : Session)
    (ls : gmap string string) : gmap string string :=
  <[key := JSON_stringify s]> ls.

(** [null] is [None]; nothing is thrown to the caller. *)
Definition loadState (key : string) (ls : gmap string string)
    : option Session :=
  match ls !! key with
  | None => None
  | Some raw => if negb (truthy_str raw) then None else JSON_parse raw
  end.

Definition ensureClientSessionId (expertId hex : string)
    (ls : gmap string string) : string * gmap string string :=
  let k := STORAGE_PREFIX +:+ "::client_session_id::"
           +:+ (if truthy_str expertId then expertId else "unknown") in
  match ls !! k with
  | Some v => if truthy_str v then (v, ls)
              else let v' := randomId "sess" hex in (v', <[k := v']> ls)
  | None => let v' := randomId "sess" hex in (v', <[k := v']> ls)
  end.
End Storage.

(** ** Session state machine *)

Section Machine.
Context `{Platform}.
Variable assignment : Assignment.
Variable expertId : string.

Definition stateKey : string := storageKey expertId (assignment_id assignment).

Definition persist (w : World) : World :=
  if truthy_str stateKey
  then with_storage (saveState stateKey (state w)) w
  else w.

(** Whether building the task view raises a [TypeError]:
    [renderClusterTask] reads [a.items[doc_id]] for each item,
    [renderPairTask] reads [task.doc1.title] and [task.doc2.title]. *)
Definition paint_throws (task : Task) (ans : option Answer) : bool :=
  if String.eqb (type task) "cluster" then
    match items task, ans with
    | _ :: _, Some a => bool_decide (ans_items a = None)
    | _, _ => false
    end
  else
    match doc1 task, doc2 task with
    | Some _, Some _ => false
    | _, _ => true
    end.

(** [now] is the reading of [Date.now()]. *)
Definition render (now : Z) (w : World) : World * Outcome :=
  let s := state w in
  if taskIndex s >=? taskCount assignment then
    (showScreen ScreenSubmit
       (with_state (updateTimingOnTaskSwitch now None) w), Done)
  else
    match task_at assignment (taskIndex s) with
    | None => (w, Thrown "TypeError")
    | Some task =>
        let w1 :=
          with_state (updateTimingOnTaskSwitch now (getAnswerKey task)) w in
        let w2 :=
          if String.eqb (type task) "cluster"
          then setPartOf (computeClusterBatchInfo assignment task) w1
          else setPartOf None w1 in
        if paint_throws task (answer_of s task)
        then (w2, Thrown "TypeError")
        else (w2, Done)
    end.

(** The callback the task view calls with the edited answer. *)
Definition onUpdate (task : Task) (newAns : Answer) (w : World) : World :=
  persist (with_state (fun s =>
    set_answers (<[prop_name (getAnswerKey task) := newAns]> (answers s)) s) w).

Definition btnBack (now : Z) (w : World) : World * Outcome :=
  let i := clamp (taskIndex (state w) - 1) 0 (taskCount assignment) in
  render now (persist (with_state (set_taskIndex i) w)).

Definition btnNext (now : Z) (w : World) : World * Outcome :=
  match task_at assignment (taskIndex (state w)) with
  | None => (w, Thrown "TypeError")
  | Some task =>
      let v := validateTask task (answer_of (state w) task) in
      if negb (ok v) then (alert (msg v) w, Done)
      else
        let i := clamp (taskIndex (state w) + 1) 0 (taskCount assignment) in
        render now (persist (with_state (set_taskIndex i) w))
  end.

Definition btnReview (now : Z) (w : World) : World * Outcome :=
  let i := Z.max 0 (taskCount assignment - 1) in
  render now (persist (with_state (set_taskIndex i) w)).

(** [tISO] is the clock reading behind [nowISO()]. *)
Definition startApp (tISO now : Z) (w : World) : World * Outcome :=
  let w1 := with_state (set_started true) w in
  let w2 :=
    if truthy_ostr (startedAt (state w1)) then w1
    else with_state (set_startedAt (Some (toISOString tISO))) w1 in
  render now (showScreen ScreenTask (persist w2)).

(** The body of [init] once the assignment file has been fetched: the
    session is restored or created and the screen is chosen from it. *)
Definition init_loaded (hex : string) (now : Z) (ui0 : UI)
    (ls : gmap string string) : World :=
  let st0 := default defaultState (loadState stateKey ls) in
  let '(st1, ls1) :=
    if truthy_ostr (clientSessionId st0) then (st0, ls)
    else
      let '(v, ls') := ensureClientSessionId expertId hex ls in
      (set_clientSessionId (Some v) st0, ls') in
  let w := {| state := st1; ui := ui0; localStorage := ls1; network := [] |} in
  if submitted st1 then persist (showScreen ScreenThanks w)
  else if started st1 then
    let w1 :=
      if taskIndex st1 >=? taskCount assignment
      then showScreen ScreenSubmit w
      else showScreen ScreenTask w in
    match render now w1 with
    | (w2, Done) => persist w2
    | (w2, Thrown _) => alert (msg_no_assignment expertId) w2
    end
  else persist (showScreen ScreenWelcome w).

(** The validation loop at the head of [submit]. *)
Definition all_valid (s : Session) : bool :=
  forallb (fun t => ok (validateTask t (answer_of s t))) (tasks assignment).

(** [v || null] *)
Definition or_null (v : option string) : option string :=
  if truthy_ostr v then v else None.

Definition digest_doc (d : option DocRef) : option string * option string :=
  match d with
  | None => (None, None)
  | Some r =>
      (Some (ref_doc_id r),
       Some (default (ref_doc_id r) (or_null (ref_title r))))
  end.

Definition taskDigest (t : Task) : TaskDigest :=
  if String.eqb (type t) "cluster" then
    DigestCluster (or_null (task_uid t)) (or_null (task_id t)) (type t)
      (clustering_id t) (cluster_id t) (batch_index t)
      (map (fun it => (doc_id it, default (doc_id it) (or_null (title it))))
           (items t))
  else if String.eqb (type t) "pair" then
    DigestPair (or_null (task_uid t)) (or_null (task_id t)) (type t)
      (clustering_id t) (or_null (pair_id t))
      (digest_doc (doc1 t)) (digest_doc (doc2 t)) (same_cluster t)
  else
    DigestBase (or_null (task_uid t)) (or_null (task_id t)) (type t)
      (clustering_id t).

Definition build_payload (submissionUuid : string) (tSubmit : Z)
    (s : Session) : Payload :=
  {| p_expert_id := expertId;
     p_assignment_id := assignment_id assignment;
     p_primary_clustering_id := or_null (primary_clustering_id assignment);
     p_app_version := APP_VERSION;
     p_submission_uuid := submissionUuid;
     p_client_session_id := clientSessionId s;
     p_submitted_at := toISOString tSubmit;
     p_started_at := startedAt s;
     p_finished_at := finishedAt s;
     p_user_agent := userAgent;
     p_timezone := timeZone;
     p_task_time_ms := taskTimeMs s;
     p_tasks := map taskDigest (tasks assignment);
     p_answers := answers s |}.

Definition build_post (submissionUuid : string) (tSubmit : Z)
    (s : Session) : FormPost :=
  {| f_form_name := NETLIFY_FORM_NAME;
     f_expert_id := expertId;
     f_assignment_id := assignment_id assignment;
     f_app_version := APP_VERSION;
     f_submission_uuid := submissionUuid;
     f_client_session_id := clientSessionId s;
     f_payload := build_payload submissionUuid tSubmit s |}.

(** What [submit] does between the validation loop and the transmission:
    stamp [finishedAt], persist, draw the submission identifier. *)
Definition stamp_submission (tFinish : Z) (hex : string) (w : World) : World :=
  let w1 := persist
    (with_state (set_finishedAt (Some (toISOString tFinish))) w) in
  with_state (set_lastSubmissionUuid (Some (randomId "sub" hex))) w1.

(** On success: [state.submitted = true; persist(); showScreen("thanks")]. *)
Definition mark_submitted (w : World) : World :=
  setSubmitStatus StatusBlank
    (showScreen ScreenThanks (persist (with_state (set_submitted true) w))).
End Machine.

(** [qs("expert") || "E1"] *)
Definition expert_of (expertParam : option string) : string :=
  if truthy_ostr expertParam then default "" expertParam else "E1".

(** [init]: [fetched path] is what [loadJSON(path)] produced, [None] when it
    threw.  A failed load leaves only the alert behind. *)
Definition init `{Platform} (expertParam : option string)
    (fetched : string -> option Assignment) (hex : string) (now : Z)
    (ui0 : UI) (ls : gmap string string)
    : (Assignment * World) + UI :=
  let expertId := expert_of expertParam in
  match fetched ("data/assignments/" +:+ expertId +:+ ".json") with
  | Some a => inl (a, init_loaded a expertId hex now ui0 ls)
  | None =>
      inr {| screen := screen ui0; btnSubmitDisabled := btnSubmitDisabled ui0;
             submitStatus := submitStatus ui0;
             alerts := alerts ui0 ++ [msg_no_assignment expertId];
             partOf := partOf ui0 |}
  end.

(** ** Submission pipeline, [fetch] revision *)

Module FetchSubmit.
Section Submit.
Context `{Platform}.
Variable assignment : Assignment.
Variable expertId : string.

(** What one run of [submit] reads from its surroundings. *)
Record Env := {
  tFinish : Z;            (* clock behind [state.finishedAt = nowISO()] *)
  tSubmit : Z;            (* clock behind [submitted_at: nowISO()] *)
  hex : string;           (* random digits of [randomId("sub")] *)
  formFound : bool;       (* [form[name="papadiamantis-eval"]] exists *)
  fieldsFound : bool;     (* its inputs and textarea exist *)
  transport : Transport   (* what [fetch] comes back with *)
}.

Definition submit (e : Env) (w : World) : World :=
  if submitted (state w) then showScreen ScreenThanks w
  else
    let w1 := setSubmitDisabled true w in
    if negb (all_valid assignment (state w1)) then
      setSubmitDisabled false (setSubmitStatus StatusIncomplete w1)
    else
      let w2 := stamp_submission assignment expertId (tFinish e) (hex e) w1 in
      let post := build_post assignment expertId (randomId "sub" (hex e))
                    (tSubmit e) (state w2) in
      let w3 := setSubmitStatus StatusSubmitting w2 in
      if negb (formFound e) then
        setSubmitDisabled false (setSubmitStatus StatusFormMissing w3)
      else if negb (fieldsFound e) then
        (* [querySelector(..)] is [null]: the [TypeError] lands in [catch] *)
        setSubmitDisabled false (setSubmitStatus StatusNetworkError w3)
      else
        let w4 := send post w3 in
        match transport e with
        | NetworkError =>
            setSubmitDisabled false (setSubmitStatus StatusNetworkError w4)
        | Response status body =>
            if negb (response_ok status) then
              setSubmitDisabled false
                (setSubmitStatus
                   (StatusHttpError status (String.substring 0 120 body)) w4)
            else mark_submitted assignment expertId w4
        end.
End Submit.
End FetchSubmit.

(** ** Submission pipeline, hidden-iframe revision *)

Module IframeSubmit.
Section Submit.
Context `{Platform}.
Variable assignment : Assignment.
Variable expertId : string.

Record Env := {
  tFinish : Z;
  tSubmit : Z;
  hex : string;
  formFound : bool;       (* [#netlifyForm] exists *)
  iframeFound : bool;     (* [iframe[name="netlify_iframe"]] exists *)
  transport : Transport   (* what became of the post *)
}.

(** The promise returned by [submitViaNetlifyForm] is resolved by the
    iframe's [load] event or, failing that, by the 2500 ms timer.  It has
    no [reject]. *)
Definition settle (t : Transport) : Outcome :=
  match t with
  | Response _ _ => Done      (* [load] fires on the response document *)
  | NetworkError => Done      (* [setTimeout(done, 2500)] *)
  end.

Definition submitViaNetlifyForm (e : Env) (data : FormPost) (w : World)
    : World * Outcome :=
  if negb (formFound e) then
    (w, Thrown "netlifyForm not found in index.html")
  else if negb (iframeFound e) then
    (w, Thrown "netlify_iframe not found in index.html")
  else (send data w, settle (transport e)).

Definition submit (e : Env) (w : World) : World :=
  if submitted (state w) then showScreen ScreenThanks w
  else
    let w1 := setSubmitDisabled true w in
    if negb (all_valid assignment (state w1)) then
      setSubmitDisabled false (setSubmitStatus StatusIncomplete w1)
    else
      let w2 := stamp_submission assignment expertId (tFinish e) (hex e) w1 in
      let data := build_post assignment expertId (randomId "sub" (hex e))
                    (tSubmit e) (state w2) in
      let w3 := setSubmitStatus StatusSubmitting w2 in
      match submitViaNetlifyForm e data w3 with
      | (w4, Done) => mark_submitted assignment expertId w4
      | (w4, Thrown _) =>
          setSubmitDisabled false (setSubmitStatus StatusSubmitError w4)
      end.
End Submit.
End IframeSubmit.

(** ** Random identifiers *)

(** [b.toString(16)] *)
Definition toString16 (b : N) : string :=
  NilZero.string_of_uint (N.to_hex_uint b).

(** [s.padStart(n, "0")] *)
Definition padStart0 (n : nat) (s : string) : string :=
  String.concat "" (replicate (n - String.length s) "0") +:+ s.

(** [Array.from(buf).map(b => b.toString(16).padStart(2,"0")).join("")];
    [buf] holds the elements of the [Uint8Array]. *)
Definition hexOf (buf : list N) : string :=
  String.concat "" (map (fun b => padStart0 2 (toString16 b)) buf).

(** [randomId(prefix)] when [crypto.getRandomValues] filled in [buf]. *)
Definition randomIdOf (prefix : string) (buf : list N) : string :=
  randomId prefix (hexOf buf).

(** ** Editing a pair answer *)

(** The rating callback of [renderPairTask] compares the rating before,
    [Number(a.relatedness || 0)], with the new one. *)
Definition crossesThreshold (prev : option Z) (val : Z) : bool :=
  negb (Bool.eqb (Number prev >=? 4) (val >=? 4)).

(** [shouldAskTheme]: whether the view holds the common-theme field. *)
Definition shouldAskTheme (r : option Z) : bool := Number r >=? 4.

(** The object the pair view edits: [answer || {relatedness:null,
    common_theme:"", note:""}]. *)
Definition pairObject (answer : option Answer) : Answer :=
  default (PairAnswer None [] []) answer.

Section Editing.
Context `{Platform}.
Variable assignment : Assignment.
Variable expertId : string.

(** The callbacks [renderPairTask] installs on a pair-shaped answer object
    with the fields [r], [theme] and [nt].  Each writes one field and hands
    the object to [onUpdate]; the rating callback also calls [render()]
    when the rating moves across 4. *)
Definition onRelatedness (task : Task) (r : option Z) (theme nt : JsText)
    (val : Z) (now : Z) (w : World) : World * Outcome :=
  let w1 := onUpdate assignment expertId task (PairAnswer (Some val) theme nt) w in
  if crossesThreshold r val then render assignment now w1 else (w1, Done).

Definition onPairNote (task : Task) (r : option Z) (theme : JsText)
    (txt : JsText) (w : World) : World :=
  onUpdate assignment expertId task (PairAnswer r theme txt) w.

Definition onCommonTheme (task : Task) (r : option Z) (txt nt : JsText)
    (w : World) : World :=
  onUpdate assignment expertId task (PairAnswer r txt nt) w.
End Editing.

(** ** Editing a cluster answer

    [renderClusterTask] works on the object [a = answer || {items:{}, ...}]
    and, for every item of the task, on an object [itemAns]: the one
    [a.items] holds under the item's [doc_id] if there is one, a new one
    otherwise.  The callbacks of one item write to its [itemAns] and put it
    into [a.items]; items with the same [doc_id] share the object that was
    there and do not share the new ones.  The view keeps the objects apart
    from the keys that point at them. *)

Inductive ItemRef :=
| OldItem (doc : string)   (* the object [a.items[doc]] held when the view was built *)
| NewItem (pos : nat).     (* the object created for the item at this position *)

Global Instance ItemRef_eq_dec : EqDecision ItemRef.
Proof. solve_decision. Defined.

Record ClusterView := {
  cv_old : gmap string ItemAnswer;
  cv_new : gmap nat ItemAnswer;
  cv_items : gmap string ItemRef;              (* [a.items] *)
  cv_label : JsText;                           (* [a.cluster_label] *)
  cv_note : JsText;                            (* [a.cluster_note] *)
  cv_cells : list (string * ItemRef)           (* [itemKey] and [itemAns] of each item *)
}.

(** [{coherence:null, misplaced:false, note:""}] *)
Definition blankItem : ItemAnswer :=
  {| coherence := None; misplaced := false; note := [] |}.

Definition deref (v : ClusterView) (r : ItemRef) : ItemAnswer :=
  match r with
  | OldItem d => default blankItem (cv_old v !! d)
  | NewItem p => default blankItem (cv_new v !! p)
  end.

(** The answer object as [JSON.stringify] and the validator see it. *)
Definition answerOf (v : ClusterView) : Answer :=
  ClusterAnswer (deref v <$> cv_items v) (cv_label v) (cv_note v).

(** The view of a task on a cluster-shaped answer object with the item
    map [m], or on no answer.  (A pair-shaped object has no [items]: with
    an item to draw, building the view throws.) *)
Definition clusterView (task : Task) (m : gmap string ItemAnswer)
    (label cnote : JsText) : ClusterView :=
  {| cv_old := m;
     cv_new := ∅;
     cv_items := map_imap (fun d _ => Some (OldItem d)) m;
     cv_label := label;
     cv_note := cnote;
     cv_cells :=
       imap (fun pos it =>
               (doc_id it,
                match m !! doc_id it with
                | Some _ => OldItem (doc_id it)
                | None => NewItem pos
                end))
            (items task) |}.

Definition clusterViewOf (task : Task) (answer : option Answer)
    : option ClusterView :=
  match answer with
  | None => Some (clusterView task ∅ [] [])
  | Some (ClusterAnswer m l n) => Some (clusterView task m l n)
  | Some (PairAnswer _ _ _) => None
  end.

(** What the expert does to the view. *)
Inductive ClusterEdit :=
| EditCoherence (pos : nat) (val : Z)       (* a radio button of item [pos] *)
| EditMisplaced (pos : nat) (b : bool)      (* its checkbox *)
| EditNote (pos : nat) (txt : JsText)       (* its note *)
| EditLabel (txt : JsText)
| EditClusterNote (txt : JsText).

(** [itemAns.f = x; a.items[itemKey] = itemAns] *)
Definition editItem (f : ItemAnswer -> ItemAnswer) (pos : nat)
    (v : ClusterView) : option ClusterView :=
  match cv_cells v !! pos with
  | None => None
  | Some (d, r) =>
      let obj := f (deref v r) in
      Some {| cv_old := match r with
                        | OldItem d' => <[d' := obj]> (cv_old v)
                        | NewItem _ => cv_old v
                        end;
              cv_new := match r with
                        | NewItem p => <[p := obj]> (cv_new v)
                        | OldItem _ => cv_new v
                        end;
              cv_items := <[d := r]> (cv_items v);
              cv_label := cv_label v; cv_note := cv_note v;
              cv_cells := cv_cells v |}
  end.

(** The edited view; [None] when the item has no controls. *)
Definition applyEdit (e : ClusterEdit) (v : ClusterView) : option ClusterView :=
  match e with
  | EditCoherence pos val =>
      editItem (fun ia => {| coherence := Some val; misplaced := misplaced ia;
                             note := note ia |}) pos v
  | EditMisplaced pos b =>
      editItem (fun ia => {| coherence := coherence ia; misplaced := b;
                             note := note ia |}) pos v
  | EditNote pos txt =>
      editItem (fun ia => {| coherence := coherence ia;
                             misplaced := misplaced ia; note := txt |}) pos v
  | EditLabel txt =>
      Some {| cv_old := cv_old v; cv_new := cv_new v; cv_items := cv_items v;
              cv_label := txt; cv_note := cv_note v; cv_cells := cv_cells v |}
  | EditClusterNote txt =>
      Some {| cv_old := cv_old v; cv_new := cv_new v; cv_items := cv_items v;
              cv_label := cv_label v; cv_note := txt; cv_cells := cv_cells v |}
  end.

Section ClusterEditing.
Context `{Platform}.
Variable assignment : Assignment.
Variable expertId : string.

(** One callback: the edit, then [onUpdate(a)]. *)
Definition clusterCallback (task : Task) (e : ClusterEdit)
    (vw : ClusterView * World) : ClusterView * World :=
  match applyEdit e vw.1 with
  | Some v' => (v', onUpdate assignment expertId task (answerOf v') vw.2)
  | None => vw
  end.

Definition clusterCallbacks (task : Task) (es : list ClusterEdit)
    (vw : ClusterView * World) : ClusterView * World :=
  foldl (fun acc e => clusterCallback task e acc) vw es.
End ClusterEditing.

(** ** Decidable equality of sessions *)

Global Instance ItemAnswer_eq_dec : EqDecision ItemAnswer.
Proof. solve_decision. Defined.

Global Instance Answer_eq_dec : EqDecision Answer.
Proof. solve_decision. Defined.

Global Instance Session_eq_dec : EqDecision Session.
Proof. solve_decision. Defined.

(** ** Sample data *)

Module Sample.
Definition mkCluster (uid clustering cluster : string) (batch : option Z)
    (docs : list string) : Task :=
  {| type := "cluster"; task_uid := Some uid; task_id := None;
     clustering_id := clustering; cluster_id := Some cluster;
     batch_index := batch;
     items := map (fun d => {| doc_id := d; title := None; excerpt := None |}) docs;
     pair_id := None; doc1 := None; doc2 := None; same_cluster := false |}.

Definition mkPair (uid clustering d1 d2 : string) : Task :=
  {| type := "pair"; task_uid := Some uid; task_id := None;
     clustering_id := clustering; cluster_id := None; batch_index := None;
     items := [];
     pair_id := None;
     doc1 := Some {| ref_doc_id := d1; ref_title := None |};
     doc2 := Some {| ref_doc_id := d2; ref_title := None |};
     same_cluster := false |}.

(** A task whose [type] is neither of the two kinds. *)
Definition survey : Task :=
  {| type := "survey"; task_uid := Some "S1"; task_id := None;
     clustering_id := "A"; cluster_id := None; batch_index := None;
     items := []; pair_id := None; doc1 := None; doc2 := None;
     same_cluster := false |}.

Definition c1 : Task := mkCluster "A_c0_b000" "A" "0" (Some 0) ["d1"; "d2"; "d3"].
Definition p1 : Task := mkPair "A_p1" "A" "d1" "d9".

Definition rated (z : Z) : ItemAnswer :=
  {| coherence := Some z; misplaced := false; note := [] |}.

Definition c1_done : Answer :=
  ClusterAnswer (<["d1" := rated 5]> (<["d2" := rated 5]> (<["d3" := rated 5]> ∅)))
                [] [].

Definition two_tasks : Assignment :=
  {| assignment_id := "demo"; primary_clustering_id := Some "A";
     tasks := [c1; p1] |}.

Definition all_answered : gmap string Answer :=
  <["A_c0_b000" := c1_done]> (<["A_p1" := PairAnswer (Some 2) [] []]> ∅).



(** A stand-in for the browser: session records are stored as one of
    four texts that keep the [started] and [submitted] flags. *)
Definition stringify (s : Session) : string :=
  "{started:" +:+ (if started s then "true" else "false")
  +:+ ",submitted:" +:+ (if submitted s then "true" else "false") +:+ "}".

Definition parse (raw : string) : option Session :=
  if String.eqb raw "{started:false,submitted:false}" then Some defaultState
  else if String.eqb raw "{started:true,submitted:false}"
  then Some (set_started true defaultState)
  else if String.eqb raw "{started:false,submitted:true}"
  then Some (set_submitted true defaultState)
  else if String.eqb raw "{started:true,submitted:true}"
  then Some (set_submitted true (set_started true defaultState))
  else None.

Definition iso (ms : Z) : string :=
  if ms =? 0 then "1970-01-01T00:00:00.000Z" else "later".

#[export] Instance browser : Platform :=
  {| JSON_parse := parse; JSON_stringify := stringify; toISOString := iso;
     userAgent := "test-agent"; timeZone := "Europe/Athens" |}.

Definition blank_ui : UI :=
  {| screen := None; btnSubmitDisabled := false; submitStatus := StatusBlank;
     alerts := []; partOf := None |}.

Definition world_of (s : Session) : World :=
  {| state := s; ui := blank_ui; localStorage := ∅; network := [] |}.

(** Both tasks answered, the cursor past the last task. *)
Definition ready : World :=
  world_of (set_answers all_answered
              (set_taskIndex 2 (set_started true defaultState))).

(** The form and the iframe are in the page; the network is down. *)
Definition offline : IframeSubmit.Env :=
  {| IframeSubmit.tFinish := 5000; IframeSubmit.tSubmit := 5001;
     IframeSubmit.hex := "000102030405060708090a0b";
     IframeSubmit.formFound := true; IframeSubmit.iframeFound := true;
     IframeSubmit.transport := NetworkError |}.

Definition offline_fetch : FetchSubmit.Env :=
  {| FetchSubmit.tFinish := 5000; FetchSubmit.tSubmit := 5001;
     FetchSubmit.hex := "000102030405060708090a0b";
     FetchSubmit.formFound := true; FetchSubmit.fieldsFound := true;
     FetchSubmit.transport := NetworkError |}.

(** Both tasks answered, the cursor on the last task. *)
Definition on_last : World :=
  world_of (set_answers all_answered
              (set_taskIndex 1 (set_started true defaultState))).

(** The same page with the network up and the endpoint answering 200. *)
Definition online : IframeSubmit.Env :=
  {| IframeSubmit.tFinish := 6000; IframeSubmit.tSubmit := 6001;
     IframeSubmit.hex := "0c0d0e0f1011121314151617";
     IframeSubmit.formFound := true; IframeSubmit.iframeFound := true;
     IframeSubmit.transport := Response 200 "" |}.

Definition online_fetch : FetchSubmit.Env :=
  {| FetchSubmit.tFinish := 6000; FetchSubmit.tSubmit := 6001;
     FetchSubmit.hex := "0c0d0e0f1011121314151617";
     FetchSubmit.formFound := true; FetchSubmit.fieldsFound := true;
     FetchSubmit.transport := Response 200 "" |}.

(** The expert rates the three items of [c1], flagging the second. *)
Definition rate_c1 : list ClusterEdit :=
  [EditCoherence 0 5; EditCoherence 1 5; EditMisplaced 1 true;
   EditCoherence 2 4].

(** A record cut short while it was being written. *)
Definition torn : gmap string string :=
  {[ storageKey "E1" "demo" := "{started:tr" ]}.

(** The cursor on the pair task, which has no answer yet. *)
Definition unanswered : World :=
  world_of (set_answers (<["A_c0_b000" := c1_done]> ∅)
              (set_taskIndex 1 (set_started true defaultState))).

(** [on_last] with the pair task entered at clock 1000 and 250 ms already
    on its account. *)
Definition on_last_timed : World :=
  with_state (set_timing {[ "A_p1" := 250 ]} (Some "A_p1") (Some 1000)) on_last.

(** Three batches of one cluster that carry neither [task_uid] nor
    [task_id], stored in the order 2, 0, 1 of their [batch_index]. *)
Definition nokey (batch : Z) (docs : list string) : Task :=
  {| type := "cluster"; task_uid := None; task_id := None;
     clustering_id := "A"; cluster_id := Some "0"; batch_index := Some batch;
     items := map (fun d => {| doc_id := d; title := None; excerpt := None |}) docs;
     pair_id := None; doc1 := None; doc2 := None; same_cluster := false |}.

Definition n0 : Task := nokey 0 ["d1"; "d2"].


(** Two batches of one cluster that carry the same [task_uid], stored in
    the order 1, 0 of their [batch_index]. *)
Definition t1 : Task := mkCluster "A_c0" "A" "0" (Some 1) ["d4"; "d5"].




(** A stand-in for the browser that also keeps the session of [ready]
    whole: its record is a fifth text. *)
Definition stringify_ready (s : Session) : string :=
  if decide (s = state ready) then "{cursor:2,answers:2}" else stringify s.

Definition parse_ready (raw : string) : option Session :=
  if String.eqb raw "{cursor:2,answers:2}" then Some (state ready)
  else parse raw.

Definition browser_ready : Platform :=
  {| JSON_parse := parse_ready; JSON_stringify := stringify_ready;
     toISOString := iso; userAgent := "test-agent";
     timeZone := "Europe/Athens" |}.

(** The server has the assignment of expert E1 and no other. *)
Definition server (path : string) : option Assignment :=
  if String.eqb path "data/assignments/E1.json" then Some two_tasks else None.

(** What the storage holds after a submission, and with [ready] saved. *)
Definition after_submission : gmap string string :=
  {[ "pap_eval_v2::E1::demo" := "{started:true,submitted:true}" ]}.

Definition ready_saved : gmap string string :=
  {[ "pap_eval_v2::E1::demo" := "{cursor:2,answers:2}" ]}.
End Sample.

(** ** Vocabulary of the statements *)

(** A rating: an integer from 1 to 5.  A rating slot of the data model
    holds a rating or [null]. *)
Definition rating (v : option Z) : Prop :=
  exists z, v = Some z /\ 1 <= z <= 5.

Definition rating_slot (v : option Z) : Prop :=
  v = None \/ rating v.

Definition whitespace_only (s : JsText) : Prop :=
  Forall (fun c => is_white_space c = true) s.

(** The coherence an answer records for a document, if any. *)
Definition coherence_of (a : Answer) (d : string) : option Z :=
  match item_answer a d with
  | Some ia => coherence ia
  | None => None
  end.

(** The screen the persisted session calls for. *)
Definition screen_for (s : Session) (count : Z) : Screen :=
  if submitted s then ScreenThanks
  else if started s then
    if taskIndex s >=? count then ScreenSubmit else ScreenTask
  else ScreenWelcome.

(** The session after a run of [submit] that got past the validation loop
    and did not succeed. *)
Definition stamped `{Platform} (tFinish : Z) (hex : string) (s : Session)
    : Session :=
  set_lastSubmissionUuid (Some (randomId "sub" hex))
    (set_finishedAt (Some (toISOString tFinish)) s).

(** The tasks of the assignment that show the same cluster as [task]. *)
Definition cluster_group (a : Assignment) (task : Task) : list Task :=
  filter (fun t => same_cluster_as task t = true) (tasks a).



(** [t] is a cluster task that shows the cluster of [task]: the same
    [clustering_id] and the same [cluster_id]. *)
Definition same_group (task t : Task) : Prop :=
  type t = "cluster"
  /\ clustering_id t = clustering_id task
  /\ cluster_id t = cluster_id task.

Global Instance same_group_dec task t : Decision (same_group task t).
Proof. unfold same_group. apply _. Defined.


(** [s'] is [s] with the cursor on [j]. *)
Definition cursor_on (j : Z) (s s' : Session) : Prop :=
  taskIndex s' = j
  /\ started s' = started s /\ answers s' = answers s
  /\ startedAt s' = startedAt s /\ finishedAt s' = finishedAt s
  /\ clientSessionId s' = clientSessionId s /\ submitted s' = submitted s
  /\ lastSubmissionUuid s' = lastSubmissionUuid s
  /\ taskTimeMs s' = taskTimeMs s
  /\ _lastTaskKey s' = _lastTaskKey s
  /\ _lastTaskEnterAt s' = _lastTaskEnterAt s.

(** What a move of the cursor from the world [w] to the position [j]
    leaves behind in [w']: under [key] in the storage, the text of the old
    session with the cursor on [j] and the timing fields not yet touched;
    in memory, the cursor on [j], the answers as they were, the timing
    cursor on [newKey] since [now], and, when the timing cursor was on a
    task, the time since that task was entered added to its total and no
    other total changed. *)
Definition cursor_moved `{Platform} (key : string) (now j : Z)
    (newKey : option string) (w w' : World) : Prop :=
  (exists s, localStorage w' !! key = Some (JSON_stringify s)
             /\ cursor_on j (state w) s)
  /\ taskIndex (state w') = j
  /\ answers (state w') = answers (state w)
  /\ _lastTaskKey (state w') = newKey
  /\ _lastTaskEnterAt (state w') = Some now
  /\ (forall prev enter,
        _lastTaskKey (state w) = Some prev -> prev <> "" ->
        _lastTaskEnterAt (state w) = Some enter -> enter <> 0 ->
        taskTimeMs (state w') !! prev
        = Some (default 0 (taskTimeMs (state w) !! prev) + Z.max 0 (now - enter))
        /\ forall other, other <> prev ->
             taskTimeMs (state w') !! other = taskTimeMs (state w) !! other).

(** Two sessions that differ at most in the timing fields and the client
    session identifier. *)
Definition same_progress (s s' : Session) : Prop :=
  started s' = started s /\ taskIndex s' = taskIndex s
  /\ answers s' = answers s /\ startedAt s' = startedAt s
  /\ finishedAt s' = finishedAt s /\ submitted s' = submitted s
  /\ lastSubmissionUuid s' = lastSubmissionUuid s.

(** The item object [r] of a view carries a rating. *)
Definition rated (v : ClusterView) (r : ItemRef) : Prop :=
  truthy_num (coherence (deref v r)) = true.

(** The [doc_id] an item object of a view belongs to. *)
Definition ref_doc (v : ClusterView) (r : ItemRef) : option string :=
  match r with
  | OldItem d => Some d
  | NewItem p => fst <$> cv_cells v !! p
  end.

(** Every key of [a.items] and every item of the view holds an object of
    its own [doc_id], and a key that names an item of the view holds the
    object of one of the items with that [doc_id]. *)
Definition view_ok (v : ClusterView) : Prop :=
  (forall d r, cv_items v !! d = Some r -> ref_doc v r = Some d)
  /\ (forall p d r, cv_cells v !! p = Some (d, r) -> ref_doc v r = Some d)
  /\ (forall d r q r', cv_items v !! d = Some r ->
        cv_cells v !! q = Some (d, r') ->
        exists q', cv_cells v !! q' = Some (d, r)).

(** The rating scale hands the values 1 to 5 to its callback. *)
Definition scale_edit (e : ClusterEdit) : Prop :=
  match e with
  | EditCoherence _ val => 1 <= val <= 5
  | _ => True
  end.

(** The item an edit belongs to, if it is an item edit. *)
Definition edit_pos (e : ClusterEdit) : option nat :=
  match e with
  | EditCoherence p _ | EditMisplaced p _ | EditNote p _ => Some p
  | EditLabel _ | EditClusterNote _ => None
  end.

(** The view after a run of edits. *)
Definition applyEdits (es : list ClusterEdit) (v : ClusterView) : ClusterView :=
  foldl (fun acc e => default acc (applyEdit e acc)) v es.

(** * Properties *)

(** ** Validator *)

Lemma rating_truthy v : rating v -> truthy_num v = true.
Proof.
  intros (z & -> & Hz). simpl.
  destruct (Z.eqb_spec z 0); [lia | reflexivity].
Qed.

Lemma slot_truthy_rating v : rating_slot v -> truthy_num v = true -> rating v.
Proof.
  intros [-> | Hr] Ht; [discriminate | exact Hr].
Qed.

Lemma trimStart_nil s : trimStart s = [] <-> whitespace_only s.
Proof.
  unfold whitespace_only. induction s as [| c s IH]; simpl.
  - split; [constructor | reflexivity].
  - destruct (is_white_space c) eqn:Hc.
    + rewrite IH. split.
      * intros Hs. constructor; assumption.
      * intros Hs. inversion Hs; assumption.
    + split; [discriminate |].
      intros Hs. inversion Hs; congruence.
Qed.

Lemma trim_blank s : truthy_text (trim s) = false <-> whitespace_only s.
Proof.
  unfold trim. split.
  - intros Ht.
    destruct (rev (trimStart (rev (trimStart s)))) eqn:Hr; [| discriminate].
    apply (f_equal (@rev N)) in Hr. rewrite rev_involutive in Hr. simpl in Hr.
    apply trimStart_nil in Hr.
    unfold whitespace_only in Hr. apply Forall_rev in Hr.
    rewrite rev_involutive in Hr.
    apply trimStart_nil.
    destruct (trimStart s) as [| c r] eqn:Hs; [reflexivity |].
    exfalso. inversion Hr as [| ? ? Hc _]; subst.
    clear -Hs Hc. induction s as [| d s IH]; simpl in Hs; [discriminate |].
    destruct (is_white_space d) eqn:Hd; [auto |].
    injection Hs as -> _. congruence.
  - intros Hs. apply trimStart_nil in Hs. rewrite Hs. reflexivity.
Qed.

Lemma validateTask_cluster_eq task answer :
  type task = "cluster" ->
  validateTask task answer =
    match answer with
    | None => {| ok := false; msg := msg_answer_cluster |}
    | Some ans => validate_items (items task) ans
    end.
Proof. intros Ht. unfold validateTask. rewrite Ht. reflexivity. Qed.

Lemma validateTask_pair_eq task answer :
  type task = "pair" ->
  validateTask task answer =
    match answer with
    | None => {| ok := false; msg := msg_rate_pair |}
    | Some ans =>
        if negb (truthy_num (ans_relatedness ans)) then
          {| ok := false; msg := msg_rate_pair |}
        else if (Number (ans_relatedness ans) >=? 4)
                && negb (truthy_text (trim (default [] (ans_common_theme ans))))
        then {| ok := false; msg := msg_common_theme |}
        else valid
    end.
Proof. intros Ht. unfold validateTask. rewrite Ht. reflexivity. Qed.

Lemma validateTask_other task answer :
  type task <> "cluster" -> type task <> "pair" ->
  validateTask task answer = valid.
Proof.
  intros Hc Hp. unfold validateTask.
  destruct (String.eqb_spec (type task) "cluster"); [contradiction |].
  destruct (String.eqb_spec (type task) "pair"); [contradiction |].
  reflexivity.
Qed.

(** Pair tasks on answers of the data model, where a rating slot holds a
    rating or [null]: the verdict is "rate the pair" when there is no
    answer or no rating, "common theme required" when the rating is 4 or 5
    and the common theme is blank, and [ok = true] in every other case. *)
Theorem validateTask_pair (task : Task) (answer : option Answer) :
  type task = "pair" ->
  (forall a, answer = Some a -> rating_slot (ans_relatedness a)) ->
  ((answer = None \/
    exists a, answer = Some a /\ ~ rating (ans_relatedness a)) ->
   validateTask task answer = {| ok := false; msg := msg_rate_pair |})
  /\ (forall a, answer = Some a ->
        rating (ans_relatedness a) ->
        Number (ans_relatedness a) >= 4 ->
        whitespace_only (default [] (ans_common_theme a)) ->
        validateTask task answer = {| ok := false; msg := msg_common_theme |})
  /\ (forall a, answer = Some a ->
        rating (ans_relatedness a) ->
        ~ (Number (ans_relatedness a) >= 4
           /\ whitespace_only (default [] (ans_common_theme a))) ->
        validateTask task answer = {| ok := true; msg := "" |}).
Proof.
  intros Ht Hwf. rewrite (validateTask_pair_eq _ _ Ht).
  split; [| split].
  - intros [-> | (a & -> & Hn)]; [reflexivity |].
    destruct (truthy_num (ans_relatedness a)) eqn:Hr; [| reflexivity].
    exfalso. apply Hn. apply slot_truthy_rating; auto.
  - intros a -> Hr Hge Hb.
    rewrite (rating_truthy _ Hr). simpl.
    apply trim_blank in Hb. rewrite Hb.
    destruct (Z.geb_spec (Number (ans_relatedness a)) 4); [reflexivity | lia].
  - intros a -> Hr Hn.
    rewrite (rating_truthy _ Hr). simpl.
    destruct (Z.geb_spec (Number (ans_relatedness a)) 4) as [Hge | Hlt];
      [| reflexivity].
    destruct (truthy_text (trim (default [] (ans_common_theme a)))) eqn:Hb;
      [reflexivity |].
    exfalso. apply Hn. split; [lia |]. apply trim_blank. exact Hb.
Qed.

Lemma validateTask_pair_witness :
  type Sample.p1 = "pair"
  /\ (forall a, Some (PairAnswer (Some 4) [] []) = Some a ->
        rating_slot (ans_relatedness a))
  /\ validateTask Sample.p1 (Some (PairAnswer (Some 4) [] []))
     = {| ok := false; msg := msg_common_theme |}.
Proof.
  assert (Hr : rating (Some 4)) by (exists 4; split; [reflexivity | lia]).
  assert (Hwf : forall a, Some (PairAnswer (Some 4) [] []) = Some a ->
                  rating_slot (ans_relatedness a)).
  { intros a Ha. injection Ha as <-. right. exact Hr. }
  split; [reflexivity | split; [exact Hwf |]].
  apply (proj1 (proj2 (validateTask_pair Sample.p1 _ eq_refl Hwf))
           (PairAnswer (Some 4) [] []) eq_refl Hr).
  - simpl. lia.
  - constructor.
Defined.

(** The validator does not look at the range of a rating: any number but
    0 counts as rated. *)
Lemma validateTask_pair_unranged task z theme nt :
  type task = "pair" -> z <> 0 ->
  z < 4 \/ ~ whitespace_only theme ->
  validateTask task (Some (PairAnswer (Some z) theme nt)) = valid.
Proof.
  intros Ht Hz Hth. rewrite (validateTask_pair_eq _ _ Ht). simpl.
  destruct (Z.eqb_spec z 0); [contradiction |]. simpl.
  destruct (Z.geb_spec z 4) as [Hge | Hlt]; [| reflexivity].
  destruct (truthy_text (trim theme)) eqn:Hb; [reflexivity |].
  exfalso. apply trim_blank in Hb. destruct Hth; [lia | contradiction].
Qed.

Lemma validate_items_ok its a :
  Forall (fun it => rating_slot (coherence_of a (doc_id it))) its ->
  ok (validate_items its a) = true <->
  Forall (fun it => rating (coherence_of a (doc_id it))) its.
Proof.
  induction its as [| it its IH]; intros Hwf; simpl.
  - split; [constructor | reflexivity].
  - inversion Hwf as [| ? ? Hit Hrest]; subst.
    specialize (IH Hrest). unfold coherence_of in *.
    destruct (item_answer a (doc_id it)) as [ia |] eqn:Hia.
    + destruct (truthy_num (coherence ia)) eqn:Hc.
      * rewrite IH. split.
        -- intros Hf. constructor; [| exact Hf].
           rewrite Hia. apply slot_truthy_rating; assumption.
        -- intros Hf. inversion Hf; assumption.
      * simpl. split; [discriminate |].
        intros Hf. inversion Hf as [| ? ? Hr _]; subst.
        rewrite Hia in Hr. apply rating_truthy in Hr. congruence.
    + simpl. split; [discriminate |].
      intros Hf. inversion Hf as [| ? ? Hr _]; subst.
      rewrite Hia in Hr. destruct Hr as (z & Hz & _). discriminate.
Qed.

Lemma validate_items_ext its a1 a2 :
  (forall d, coherence_of a1 d = coherence_of a2 d) ->
  validate_items its a1 = validate_items its a2.
Proof.
  intros Heq. induction its as [| it its IH]; simpl; [reflexivity |].
  specialize (Heq (doc_id it)). unfold coherence_of in Heq.
  destruct (item_answer a1 (doc_id it)) as [i1 |],
           (item_answer a2 (doc_id it)) as [i2 |]; simpl.
  - rewrite Heq, IH. reflexivity.
  - rewrite Heq. reflexivity.
  - rewrite <- Heq. reflexivity.
  - reflexivity.
Qed.

(** Cluster tasks on answers of the data model: the verdict is [ok = true]
    exactly when there is an answer and it records a coherence rating for
    the [doc_id] of every item of the task; two answers that record the
    same coherence for every document get the same verdict. *)
Theorem validateTask_cluster (task : Task) (answer : option Answer) :
  type task = "cluster" ->
  (forall a, answer = Some a ->
     Forall (fun it => rating_slot (coherence_of a (doc_id it))) (items task)) ->
  (ok (validateTask task answer) = true <->
   exists a, answer = Some a /\
     Forall (fun it => rating (coherence_of a (doc_id it))) (items task))
  /\ (forall a1 a2,
        (forall d, coherence_of a1 d = coherence_of a2 d) ->
        validateTask task (Some a1) = validateTask task (Some a2)).
Proof.
  intros Ht Hwf. split.
  - rewrite (validateTask_cluster_eq _ _ Ht).
    destruct answer as [a |].
    + rewrite (validate_items_ok _ _ (Hwf a eq_refl)). split.
      * intros Hf. exists a. split; [reflexivity | exact Hf].
      * intros (a' & Ha & Hf). injection Ha as <-. exact Hf.
    + simpl. split; [discriminate |]. intros (a & Ha & _). discriminate.
  - intros a1 a2 Heq. rewrite !(validateTask_cluster_eq _ _ Ht).
    apply validate_items_ext. exact Heq.
Qed.

Lemma validateTask_cluster_witness :
  type Sample.c1 = "cluster"
  /\ ok (validateTask Sample.c1 (Some Sample.c1_done)) = true
  /\ validateTask Sample.c1
       (Some (ClusterAnswer
          (<["d1" := {| coherence := Some 5; misplaced := true; note := [0x41%N] |}]>
             (<["d2" := Sample.rated 5]> (<["d3" := Sample.rated 5]> ∅)))
          [0x42%N] [0x43%N]))
     = validateTask Sample.c1 (Some Sample.c1_done).
Proof.
  assert (Hwf : forall a, Some Sample.c1_done = Some a ->
            Forall (fun it => rating_slot (coherence_of a (doc_id it)))
                   (items Sample.c1)).
  { intros a Ha. injection Ha as <-.
    apply List.Forall_forall. intros it Hin. simpl in Hin.
    destruct Hin as [<- | [<- | [<- | []]]];
      right; exists 5; (split; [reflexivity | lia]). }
  pose proof (validateTask_cluster Sample.c1 (Some Sample.c1_done) eq_refl Hwf)
    as [Hok Hext].
  split; [reflexivity | split].
  - apply Hok. exists Sample.c1_done. split; [reflexivity |].
    apply List.Forall_forall. intros it Hin. simpl in Hin.
    destruct Hin as [<- | [<- | [<- | []]]];
      exists 5; (split; [reflexivity | lia]).
  - apply Hext. intros d. unfold coherence_of, item_answer. simpl.
    unfold Sample.c1_done. simpl.
    destruct (decide (d = "d1")) as [-> | Hd]; [reflexivity |].
    rewrite !(lookup_insert_ne _ "d1") by congruence. reflexivity.
Defined.

(** ** Facts about the state machine *)

Section MachineFacts.
Context `{Platform}.
Variable assignment : Assignment.
Variable expertId : string.

Local Abbreviation persistA := (persist assignment expertId).
Local Abbreviation renderA := (render assignment).

Lemma stateKey_truthy : truthy_str (stateKey assignment expertId) = true.
Proof. reflexivity. Qed.

Lemma persist_eq w :
  persistA w =
  with_storage (saveState (stateKey assignment expertId) (state w)) w.
Proof. unfold persist. rewrite stateKey_truthy. reflexivity. Qed.

Lemma persist_state w : state (persistA w) = state w.
Proof. rewrite persist_eq. reflexivity. Qed.

Lemma persist_ui w : ui (persistA w) = ui w.
Proof. rewrite persist_eq. reflexivity. Qed.

Lemma persist_network w : network (persistA w) = network w.
Proof. rewrite persist_eq. reflexivity. Qed.

Lemma persist_stored w :
  localStorage (persistA w) !! stateKey assignment expertId
  = Some (JSON_stringify (state w)).
Proof. rewrite persist_eq. apply lookup_insert_eq. Qed.

Lemma updateTiming_taskIndex now key s :
  taskIndex (updateTimingOnTaskSwitch now key s) = taskIndex s.
Proof. reflexivity. Qed.

(** [render] touches the timing fields of the session and nothing else. *)
Lemma render_state now w :
  exists key,
    state (renderA now w).1 = state w \/
    state (renderA now w).1 = updateTimingOnTaskSwitch now key (state w).
Proof.
  unfold render.
  destruct (taskIndex (state w) >=? taskCount assignment).
  - exists None. right. reflexivity.
  - destruct (task_at assignment (taskIndex (state w))) as [task |].
    + exists (getAnswerKey task). right.
      destruct (String.eqb (type task) "cluster");
        destruct (paint_throws task _); reflexivity.
    + exists None. left. reflexivity.
Qed.

Lemma render_taskIndex now w :
  taskIndex (state (renderA now w).1) = taskIndex (state w).
Proof.
  destruct (render_state now w) as (key & [-> | ->]); reflexivity.
Qed.

Lemma render_alerts now w : alerts (ui (renderA now w).1) = alerts (ui w).
Proof.
  unfold render.
  destruct (taskIndex (state w) >=? taskCount assignment); [reflexivity |].
  destruct (task_at assignment (taskIndex (state w))) as [task |];
    [| reflexivity].
  destruct (String.eqb (type task) "cluster");
    destruct (paint_throws task _); reflexivity.
Qed.

Lemma render_screen now w :
  screen (ui (renderA now w).1) =
  if taskIndex (state w) >=? taskCount assignment
  then Some ScreenSubmit else screen (ui w).
Proof.
  unfold render.
  destruct (taskIndex (state w) >=? taskCount assignment); [reflexivity |].
  destruct (task_at assignment (taskIndex (state w))) as [task |];
    [| reflexivity].
  destruct (String.eqb (type task) "cluster");
    destruct (paint_throws task _); reflexivity.
Qed.

Lemma clamp_range n lo hi : lo <= hi -> lo <= clamp n lo hi <= hi.
Proof. unfold clamp. lia. Qed.

Lemma taskCount_nonneg : 0 <= taskCount assignment.
Proof. unfold taskCount. lia. Qed.

Lemma task_at_range i task :
  task_at assignment i = Some task -> 0 <= i < taskCount assignment.
Proof.
  unfold task_at, taskCount. destruct (Z.ltb_spec i 0); [discriminate |].
  intros Hl. apply lookup_lt_Some in Hl. lia.
Qed.

Lemma btnBack_taskIndex now w :
  taskIndex (state (btnBack assignment expertId now w).1)
  = clamp (taskIndex (state w) - 1) 0 (taskCount assignment).
Proof.
  unfold btnBack. rewrite render_taskIndex, persist_state. reflexivity.
Qed.

Lemma btnNext_accept now w task :
  task_at assignment (taskIndex (state w)) = Some task ->
  ok (validateTask task (answer_of (state w) task)) = true ->
  taskIndex (state (btnNext assignment expertId now w).1)
  = clamp (taskIndex (state w) + 1) 0 (taskCount assignment)
  /\ alerts (ui (btnNext assignment expertId now w).1) = alerts (ui w).
Proof.
  intros Ht Hok. unfold btnNext. rewrite Ht, Hok. simpl.
  rewrite render_taskIndex, render_alerts, persist_state, persist_ui.
  split; reflexivity.
Qed.

Lemma btnNext_reject now w task :
  task_at assignment (taskIndex (state w)) = Some task ->
  ok (validateTask task (answer_of (state w) task)) = false ->
  btnNext assignment expertId now w
  = (alert (msg (validateTask task (answer_of (state w) task))) w, Done).
Proof. intros Ht Hok. unfold btnNext. rewrite Ht, Hok. reflexivity. Qed.

Lemma btnNext_no_task now w :
  task_at assignment (taskIndex (state w)) = None ->
  btnNext assignment expertId now w = (w, Thrown "TypeError").
Proof. intros Ht. unfold btnNext. rewrite Ht. reflexivity. Qed.
End MachineFacts.

(** ** Navigation and start-up *)

Section Navigation.
Context `{Platform}.
Variable assignment : Assignment.
Variable expertId : string.

Lemma init_loaded_screen hex now ui0 ls :
  screen (ui (init_loaded assignment expertId hex now ui0 ls))
  = Some (screen_for
            (default defaultState (loadState (stateKey assignment expertId) ls))
            (taskCount assignment)).
Proof.
  unfold init_loaded, screen_for.
  set (st0 := default defaultState (loadState _ ls)).
  assert (Hst : exists st1 ls1,
            (if truthy_ostr (clientSessionId st0) then (st0, ls)
             else let '(v, ls') := ensureClientSessionId expertId hex ls in
                  (set_clientSessionId (Some v) st0, ls')) = (st1, ls1)
            /\ submitted st1 = submitted st0 /\ started st1 = started st0
            /\ taskIndex st1 = taskIndex st0).
  { destruct (truthy_ostr (clientSessionId st0)).
    - exists st0, ls. repeat split.
    - destruct (ensureClientSessionId expertId hex ls) as [v ls'].
      eexists _, _. repeat split. }
  destruct Hst as (st1 & ls1 & -> & <- & <- & <-).
  destruct (submitted st1); [rewrite persist_ui; reflexivity |].
  destruct (started st1); [| rewrite persist_ui; reflexivity].
  destruct (taskIndex st1 >=? taskCount assignment) eqn:Hge;
    match goal with
    | |- context [render assignment now ?w0] =>
        pose proof (render_screen assignment now w0) as Hs;
        destruct (render assignment now w0) as [w2 [| e]]
    end; simpl in Hs; rewrite Hge in Hs;
    rewrite ?persist_ui; simpl; exact Hs.
Qed.
(** A stored session that is already submitted goes straight to the
    thanks screen: [render] is not run, so the session is the stored one
    (with its client session identifier), and nothing is sent. *)
Lemma init_loaded_submitted hex now ui0 ls st :
  loadState (stateKey assignment expertId) ls = Some st ->
  submitted st = true ->
  truthy_ostr (clientSessionId st) = true ->
  init_loaded assignment expertId hex now ui0 ls
  = persist assignment expertId
      (showScreen ScreenThanks
         {| state := st; ui := ui0; localStorage := ls; network := [] |}).
Proof.
  intros Hl Hs Hc. unfold init_loaded. rewrite Hl. simpl.
  rewrite Hc, Hs. reflexivity.
Qed.
End Navigation.

(** C10.  A task that is neither a cluster nor a pair task is valid with
    any answer and with none; with such a task under the cursor, next
    advances without an alert, and the validation loop of [submit] passes
    exactly when the remaining tasks validate. *)
Theorem other_task_never_blocks (task : Task) :
  type task <> "cluster" -> type task <> "pair" ->
  (forall answer, validateTask task answer = {| ok := true; msg := "" |})
  /\ (forall (P : Platform) a expertId now w,
        task_at a (taskIndex (state w)) = Some task ->
        taskIndex (state (btnNext a expertId now w).1)
        = clamp (taskIndex (state w) + 1) 0 (taskCount a)
        /\ alerts (ui (btnNext a expertId now w).1) = alerts (ui w))
  /\ (forall a s,
        all_valid a s = true <->
        forall t, In t (tasks a) -> t <> task ->
                  ok (validateTask t (answer_of s t)) = true).
Proof.
  intros Hc Hp.
  assert (Hv : forall answer, validateTask task answer = valid)
    by (intros; apply validateTask_other; assumption).
  split; [exact Hv | split].
  - intros P a expertId now w Ht. apply (btnNext_accept _ _ _ _ _ Ht).
    rewrite Hv. reflexivity.
  - intros a s. unfold all_valid. rewrite forallb_forall. split.
    + intros Hall t Hin _. apply Hall. exact Hin.
    + intros Hall t Hin.
      destruct (String.eqb_spec (type t) "cluster") as [Htc | Htc];
        [apply Hall; [exact Hin | congruence] |].
      destruct (String.eqb_spec (type t) "pair") as [Htp | Htp];
        [apply Hall; [exact Hin | congruence] |].
      rewrite (validateTask_other _ _ Htc Htp). reflexivity.
Qed.

Lemma other_task_never_blocks_witness :
  type Sample.survey <> "cluster" /\ type Sample.survey <> "pair"
  /\ validateTask Sample.survey None = {| ok := true; msg := "" |}.
Proof.
  assert (Hc : type Sample.survey <> "cluster") by discriminate.
  assert (Hp : type Sample.survey <> "pair") by discriminate.
  split; [exact Hc | split; [exact Hp |]].
  exact (proj1 (other_task_never_blocks Sample.survey Hc Hp) None).
Defined.

(** ** Timing accumulator *)

Lemma updateTiming_armed now next s key enter :
  _lastTaskKey s = Some key -> key <> "" ->
  _lastTaskEnterAt s = Some enter -> enter <> 0 ->
  updateTimingOnTaskSwitch now next s =
  set_timing
    (<[key := default 0 (taskTimeMs s !! key) + Z.max 0 (now - enter)]>
       (taskTimeMs s))
    next (Some now) s.
Proof.
  intros Hk Hne He Hz. unfold updateTimingOnTaskSwitch.
  rewrite Hk, He. simpl. unfold truthy_str.
  destruct (String.eqb_spec key ""); [contradiction |].
  destruct (Z.eqb_spec enter 0); [contradiction |].
  reflexivity.
Qed.

Lemma render_timing `{Platform} (a : Assignment) now w :
  (taskIndex (state w) >= taskCount a ->
   state (render a now w).1 = updateTimingOnTaskSwitch now None (state w))
  /\ (forall task, task_at a (taskIndex (state w)) = Some task ->
      state (render a now w).1
      = updateTimingOnTaskSwitch now (getAnswerKey task) (state w)).
Proof.
  unfold render. split.
  - intros Hge.
    destruct (Z.geb_spec (taskIndex (state w)) (taskCount a)); [reflexivity | lia].
  - intros task Ht. pose proof (task_at_range _ _ _ Ht) as Hr.
    destruct (Z.geb_spec (taskIndex (state w)) (taskCount a)); [lia |].
    rewrite Ht.
    destruct (String.eqb (type task) "cluster");
      destruct (paint_throws task _); reflexivity.
Qed.

(** C8.  With a previous task [key] entered at [enter], a switch at clock
    [now] adds [max 0 (now - enter)] to the running total of [key], leaves
    every other total alone and re-arms the cursor on the next task;
    [render] does this on every cursor position, past the end included;
    and a visit to [key], then to another task, then to [key] again adds
    the time of both visits to the total of [key]. *)
Theorem timing_accumulates (now : Z) (next : option string) (s : Session)
    (key : string) (enter : Z) :
  _lastTaskKey s = Some key -> key <> "" ->
  _lastTaskEnterAt s = Some enter -> enter <> 0 ->
  let s' := updateTimingOnTaskSwitch now next s in
  taskTimeMs s' !! key
    = Some (default 0 (taskTimeMs s !! key) + Z.max 0 (now - enter))
  /\ (forall other, other <> key -> taskTimeMs s' !! other = taskTimeMs s !! other)
  /\ _lastTaskKey s' = next
  /\ _lastTaskEnterAt s' = Some now
  /\ (forall (P : Platform) a w, state w = s ->
        (taskIndex s >= taskCount a ->
         state (render a now w).1 = updateTimingOnTaskSwitch now None s)
        /\ (forall task, task_at a (taskIndex s) = Some task ->
            state (render a now w).1
            = updateTimingOnTaskSwitch now (getAnswerKey task) s))
  /\ (forall other t2 t3 next',
        other <> "" -> other <> key -> now <> 0 -> t2 <> 0 ->
        let sB := updateTimingOnTaskSwitch now (Some other) s in
        let sA := updateTimingOnTaskSwitch t2 (Some key) sB in
        let sEnd := updateTimingOnTaskSwitch t3 next' sA in
        taskTimeMs sEnd !! key
        = Some (default 0 (taskTimeMs s !! key)
                + Z.max 0 (now - enter) + Z.max 0 (t3 - t2))).
Proof.
  intros Hk Hne He Hz s'.
  assert (Hs : forall nx, updateTimingOnTaskSwitch now nx s = _)
    by (intros nx; apply (updateTiming_armed now nx s key enter); assumption).
  subst s'. rewrite Hs.
  split; [apply lookup_insert_eq |].
  split; [intros other Ho; apply lookup_insert_ne; congruence |].
  split; [reflexivity |]. split; [reflexivity |].
  split; [intros P a w <-; apply render_timing |].
  intros other t2 t3 next' Hoe Hok Hnow Ht2 sB sA sEnd.
  assert (H0 : sB = _) by (subst sB; apply Hs).
  assert (HB : sA = _)
    by (apply (updateTiming_armed t2 (Some key) sB other now);
        rewrite ?H0; auto).
  assert (HA : sEnd = _)
    by (apply (updateTiming_armed t3 next' sA key t2);
        rewrite ?HB; auto).
  clearbody sEnd sA sB. subst sEnd sA sB. simpl.
  rewrite lookup_insert_eq, lookup_insert_ne, lookup_insert_eq by congruence.
  reflexivity.
Qed.

Lemma timing_accumulates_witness :
  let s := set_timing (<["A" := 700]> ∅) (Some "A") (Some 1000) defaultState in
  _lastTaskKey s = Some "A" /\ "A" <> ""
  /\ _lastTaskEnterAt s = Some 1000 /\ 1000 <> 0
  /\ taskTimeMs (updateTimingOnTaskSwitch 4000 (Some "B") s) !! "A" = Some 3700.
Proof.
  intros s.
  assert (Hne : "A" <> "") by discriminate.
  assert (Hz : 1000 <> 0) by discriminate.
  repeat (split; [first [reflexivity | assumption] |]).
  exact (proj1 (timing_accumulates 4000 (Some "B") s "A" 1000
                  eq_refl Hne eq_refl Hz)).
Defined.

(** ** Submission pipeline *)

Section Submission.
Context `{Platform}.
Variable assignment : Assignment.
Variable expertId : string.

Lemma fetch_submit_submitted e w :
  submitted (state w) = true ->
  FetchSubmit.submit assignment expertId e w = showScreen ScreenThanks w.
Proof. intros Hs. unfold FetchSubmit.submit. rewrite Hs. reflexivity. Qed.

Lemma iframe_submit_submitted e w :
  submitted (state w) = true ->
  IframeSubmit.submit assignment expertId e w = showScreen ScreenThanks w.
Proof. intros Hs. unfold IframeSubmit.submit. rewrite Hs. reflexivity. Qed.

(** C1.  On a session that is already marked submitted, [submit] (either
    revision) only shows the thanks screen: no post goes to the network,
    the session (answers, startedAt, finishedAt, lastSubmissionUuid,
    taskTimeMs and the rest) and the stored records are what they were,
    and any further call does the same. *)
Theorem submit_idempotent (w : World) :
  submitted (state w) = true ->
  (forall e,
     let w' := FetchSubmit.submit assignment expertId e w in
     w' = showScreen ScreenThanks w
     /\ network w' = network w /\ state w' = state w
     /\ localStorage w' = localStorage w
     /\ screen (ui w') = Some ScreenThanks
     /\ forall e2, FetchSubmit.submit assignment expertId e2 w' = w')
  /\ (forall e,
     let w' := IframeSubmit.submit assignment expertId e w in
     w' = showScreen ScreenThanks w
     /\ network w' = network w /\ state w' = state w
     /\ localStorage w' = localStorage w
     /\ screen (ui w') = Some ScreenThanks
     /\ forall e2, IframeSubmit.submit assignment expertId e2 w' = w').
Proof.
  intros Hs.
  assert (Hs' : submitted (state (showScreen ScreenThanks w)) = true)
    by exact Hs.
  split; intros e w'; subst w'.
  - rewrite (fetch_submit_submitted _ _ Hs).
    repeat (split; [reflexivity |]).
    intros e2. rewrite (fetch_submit_submitted _ _ Hs'). reflexivity.
  - rewrite (iframe_submit_submitted _ _ Hs).
    repeat (split; [reflexivity |]).
    intros e2. rewrite (iframe_submit_submitted _ _ Hs'). reflexivity.
Qed.

Lemma stamp_submission_state tFinish hex w :
  state (stamp_submission assignment expertId tFinish hex w)
  = set_lastSubmissionUuid (Some (randomId "sub" hex))
      (set_finishedAt (Some (toISOString tFinish)) (state w)).
Proof. reflexivity. Qed.

Lemma stamp_submission_network tFinish hex w :
  network (stamp_submission assignment expertId tFinish hex w) = network w.
Proof. reflexivity. Qed.

Lemma stamp_submission_ui tFinish hex w :
  ui (stamp_submission assignment expertId tFinish hex w) = ui w.
Proof. reflexivity. Qed.

Lemma mark_submitted_state w :
  state (mark_submitted assignment expertId w) = set_submitted true (state w).
Proof. reflexivity. Qed.

(** The [fetch] revision does what the transport-failure rule asks: when
    the post is sent and [fetch] rejects or answers with a status outside
    200..299, [submitted] stays [false], the submit control is enabled
    again, an error status is shown, and of the session only [finishedAt]
    and [lastSubmissionUuid] have changed, so that a later run can
    succeed. *)
Lemma fetch_submit_transport_failure (e : FetchSubmit.Env) (w : World) :
  submitted (state w) = false ->
  all_valid assignment (state w) = true ->
  FetchSubmit.formFound e = true ->
  FetchSubmit.fieldsFound e = true ->
  (FetchSubmit.transport e = NetworkError \/
   exists st body, FetchSubmit.transport e = Response st body
                   /\ response_ok st = false) ->
  let w' := FetchSubmit.submit assignment expertId e w in
  submitted (state w') = false
  /\ btnSubmitDisabled (ui w') = false
  /\ transport_error (submitStatus (ui w')) = true
  /\ state w' = stamped (FetchSubmit.tFinish e) (FetchSubmit.hex e) (state w)
  /\ length (network w') = S (length (network w))
  /\ forall e2 st body,
       FetchSubmit.formFound e2 = true -> FetchSubmit.fieldsFound e2 = true ->
       FetchSubmit.transport e2 = Response st body -> response_ok st = true ->
       submitted (state (FetchSubmit.submit assignment expertId e2 w')) = true.
Proof.
  intros Hs Hv Hf Hi Ht w'.
  assert (Hw' : state w' = stamped (FetchSubmit.tFinish e) (FetchSubmit.hex e) (state w)
                /\ btnSubmitDisabled (ui w') = false
                /\ transport_error (submitStatus (ui w')) = true
                /\ length (network w') = S (length (network w))).
  { subst w'. unfold FetchSubmit.submit. rewrite Hs. simpl. rewrite Hv, Hf, Hi.
    simpl.
    destruct Ht as [-> | (st & body & -> & Hok)]; [| rewrite Hok]; simpl;
      rewrite length_app; simpl; repeat split; lia. }
  destruct Hw' as (Hst & Hb & He & Hn).
  split; [rewrite Hst; exact Hs |]. split; [exact Hb |].
  split; [exact He |]. split; [exact Hst |]. split; [exact Hn |].
  intros e2 st body Hf2 Hi2 Ht2 Hok2.
  assert (Hv' : all_valid assignment (state w') = true)
    by (rewrite Hst; exact Hv).
  assert (Hs' : submitted (state w') = false) by (rewrite Hst; exact Hs).
  clearbody w'. unfold FetchSubmit.submit. rewrite Hs'. simpl.
  rewrite Hv', Hf2, Hi2, Ht2, Hok2. reflexivity.
Qed.

(** The iframe revision never learns what became of the post: with the
    form and the iframe in the page, the session is marked submitted and
    the thanks screen is shown whatever the transport did. *)
Lemma iframe_submit_ignores_transport (e : IframeSubmit.Env) (w : World) :
  submitted (state w) = false ->
  all_valid assignment (state w) = true ->
  IframeSubmit.formFound e = true ->
  IframeSubmit.iframeFound e = true ->
  let w' := IframeSubmit.submit assignment expertId e w in
  submitted (state w') = true
  /\ screen (ui w') = Some ScreenThanks
  /\ submitStatus (ui w') = StatusBlank.
Proof.
  intros Hs Hv Hf Hi w'. subst w'.
  unfold IframeSubmit.submit, IframeSubmit.submitViaNetlifyForm.
  rewrite Hs. simpl. rewrite Hv, Hf, Hi. simpl.
  destruct (IframeSubmit.transport e); repeat split.
Qed.

(** Its failure path is taken when the form or the iframe is missing. *)
Lemma iframe_submit_missing_element (e : IframeSubmit.Env) (w : World) :
  submitted (state w) = false ->
  all_valid assignment (state w) = true ->
  IframeSubmit.formFound e = false \/ IframeSubmit.iframeFound e = false ->
  let w' := IframeSubmit.submit assignment expertId e w in
  submitted (state w') = false
  /\ btnSubmitDisabled (ui w') = false
  /\ submitStatus (ui w') = StatusSubmitError
  /\ network w' = network w.
Proof.
  intros Hs Hv Hm w'. subst w'.
  unfold IframeSubmit.submit, IframeSubmit.submitViaNetlifyForm.
  rewrite Hs. simpl. rewrite Hv. simpl.
  destruct (IframeSubmit.formFound e), (IframeSubmit.iframeFound e);
    destruct Hm; try discriminate; simpl; repeat split; exact Hs.
Qed.
End Submission.

Lemma submit_idempotent_witness :
  submitted (state (Sample.world_of (set_submitted true defaultState))) = true
  /\ network (@FetchSubmit.submit Sample.browser Sample.two_tasks "E1"
                Sample.offline_fetch
                (Sample.world_of (set_submitted true defaultState))) = []
  /\ network (@IframeSubmit.submit Sample.browser Sample.two_tasks "E1"
                Sample.offline
                (Sample.world_of (set_submitted true defaultState))) = [].
Proof.
  pose proof (@submit_idempotent Sample.browser Sample.two_tasks "E1"
                (Sample.world_of (set_submitted true defaultState)) eq_refl)
    as [Hf Hi].
  split; [reflexivity | split].
  - exact (proj1 (proj2 (Hf Sample.offline_fetch))).
  - exact (proj1 (proj2 (Hi Sample.offline))).
Defined.

(** C4.  Iframe revision with the network down: the session was not
    submitted, every task validates, the post cannot be delivered, and yet
    [submit] marks the session submitted and shows the thanks screen with
    no error; the [fetch] revision on the same input keeps
    [submitted = false], enables the submit control and shows the network
    error. *)
Theorem iframe_submit_network_down :
  submitted (state Sample.ready) = false
  /\ all_valid Sample.two_tasks (state Sample.ready) = true
  /\ IframeSubmit.transport Sample.offline = NetworkError
  /\ (let w' := @IframeSubmit.submit Sample.browser Sample.two_tasks "E1"
                  Sample.offline Sample.ready in
      submitted (state w') = true
      /\ screen (ui w') = Some ScreenThanks
      /\ submitStatus (ui w') = StatusBlank
      /\ btnSubmitDisabled (ui w') = true)
  /\ (let w' := @FetchSubmit.submit Sample.browser Sample.two_tasks "E1"
                  Sample.offline_fetch Sample.ready in
      submitted (state w') = false
      /\ submitStatus (ui w') = StatusNetworkError
      /\ btnSubmitDisabled (ui w') = false).
Proof. vm_compute. repeat split. Qed.

(** ** Stored records *)

(** C9.  When the stored session is absent, empty or not parseable,
    [loadState] returns [null] without raising, and [init] goes on from
    [defaultState()]: the session is the default one with the client
    session identifier filled in, the welcome screen is shown, nothing is
    alerted, and this session is what gets stored. *)
Theorem corrupt_storage_is_absence `{Platform} (a : Assignment)
    (expertId hex : string) (now : Z) (ui0 : UI) (ls : gmap string string) :
  (ls !! stateKey a expertId = None \/
   exists raw, ls !! stateKey a expertId = Some raw
               /\ (raw = "" \/ JSON_parse raw = None)) ->
  loadState (stateKey a expertId) ls = None
  /\ default defaultState (loadState (stateKey a expertId) ls) = defaultState
  /\ (let w := init_loaded a expertId hex now ui0 ls in
      state w = set_clientSessionId
                  (Some (ensureClientSessionId expertId hex ls).1) defaultState
      /\ screen (ui w) = Some ScreenWelcome
      /\ alerts (ui w) = alerts ui0
      /\ localStorage w !! stateKey a expertId
         = Some (JSON_stringify (state w))).
Proof.
  intros Hraw.
  assert (Hl : loadState (stateKey a expertId) ls = None).
  { unfold loadState. destruct Hraw as [-> | (raw & -> & [-> | Hp])].
    - reflexivity.
    - reflexivity.
    - rewrite Hp. destruct (negb (truthy_str raw)); reflexivity. }
  split; [exact Hl |]. split; [rewrite Hl; reflexivity |].
  unfold init_loaded. rewrite Hl. simpl.
  destruct (ensureClientSessionId expertId hex ls) as [v ls']. simpl.
  repeat split. apply lookup_insert_eq.
Qed.

Lemma corrupt_storage_is_absence_witness :
  (exists raw, Sample.torn !! stateKey Sample.two_tasks "E1" = Some raw
               /\ @JSON_parse Sample.browser raw = None)
  /\ @loadState Sample.browser (stateKey Sample.two_tasks "E1") Sample.torn
     = None.
Proof.
  assert (Hraw : exists raw,
             Sample.torn !! stateKey Sample.two_tasks "E1" = Some raw
             /\ @JSON_parse Sample.browser raw = None).
  { exists "{started:tr". split; [apply lookup_singleton_eq | reflexivity]. }
  split; [exact Hraw |].
  refine (proj1 (@corrupt_storage_is_absence Sample.browser Sample.two_tasks
                   "E1" "00" 1000 Sample.blank_ui Sample.torn _)).
  right. destruct Hraw as (raw & Hl & Hp). exists raw. auto.
Defined.

(** ** Cluster batches *)

Section SortFacts.
Context {A : Type} (f : A -> Z).

Local Abbreviation cmp := (fun x y : A => f x - f y).
Local Abbreviation le := (fun x y : A => f x <= f y).

Lemma insert_sorted_perm x l : insert_sorted cmp x l ≡ₚ x :: l.
Proof.
  induction l as [| y ys IH]; simpl; [reflexivity |].
  destruct (f x - f y <=? 0); [reflexivity |].
  rewrite IH. apply Permutation_swap.
Qed.

Lemma js_sort_perm l : js_sort cmp l ≡ₚ l.
Proof.
  induction l as [| x l IH]; simpl; [reflexivity |].
  rewrite insert_sorted_perm, IH. reflexivity.
Qed.

Lemma js_sort_length l : length (js_sort cmp l) = length l.
Proof. apply Permutation_length, js_sort_perm. Qed.





Lemma findIndex_lookup (p : A -> bool) l j :
  findIndex p l = Some j -> exists u, l !! j = Some u /\ p u = true.
Proof.
  revert j. induction l as [| y ys IH]; simpl; intros j Hj; [discriminate |].
  destruct (p y) eqn:Hy.
  - injection Hj as <-. exists y. split; [reflexivity | exact Hy].
  - destruct (findIndex p ys) as [j' |]; [| discriminate].
    injection Hj as <-. apply IH. reflexivity.
Qed.




End SortFacts.

(** A cluster task of the assignment belongs to its own group. *)
Lemma cluster_group_self (a : Assignment) (task : Task) :
  type task = "cluster" -> task ∈ tasks a -> task ∈ cluster_group a task.
Proof.
  intros Hty Hin. unfold cluster_group. apply list_elem_of_filter.
  split; [| exact Hin].
  unfold same_cluster_as. rewrite Hty, !String.eqb_refl. simpl.
  rewrite bool_decide_eq_true_2 by reflexivity. reflexivity.
Qed.

(** * Further properties of the script *)

(** ** Storage keys and identifiers *)

Lemma list_ascii_app (s1 s2 : string) :
  String.list_ascii_of_string (s1 +:+ s2)
  = (String.list_ascii_of_string s1 ++ String.list_ascii_of_string s2)%list.
Proof.
  induction s1 as [| c s1 IH]; [reflexivity |].
  change (c :: String.list_ascii_of_string (s1 +:+ s2)
          = c :: (String.list_ascii_of_string s1
                  ++ String.list_ascii_of_string s2)%list).
  rewrite IH. reflexivity.
Qed.

Lemma list_ascii_inj (s1 s2 : string) :
  String.list_ascii_of_string s1 = String.list_ascii_of_string s2 -> s1 = s2.
Proof.
  intros Heq. rewrite <- (String.string_of_list_ascii_of_string s1),
    <- (String.string_of_list_ascii_of_string s2), Heq. reflexivity.
Qed.

Lemma string_app_inv_tail (s1 s2 t : string) :
  s1 +:+ t = s2 +:+ t -> s1 = s2.
Proof.
  intros Heq. apply list_ascii_inj.
  apply (f_equal String.list_ascii_of_string) in Heq.
  rewrite !list_ascii_app in Heq.
  exact (List.app_inv_tail _ _ _ Heq).
Qed.

Lemma string_app_inv_head (s t1 t2 : string) :
  s +:+ t1 = s +:+ t2 -> t1 = t2.
Proof.
  induction s as [| c s IH]; intros Heq; [exact Heq |].
  change (String c (s +:+ t1) = String c (s +:+ t2)) in Heq.
  injection Heq as Heq. exact (IH Heq).
Qed.

Lemma string_app_assoc (s1 s2 s3 : string) :
  (s1 +:+ s2) +:+ s3 = s1 +:+ (s2 +:+ s3).
Proof.
  induction s1 as [| c s1 IH]; [reflexivity |].
  change (String c ((s1 +:+ s2) +:+ s3) = String c (s1 +:+ (s2 +:+ s3))).
  rewrite IH. reflexivity.
Qed.

(** X1.  The storage key separates the assignments of one expert and the
    experts of one assignment; an identifier that contains the separator
    can still make two different pairs meet on one key. *)
Theorem storageKey_isolation (e e' a a' : string) :
  (storageKey e a = storageKey e a' -> a = a')
  /\ (storageKey e a = storageKey e' a -> e = e')
  /\ storageKey (e +:+ "::" +:+ a) a' = storageKey e (a +:+ "::" +:+ a').
Proof.
  unfold storageKey. split; [| split].
  - intros Heq. do 4 apply string_app_inv_head in Heq. exact Heq.
  - intros Heq. do 2 apply string_app_inv_head in Heq.
    rewrite <- !string_app_assoc in Heq.
    do 2 apply string_app_inv_tail in Heq. exact Heq.
  - rewrite !string_app_assoc. reflexivity.
Qed.

(** X2.  The client session identifier is drawn once per expert: the
    identifier returned is never empty, it is what the storage holds under
    the expert's key afterwards, every later call returns it again without
    touching the storage (whatever the random digits then), and no other
    key is written. *)
Theorem ensureClientSessionId_reused (expertId hex hex' : string)
    (ls : gmap string string) :
  let key := STORAGE_PREFIX +:+ "::client_session_id::"
             +:+ (if truthy_str expertId then expertId else "unknown") in
  let v := (ensureClientSessionId expertId hex ls).1 in
  let ls1 := (ensureClientSessionId expertId hex ls).2 in
  truthy_str v = true
  /\ ls1 !! key = Some v
  /\ ensureClientSessionId expertId hex' ls1 = (v, ls1)
  /\ (forall other, other <> key -> ls1 !! other = ls !! other)
  /\ (forall old, ls !! key = Some old -> truthy_str old = true ->
        v = old /\ ls1 = ls).
Proof.
  intros key v ls1. subst v ls1. unfold ensureClientSessionId. fold key.
  assert (Hfresh : truthy_str (randomId "sess" hex) = true) by reflexivity.
  destruct (ls !! key) as [old |] eqn:Hold;
    [destruct (truthy_str old) eqn:Ht |]; simpl.
  - rewrite ?Hold, ?Ht.
    repeat (split; [first [reflexivity | assumption] |]).
    intros old' Ho _. injection Ho as <-. split; reflexivity.
  - rewrite lookup_insert_eq, Hfresh.
    repeat (split; [first [reflexivity | assumption] |]).
    split; [intros other Ho; apply lookup_insert_ne; congruence |].
    intros old' Ho Ht'. injection Ho as <-. congruence.
  - rewrite lookup_insert_eq, Hfresh.
    repeat (split; [first [reflexivity | assumption] |]).
    split; [intros other Ho; apply lookup_insert_ne; congruence |].
    intros old' Ho. discriminate.
Qed.

Lemma chars_hexOf (buf : list N) :
  String.list_ascii_of_string (hexOf buf)
  = List.concat
      (map (fun b => String.list_ascii_of_string (padStart0 2 (toString16 b)))
           buf).
Proof.
  unfold hexOf. induction buf as [| b buf IH]; [reflexivity |].
  destruct buf as [| b' buf].
  - simpl. rewrite app_nil_r. reflexivity.
  - change (String.concat "" (map _ (b :: b' :: buf)))
      with (padStart0 2 (toString16 b) +:+ ""
            +:+ String.concat ""
                  (map (fun b => padStart0 2 (toString16 b)) (b' :: buf))).
    rewrite !list_ascii_app, IH. reflexivity.
Qed.

Lemma byte_table :
  forallb (fun a =>
     Nat.eqb (length (String.list_ascii_of_string (padStart0 2 (toString16 a)))) 2
     && forallb (fun b =>
          implb (String.eqb (padStart0 2 (toString16 a))
                            (padStart0 2 (toString16 b)))
                (N.eqb a b))
        (map N.of_nat (seq 0 256)))
    (map N.of_nat (seq 0 256)) = true.
Proof. vm_compute. reflexivity. Qed.

Lemma byte_listed (b : N) : (b < 256)%N -> In b (map N.of_nat (seq 0 256)).
Proof.
  intros Hb. apply in_map_iff. exists (N.to_nat b).
  split; [apply N2Nat.id |]. apply in_seq. lia.
Qed.

Lemma byte_hex_length (b : N) :
  (b < 256)%N ->
  length (String.list_ascii_of_string (padStart0 2 (toString16 b))) = 2%nat.
Proof.
  intros Hb. pose proof byte_table as Ht.
  rewrite forallb_forall in Ht. specialize (Ht b (byte_listed b Hb)).
  apply andb_true_iff in Ht as [Hl _]. apply Nat.eqb_eq. exact Hl.
Qed.

Lemma byte_hex_inj (a b : N) :
  (a < 256)%N -> (b < 256)%N ->
  padStart0 2 (toString16 a) = padStart0 2 (toString16 b) -> a = b.
Proof.
  intros Ha Hb Heq. pose proof byte_table as Ht.
  rewrite forallb_forall in Ht. specialize (Ht a (byte_listed a Ha)).
  apply andb_true_iff in Ht as [_ Ht].
  rewrite forallb_forall in Ht. specialize (Ht b (byte_listed b Hb)).
  rewrite Heq, String.eqb_refl in Ht. simpl in Ht.
  apply N.eqb_eq. exact Ht.
Qed.

Lemma hexOf_inj (buf1 buf2 : list N) :
  Forall (fun b => (b < 256)%N) buf1 ->
  Forall (fun b => (b < 256)%N) buf2 ->
  hexOf buf1 = hexOf buf2 -> buf1 = buf2.
Proof.
  intros H1 H2 Heq. apply (f_equal String.list_ascii_of_string) in Heq.
  rewrite !chars_hexOf in Heq.
  revert buf2 H2 Heq.
  induction H1 as [| a buf1 Ha _ IH]; intros buf2 H2 Heq;
    destruct H2 as [| b buf2 Hb H2]; simpl in Heq.
  - reflexivity.
  - apply (f_equal (@length _)) in Heq. rewrite length_app in Heq.
    rewrite (byte_hex_length b Hb) in Heq. simpl in Heq. lia.
  - apply (f_equal (@length _)) in Heq. rewrite length_app in Heq.
    rewrite (byte_hex_length a Ha) in Heq. simpl in Heq. lia.
  - apply app_inj_1 in Heq as [Hab Hrest];
      [| rewrite (byte_hex_length a Ha), (byte_hex_length b Hb); reflexivity].
    apply list_ascii_inj in Hab.
    rewrite (byte_hex_inj a b Ha Hb Hab), (IH buf2 H2 Hrest). reflexivity.
Qed.

(** X3.  The identifier drawn from [n] random bytes carries [2 n]
    hexadecimal characters after its prefix, and different byte sequences
    give different identifiers. *)
Theorem randomIdOf_distinct (prefix : string) (buf1 buf2 : list N) :
  Forall (fun b => (b < 256)%N) buf1 ->
  Forall (fun b => (b < 256)%N) buf2 ->
  length (String.list_ascii_of_string (hexOf buf1)) = (2 * length buf1)%nat
  /\ (randomIdOf prefix buf1 = randomIdOf prefix buf2 -> buf1 = buf2)
  /\ (truthy_str prefix = true ->
      randomIdOf prefix buf1 = prefix +:+ "_" +:+ hexOf buf1).
Proof.
  intros H1 H2. split; [| split].
  - rewrite chars_hexOf. clear H2.
    induction H1 as [| a buf1 Ha _ IH]; [reflexivity |].
    simpl. rewrite length_app, IH, (byte_hex_length a Ha). lia.
  - unfold randomIdOf, randomId. intros Heq. apply hexOf_inj; try assumption.
    destruct (truthy_str prefix); [| exact Heq].
    do 2 apply string_app_inv_head in Heq. exact Heq.
  - intros Hp. unfold randomIdOf, randomId. rewrite Hp. reflexivity.
Qed.

Lemma randomIdOf_distinct_witness :
  Forall (fun b => (b < 256)%N) [0; 10; 255]%N
  /\ Forall (fun b => (b < 256)%N) [0; 10; 254]%N
  /\ length (String.list_ascii_of_string (hexOf [0; 10; 255]%N)) = 6%nat
  /\ randomIdOf "sub" [0; 10; 255]%N = "sub_000aff".
Proof.
  assert (H1 : Forall (fun b => (b < 256)%N) [0; 10; 255]%N)
    by (repeat constructor).
  assert (H2 : Forall (fun b => (b < 256)%N) [0; 10; 254]%N)
    by (repeat constructor).
  pose proof (randomIdOf_distinct "sub" _ _ H1 H2) as (Hlen & _ & Hfmt).
  split; [exact H1 | split; [exact H2 | split; [exact Hlen |]]].
  rewrite (Hfmt eq_refl). reflexivity.
Defined.

(** ** Stored records *)

(** X4.  When [JSON] gives a session back from its own text and that text
    is not empty, a saved session is loaded back unchanged, and saving
    under one key leaves what is stored under every other key alone. *)
Theorem saveState_loadState `{Platform} (key : string) (s : Session)
    (ls : gmap string string) :
  JSON_parse (JSON_stringify s) = Some s ->
  JSON_stringify s <> "" ->
  loadState key (saveState key s ls) = Some s
  /\ (forall other, other <> key ->
        saveState key s ls !! other = ls !! other
        /\ loadState other (saveState key s ls) = loadState other ls).
Proof.
  intros Hrt Hne. unfold loadState, saveState. split.
  - rewrite lookup_insert_eq. unfold truthy_str.
    destruct (String.eqb_spec (JSON_stringify s) ""); [contradiction |].
    exact Hrt.
  - intros other Ho. rewrite lookup_insert_ne by congruence.
    split; reflexivity.
Qed.

Lemma saveState_loadState_witness :
  @JSON_parse Sample.browser (@JSON_stringify Sample.browser defaultState)
    = Some defaultState
  /\ @JSON_stringify Sample.browser defaultState <> ""
  /\ @loadState Sample.browser "k"
       (@saveState Sample.browser "k" defaultState ∅) = Some defaultState.
Proof.
  assert (Hrt : @JSON_parse Sample.browser
                  (@JSON_stringify Sample.browser defaultState)
                = Some defaultState) by reflexivity.
  assert (Hne : @JSON_stringify Sample.browser defaultState <> "")
    by discriminate.
  split; [exact Hrt | split; [exact Hne |]].
  exact (proj1 (@saveState_loadState Sample.browser "k" defaultState ∅ Hrt Hne)).
Defined.

(** ** Timing accumulator *)

(** X5.  Whatever the clock reads and whatever the cursor holds, a switch
    never lowers a recorded total and never drops one. *)
Theorem timing_never_decreases (now : Z) (next : option string) (s : Session)
    (key : string) :
  let s' := updateTimingOnTaskSwitch now next s in
  default 0 (taskTimeMs s !! key) <= default 0 (taskTimeMs s' !! key)
  /\ (is_Some (taskTimeMs s !! key) -> is_Some (taskTimeMs s' !! key))
  /\ answers s' = answers s /\ taskIndex s' = taskIndex s
  /\ submitted s' = submitted s.
Proof.
  intros s'. subst s'. unfold updateTimingOnTaskSwitch. simpl.
  destruct (truthy_ostr (_lastTaskKey s) && truthy_num (_lastTaskEnterAt s)).
  - destruct (decide (prop_name (_lastTaskKey s) = key)) as [<- | Hne].
    + rewrite lookup_insert_eq. simpl. repeat split; [lia | eauto].
    + rewrite lookup_insert_ne by exact Hne. repeat split; [lia | auto].
  - repeat split; [lia | auto].
Qed.

(** ** Handlers *)

Section Handlers.
Context `{Platform}.
Variable assignment : Assignment.
Variable expertId : string.

Local Abbreviation renderH := (render assignment).
Local Abbreviation persistH := (persist assignment expertId).
Local Abbreviation key := (stateKey assignment expertId).

Lemma same_progress_refl s : same_progress s s.
Proof. repeat split. Qed.

Lemma updateTiming_progress now k s :
  same_progress s (updateTimingOnTaskSwitch now k s)
  /\ clientSessionId (updateTimingOnTaskSwitch now k s) = clientSessionId s.
Proof. repeat split. Qed.

(** [render] leaves the storage, the network and everything in the session
    but the timing fields alone. *)
Lemma render_fields now w :
  same_progress (state w) (state (renderH now w).1)
  /\ clientSessionId (state (renderH now w).1) = clientSessionId (state w)
  /\ localStorage (renderH now w).1 = localStorage w
  /\ network (renderH now w).1 = network w.
Proof.
  unfold render.
  destruct (taskIndex (state w) >=? taskCount assignment);
    [repeat split |].
  destruct (task_at assignment (taskIndex (state w))) as [task |];
    [| repeat split].
  destruct (String.eqb (type task) "cluster");
    destruct (paint_throws task _); repeat split.
Qed.

(** X6.  After the view hands over an edited answer, the task reads it
    back, every task with another answer key reads what it read before,
    and the stored record is the new session.  Tasks share an answer when
    their keys name the same property: two tasks with neither [task_uid]
    nor [task_id] read each other's answers. *)
Theorem onUpdate_answer_of (task : Task) (newAns : Answer) (w : World)
    (other : Task) :
  let w' := onUpdate assignment expertId task newAns w in
  answer_of (state w') other
    = (if decide (prop_name (getAnswerKey other) = prop_name (getAnswerKey task))
       then Some newAns else answer_of (state w) other)
  /\ localStorage w' !! key = Some (JSON_stringify (state w'))
  /\ taskIndex (state w') = taskIndex (state w)
  /\ taskTimeMs (state w') = taskTimeMs (state w)
  /\ network w' = network w /\ ui w' = ui w
  /\ (getAnswerKey task = None -> getAnswerKey other = None ->
      answer_of (state w') other = Some newAns).
Proof.
  intros w'. subst w'. unfold onUpdate.
  rewrite persist_stored, persist_state, persist_network, persist_ui.
  unfold answer_of. simpl.
  split; [| repeat split].
  - destruct (decide (prop_name (getAnswerKey other)
                      = prop_name (getAnswerKey task))) as [-> | Hne].
    + apply lookup_insert_eq.
    + apply lookup_insert_ne. congruence.
  - intros -> ->. apply lookup_insert_eq.
Qed.

(** X9.  Starting marks the session started and shows the task screen (or
    the submit screen of an assignment without tasks); [startedAt] is
    written only when it is still empty, so starting again, at any later
    time, keeps the first timestamp. *)
Theorem startApp_stamps_once (tISO now : Z) (w : World) :
  let w' := (startApp assignment expertId tISO now w).1 in
  started (state w') = true
  /\ startedAt (state w')
     = (if truthy_ostr (startedAt (state w)) then startedAt (state w)
        else Some (toISOString tISO))
  /\ screen (ui w')
     = Some (if taskIndex (state w) >=? taskCount assignment
             then ScreenSubmit else ScreenTask)
  /\ (truthy_str (toISOString tISO) = true ->
      forall tISO' now',
        startedAt (state (startApp assignment expertId tISO' now' w').1)
        = startedAt (state w')).
Proof.
  intros w'.
  assert (Hst : forall t n0 v,
            startedAt (state (startApp assignment expertId t n0 v).1)
            = (if truthy_ostr (startedAt (state v)) then startedAt (state v)
               else Some (toISOString t))).
  { intros t n0 v. unfold startApp.
    match goal with
    | |- context [render assignment n0 ?w0] =>
        destruct (render_fields n0 w0) as ((_ & _ & _ & -> & _) & _)
    end.
    simpl. destruct (truthy_ostr (startedAt (state v))); reflexivity. }
  split; [| split; [exact (Hst tISO now w) | split]].
  - subst w'. unfold startApp.
    match goal with
    | |- context [render assignment now ?w0] =>
        destruct (render_fields now w0) as ((-> & _) & _)
    end.
    simpl. destruct (truthy_ostr (startedAt (state w))); reflexivity.
  - subst w'. unfold startApp. rewrite render_screen. simpl.
    destruct (truthy_ostr (startedAt (state w))); simpl;
      destruct (taskIndex (state w) >=? taskCount assignment); reflexivity.
  - intros Hiso tISO' now'. rewrite Hst. subst w'. rewrite (Hst tISO now w).
    destruct (truthy_ostr (startedAt (state w))) eqn:Ht.
    + rewrite Ht. reflexivity.
    + simpl. rewrite Hiso. reflexivity.
Qed.
End Handlers.

Section Cursor.
Context `{Platform}.
Variable assignment : Assignment.
Variable expertId : string.

Lemma render_past_end now w :
  taskIndex (state w) >= taskCount assignment ->
  render assignment now w
  = (showScreen ScreenSubmit
       (with_state (updateTimingOnTaskSwitch now None) w), Done).
Proof.
  intros Hge. unfold render.
  destruct (Z.geb_spec (taskIndex (state w)) (taskCount assignment));
    [reflexivity | lia].
Qed.

(** X10.  Review puts the cursor on the last task (on 0 when there is
    none) and stores it; with at least one task it does not change which
    screen is visible, so from the submit screen the task is drawn behind
    a submit screen that stays in front. *)
Theorem btnReview_keeps_screen (now : Z) (w : World) :
  let n := taskCount assignment in
  let w' := (btnReview assignment expertId now w).1 in
  taskIndex (state w') = Z.max 0 (n - 1)
  /\ 0 <= taskIndex (state w') <= n
  /\ (0 < n -> screen (ui w') = screen (ui w))
  /\ (n = 0 -> screen (ui w') = Some ScreenSubmit)
  /\ localStorage w' !! stateKey assignment expertId
     = Some (JSON_stringify (set_taskIndex (Z.max 0 (n - 1)) (state w))).
Proof.
  intros n w'. subst w'. unfold btnReview. fold n.
  pose proof (taskCount_nonneg assignment) as Hn. fold n in Hn.
  rewrite render_taskIndex, render_screen, persist_state, persist_ui.
  destruct (render_fields assignment now
              (persist assignment expertId
                 (with_state (set_taskIndex (Z.max 0 (n - 1))) w)))
    as (_ & _ & -> & _).
  rewrite persist_stored. simpl. fold n.
  split; [reflexivity |]. split; [lia |].
  split; [| split; [| reflexivity]]; intros Hn0.
  - destruct (Z.geb_spec (Z.max 0 (n - 1)) n); [lia | reflexivity].
  - destruct (Z.geb_spec (Z.max 0 (n - 1)) n); [reflexivity | lia].
Qed.

(** X11.  An accepted next on the last task moves the cursor past the end,
    shows the submit screen, credits the task with the time since it was
    entered and clears the timing cursor's key, so the time spent on the
    submit screen is charged to no task. *)
Theorem btnNext_past_last (now : Z) (w : World) (task : Task) :
  taskIndex (state w) = taskCount assignment - 1 ->
  task_at assignment (taskIndex (state w)) = Some task ->
  ok (validateTask task (answer_of (state w) task)) = true ->
  let w' := (btnNext assignment expertId now w).1 in
  taskIndex (state w') = taskCount assignment
  /\ screen (ui w') = Some ScreenSubmit
  /\ _lastTaskKey (state w') = None
  /\ (forall later next,
        taskTimeMs (updateTimingOnTaskSwitch later next (state w'))
        = taskTimeMs (state w')).
Proof.
  intros Hi Ht Hok w'. subst w'.
  pose proof (taskCount_nonneg assignment) as Hn.
  unfold btnNext. rewrite Ht, Hok. simpl negb. cbv iota.
  assert (Hc : clamp (taskIndex (state w) + 1) 0 (taskCount assignment)
               = taskCount assignment) by (unfold clamp; lia).
  rewrite Hc, render_past_end
    by (rewrite persist_state; simpl; lia).
  simpl. repeat split.
Qed.

Lemma btnBack_answers now w :
  answers (state (btnBack assignment expertId now w).1) = answers (state w).
Proof.
  unfold btnBack.
  match goal with
  | |- context [render assignment now ?w0] =>
      destruct (render_fields assignment now w0) as ((_ & _ & -> & _) & _)
  end.
  rewrite persist_state. reflexivity.
Qed.

Lemma btnNext_answers now w :
  answers (state (btnNext assignment expertId now w).1) = answers (state w).
Proof.
  unfold btnNext.
  destruct (task_at assignment (taskIndex (state w))) as [task |];
    [| reflexivity].
  destruct (ok (validateTask task (answer_of (state w) task)));
    [| reflexivity].
  simpl negb. cbv iota.
  match goal with
  | |- context [render assignment now ?w0] =>
      destruct (render_fields assignment now w0) as ((_ & _ & -> & _) & _)
  end.
  rewrite persist_state. reflexivity.
Qed.

(** X17.  After an accepted next, back returns the cursor to the task it
    came from. *)
Theorem btnNext_then_btnBack (now now' : Z) (w : World) (task : Task) :
  task_at assignment (taskIndex (state w)) = Some task ->
  ok (validateTask task (answer_of (state w) task)) = true ->
  taskIndex (state (btnBack assignment expertId now'
                      (btnNext assignment expertId now w).1).1)
  = taskIndex (state w)
  /\ answers (state (btnBack assignment expertId now'
                       (btnNext assignment expertId now w).1).1)
     = answers (state w).
Proof.
  intros Ht Hok. pose proof (task_at_range _ _ _ Ht) as Hr.
  rewrite btnBack_taskIndex,
    (proj1 (btnNext_accept _ _ _ _ _ Ht Hok)).
  split; [unfold clamp; lia |].
  rewrite btnBack_answers, btnNext_answers. reflexivity.
Qed.
End Cursor.

Lemma btnReview_keeps_screen_witness :
  0 < taskCount Sample.two_tasks
  /\ screen (ui (@btnReview Sample.browser Sample.two_tasks "E1" 9000
                   (showScreen ScreenSubmit Sample.ready)).1)
     = Some ScreenSubmit.
Proof.
  assert (Hn : 0 < taskCount Sample.two_tasks) by reflexivity.
  split; [exact Hn |].
  exact (proj1 (proj2 (proj2
    (@btnReview_keeps_screen Sample.browser Sample.two_tasks "E1" 9000
       (showScreen ScreenSubmit Sample.ready)))) Hn).
Defined.

Lemma btnNext_past_last_witness :
  taskIndex (state Sample.on_last) = taskCount Sample.two_tasks - 1
  /\ task_at Sample.two_tasks (taskIndex (state Sample.on_last)) = Some Sample.p1
  /\ ok (validateTask Sample.p1 (answer_of (state Sample.on_last) Sample.p1))
     = true
  /\ screen (ui (@btnNext Sample.browser Sample.two_tasks "E1" 7000
                   Sample.on_last).1) = Some ScreenSubmit.
Proof.
  assert (Hi : taskIndex (state Sample.on_last) = taskCount Sample.two_tasks - 1)
    by reflexivity.
  assert (Ht : task_at Sample.two_tasks (taskIndex (state Sample.on_last))
               = Some Sample.p1) by reflexivity.
  assert (Hok : ok (validateTask Sample.p1
                      (answer_of (state Sample.on_last) Sample.p1)) = true)
    by (vm_compute; reflexivity).
  split; [exact Hi | split; [exact Ht | split; [exact Hok |]]].
  exact (proj1 (proj2
    (@btnNext_past_last Sample.browser Sample.two_tasks "E1" 7000
       Sample.on_last Sample.p1 Hi Ht Hok))).
Defined.

Lemma btnNext_then_btnBack_witness :
  task_at Sample.two_tasks (taskIndex (state Sample.on_last)) = Some Sample.p1
  /\ ok (validateTask Sample.p1 (answer_of (state Sample.on_last) Sample.p1))
     = true
  /\ taskIndex (state (@btnBack Sample.browser Sample.two_tasks "E1" 8000
                         (@btnNext Sample.browser Sample.two_tasks "E1" 7000
                            Sample.on_last).1).1) = 1.
Proof.
  assert (Ht : task_at Sample.two_tasks (taskIndex (state Sample.on_last))
               = Some Sample.p1) by reflexivity.
  assert (Hok : ok (validateTask Sample.p1
                      (answer_of (state Sample.on_last) Sample.p1)) = true)
    by (vm_compute; reflexivity).
  split; [exact Ht | split; [exact Hok |]].
  exact (proj1 (@btnNext_then_btnBack Sample.browser Sample.two_tasks "E1"
                  7000 8000 Sample.on_last Sample.p1 Ht Hok)).
Defined.

(** ** Start-up *)

Section Startup.
Context `{Platform}.
Variable assignment : Assignment.
Variable expertId : string.

(** What [init] restores from the storage. *)
Local Abbreviation restored ls :=
  (default defaultState (loadState (stateKey assignment expertId) ls)).

Lemma init_loaded_state hex now ui0 ls :
  let w := init_loaded assignment expertId hex now ui0 ls in
  same_progress (restored ls) (state w)
  /\ clientSessionId (state w)
     = (if truthy_ostr (clientSessionId (restored ls))
        then clientSessionId (restored ls)
        else Some (ensureClientSessionId expertId hex ls).1)
  /\ network w = []
  /\ (started (restored ls) = false \/ submitted (restored ls) = true ->
      taskTimeMs (state w) = taskTimeMs (restored ls)
      /\ _lastTaskKey (state w) = _lastTaskKey (restored ls)
      /\ _lastTaskEnterAt (state w) = _lastTaskEnterAt (restored ls)).
Proof.
  intros w. subst w. unfold init_loaded.
  set (st0 := restored ls).
  assert (Hst : exists st1 ls1,
            (if truthy_ostr (clientSessionId st0) then (st0, ls)
             else let '(v, ls') := ensureClientSessionId expertId hex ls in
                  (set_clientSessionId (Some v) st0, ls')) = (st1, ls1)
            /\ same_progress st0 st1
            /\ clientSessionId st1
               = (if truthy_ostr (clientSessionId st0) then clientSessionId st0
                  else Some (ensureClientSessionId expertId hex ls).1)
            /\ taskTimeMs st1 = taskTimeMs st0
            /\ _lastTaskKey st1 = _lastTaskKey st0
            /\ _lastTaskEnterAt st1 = _lastTaskEnterAt st0).
  { destruct (truthy_ostr (clientSessionId st0)).
    - exists st0, ls. repeat split.
    - destruct (ensureClientSessionId expertId hex ls) as [v ls'].
      eexists _, _. repeat split. }
  destruct Hst as (st1 & ls1 & -> & Hp & Hc & Ht1 & Ht2 & Ht3).
  destruct Hp as (Hp1 & Hp2 & Hp3 & Hp4 & Hp5 & Hp6 & Hp7).
  destruct (submitted st1) eqn:Hsub.
  { rewrite persist_state, persist_network. simpl.
    repeat split; auto; congruence. }
  destruct (started st1) eqn:Hsta.
  - match goal with
    | |- context [render assignment now ?w0] =>
        pose proof (render_fields assignment now w0) as (Hr & Hrc & _ & Hrn);
        assert (Hw0 : state w0 = st1 /\ network w0 = [])
          by (destruct (taskIndex st1 >=? taskCount assignment); split; reflexivity);
        destruct (render assignment now w0) as [w2 [| e]]
    end; simpl in Hr, Hrc, Hrn; destruct Hw0 as [Hw0 Hn0];
      rewrite Hw0 in Hr, Hrc; rewrite Hn0 in Hrn;
      destruct Hr as (Hr1 & Hr2 & Hr3 & Hr4 & Hr5 & Hr6 & Hr7);
      rewrite ?persist_state, ?persist_network; simpl;
      (split; [repeat split; congruence |]);
      (split; [congruence |]); (split; [exact Hrn |]);
      intros [Hx | Hx]; congruence.
  - rewrite persist_state, persist_network. simpl.
    repeat split; auto; congruence.
Qed.

(** X18.  Once [init] has loaded an assignment the session has a client
    session identifier: the one of the stored session when there is one,
    else the expert's identifier from the storage, else a freshly drawn
    one. *)
Theorem init_loaded_client_session (hex : string) (now : Z) (ui0 : UI)
    (ls : gmap string string) :
  let w := init_loaded assignment expertId hex now ui0 ls in
  truthy_ostr (clientSessionId (state w)) = true
  /\ (truthy_ostr (clientSessionId (restored ls)) = true ->
      clientSessionId (state w) = clientSessionId (restored ls))
  /\ (truthy_ostr (clientSessionId (restored ls)) = false ->
      clientSessionId (state w)
      = Some (ensureClientSessionId expertId hex ls).1).
Proof.
  intros w. destruct (init_loaded_state hex now ui0 ls) as (_ & Hc & _).
  fold w in Hc. rewrite Hc.
  destruct (truthy_ostr (clientSessionId (restored ls))) eqn:Ht.
  - repeat split; [exact Ht | discriminate].
  - split; [| split; [discriminate | reflexivity]].
    exact (proj1 (ensureClientSessionId_reused expertId hex hex ls)).
Qed.

(** X15.  A reload after [persist] resumes the session: with [JSON] giving
    the session back from its text, [init] comes back to the same started
    and submitted flags, cursor, answers, timestamps and submission
    identifier, shows the screen they call for and has sent nothing; a
    session that is not started, or is submitted, comes back with its
    timing fields too. *)
Theorem reload_resumes (hex : string) (now : Z) (ui0 : UI) (w : World) :
  JSON_parse (JSON_stringify (state w)) = Some (state w) ->
  JSON_stringify (state w) <> "" ->
  let w' := init_loaded assignment expertId hex now ui0
              (localStorage (persist assignment expertId w)) in
  same_progress (state w) (state w')
  /\ screen (ui w') = Some (screen_for (state w) (taskCount assignment))
  /\ network w' = []
  /\ (truthy_ostr (clientSessionId (state w)) = true ->
      clientSessionId (state w') = clientSessionId (state w))
  /\ (started (state w) = false \/ submitted (state w) = true ->
      taskTimeMs (state w') = taskTimeMs (state w)).
Proof.
  intros Hrt Hne w'.
  assert (Hl : restored (localStorage (persist assignment expertId w)) = state w).
  { rewrite persist_eq. simpl.
    rewrite (proj1 (saveState_loadState _ _ _ Hrt Hne)). reflexivity. }
  destruct (init_loaded_state hex now ui0
              (localStorage (persist assignment expertId w)))
    as (Hp & Hc & Hn & Ht).
  fold w' in Hp, Hc, Hn, Ht. rewrite Hl in Hp, Hc, Ht.
  split; [exact Hp |]. split.
  - subst w'. rewrite init_loaded_screen, Hl. reflexivity.
  - split; [exact Hn |]. split.
    + intros Hcs. rewrite Hc, Hcs. reflexivity.
    + intros Hx. apply Ht. exact Hx.
Qed.
End Startup.

(** ** Cluster batches and validator, edge cases *)

Lemma findIndex_found {A} (p : A -> bool) (l : list A) (u : A) :
  u ∈ l -> p u = true -> is_Some (findIndex p l).
Proof.
  induction l as [| y ys IH]; intros Hin Hp.
  - apply elem_of_nil in Hin. contradiction.
  - simpl. destruct (p y) eqn:Hy; [eauto |].
    apply elem_of_cons in Hin as [-> | Hin]; [congruence |].
    destruct (IH Hin Hp) as [j ->]. eauto.
Qed.

(** X20.  [computeClusterBatchInfo] returns [null] for a task that is not
    a cluster task and for a cluster that has a single batch in the
    assignment; what it returns otherwise has [K] at least 2, the size of
    the group, a [k] that lies in 1..K whenever it is a number, and for a
    task of the assignment [k] is a number. *)
Theorem computeClusterBatchInfo_bounds (a : Assignment) (task : Task) :
  (type task <> "cluster" -> computeClusterBatchInfo a task = None)
  /\ ((length (cluster_group a task) <= 1)%nat ->
      computeClusterBatchInfo a task = None)
  /\ (forall bi, computeClusterBatchInfo a task = Some bi ->
        type task = "cluster"
        /\ K bi = length (cluster_group a task)
        /\ (2 <= K bi)%nat
        /\ (forall kk, k bi = Some kk -> (1 <= kk <= K bi)%nat)
        /\ (task ∈ tasks a -> is_Some (k bi))).
Proof.
  unfold computeClusterBatchInfo. fold (cluster_group a task).
  split; [| split].
  - intros Hty. destruct (String.eqb_spec (type task) "cluster");
      [contradiction | reflexivity].
  - intros Hlen. destruct (negb _); [reflexivity |].
    destruct (Nat.leb_spec (length (cluster_group a task)) 1);
      [reflexivity | lia].
  - intros bi. destruct (String.eqb_spec (type task) "cluster") as [Hty | Hty];
      simpl; [| discriminate].
    destruct (Nat.leb_spec (length (cluster_group a task)) 1) as [| Hlen];
      [discriminate |].
    intros Hbi. injection Hbi as <-. simpl.
    rewrite (js_sort_length batch_or_0).
    split; [exact Hty |]. split; [reflexivity |]. split; [lia |]. split.
    + intros kk Hkk.
      destruct (findIndex (same_key_as task) _) as [j |] eqn:Hj;
        [| discriminate].
      injection Hkk as <-.
      destruct (findIndex_lookup _ _ _ Hj) as (u & Hu & _).
      apply lookup_lt_Some in Hu.
      rewrite (js_sort_length batch_or_0) in Hu. lia.
    + intros Hin.
      destruct (findIndex_found (same_key_as task)
                  (js_sort cmp_batch (cluster_group a task)) task) as [j ->].
      * rewrite (js_sort_perm batch_or_0).
        apply cluster_group_self; assumption.
      * apply bool_decide_eq_true. reflexivity.
      * simpl. eauto.
Qed.

(** X21.  Edge cases of the validator.  A cluster task without items is
    valid with any answer object but not without one; a pair-shaped answer
    never validates a cluster task that has items, and a cluster-shaped
    answer never validates a pair task; a coherence or relatedness of 0
    counts as missing. *)
Theorem validateTask_edges (task : Task) :
  (type task = "cluster" -> items task = [] ->
   validateTask task None = {| ok := false; msg := msg_answer_cluster |}
   /\ forall a, validateTask task (Some a) = {| ok := true; msg := "" |})
  /\ (type task = "cluster" -> items task <> [] ->
      forall r c n,
        validateTask task (Some (PairAnswer r c n))
        = {| ok := false; msg := msg_rate_all |})
  /\ (type task = "pair" ->
      forall m l n,
        validateTask task (Some (ClusterAnswer m l n))
        = {| ok := false; msg := msg_rate_pair |})
  /\ (type task = "cluster" ->
      forall a it, In it (items task) -> coherence_of a (doc_id it) = Some 0 ->
        ok (validateTask task (Some a)) = false)
  /\ (type task = "pair" ->
      forall c n,
        validateTask task (Some (PairAnswer (Some 0) c n))
        = {| ok := false; msg := msg_rate_pair |}).
Proof.
  split; [| split; [| split; [| split]]]; intros Hty.
  - intros Hit. rewrite !(validateTask_cluster_eq _ _ Hty).
    split; [reflexivity |]. intros a.
    rewrite (validateTask_cluster_eq _ _ Hty), Hit. reflexivity.
  - intros Hit r c n. rewrite (validateTask_cluster_eq _ _ Hty).
    destruct (items task) as [| it its]; [contradiction | reflexivity].
  - intros m l n. rewrite (validateTask_pair_eq _ _ Hty). reflexivity.
  - intros a it Hin Hc. rewrite (validateTask_cluster_eq _ _ Hty).
    induction (items task) as [| it' its IH]; [contradiction |].
    simpl. destruct Hin as [-> | Hin].
    + unfold coherence_of in Hc.
      destruct (item_answer a (doc_id it)) as [ia |]; [| reflexivity].
      rewrite Hc. reflexivity.
    + destruct (item_answer a (doc_id it')) as [ia |]; [| reflexivity].
      destruct (truthy_num (coherence ia)); [exact (IH Hin) | reflexivity].
  - intros c n. rewrite (validateTask_pair_eq _ _ Hty). reflexivity.
Qed.

(** ** Submission pipeline, further properties *)

Section Pipeline.
Context `{Platform}.
Variable assignment : Assignment.
Variable expertId : string.

Lemma all_valid_false_iff s :
  all_valid assignment s = false <->
  exists t, In t (tasks assignment)
            /\ ok (validateTask t (answer_of s t)) = false.
Proof.
  unfold all_valid. split.
  - intros Hf. induction (tasks assignment) as [| t ts IH]; [discriminate |].
    simpl in Hf. apply andb_false_iff in Hf as [Hf | Hf].
    + exists t. split; [left; reflexivity | exact Hf].
    + destruct (IH Hf) as (t' & Hin & Ht'). exists t'. split; [right |]; assumption.
  - intros (t & Hin & Ht).
    destruct (forallb _ (tasks assignment)) eqn:Hall; [| reflexivity].
    rewrite forallb_forall in Hall. rewrite (Hall t Hin) in Ht. discriminate.
Qed.

(** X12.  One task whose answer does not validate blocks the submission in
    both revisions: nothing is sent, the session (its [finishedAt] and
    [lastSubmissionUuid] included) and the storage stay as they were, the
    status line reports incomplete answers and the submit control is
    enabled again. *)
Theorem submit_blocked_when_incomplete (w : World) (t : Task) :
  submitted (state w) = false ->
  In t (tasks assignment) ->
  ok (validateTask t (answer_of (state w) t)) = false ->
  (forall e,
     let w' := FetchSubmit.submit assignment expertId e w in
     network w' = network w /\ state w' = state w
     /\ localStorage w' = localStorage w
     /\ submitStatus (ui w') = StatusIncomplete
     /\ btnSubmitDisabled (ui w') = false /\ screen (ui w') = screen (ui w))
  /\ (forall e,
     let w' := IframeSubmit.submit assignment expertId e w in
     network w' = network w /\ state w' = state w
     /\ localStorage w' = localStorage w
     /\ submitStatus (ui w') = StatusIncomplete
     /\ btnSubmitDisabled (ui w') = false /\ screen (ui w') = screen (ui w)).
Proof.
  intros Hs Hin Ht.
  assert (Hv : all_valid assignment (state w) = false)
    by (apply all_valid_false_iff; eauto).
  split; intros e w'; subst w'.
  - unfold FetchSubmit.submit. rewrite Hs. simpl. rewrite Hv. repeat split.
  - unfold IframeSubmit.submit. rewrite Hs. simpl. rewrite Hv. repeat split.
Qed.

(** What a run of [submit] hands to the network when it gets that far. *)
Local Abbreviation post_of tFinish tSubmit hex w :=
  (build_post assignment expertId (randomId "sub" hex) tSubmit
     (stamped tFinish hex (state w))).

Lemma fetch_submit_cases (e : FetchSubmit.Env) (w : World) :
  submitted (state w) = false ->
  let w' := FetchSubmit.submit assignment expertId e w in
  (submitted (state w') = false
   /\ (network w' = network w
       \/ network w'
          = (network w
             ++ [post_of (FetchSubmit.tFinish e) (FetchSubmit.tSubmit e)
                         (FetchSubmit.hex e) w])%list))
  \/ (all_valid assignment (state w) = true
      /\ (exists st body, FetchSubmit.transport e = Response st body
                          /\ response_ok st = true)
      /\ w' = mark_submitted assignment expertId
                (send (post_of (FetchSubmit.tFinish e) (FetchSubmit.tSubmit e)
                               (FetchSubmit.hex e) w)
                   (setSubmitStatus StatusSubmitting
                      (stamp_submission assignment expertId
                         (FetchSubmit.tFinish e) (FetchSubmit.hex e)
                         (setSubmitDisabled true w))))).
Proof.
  intros Hs w'. subst w'. unfold FetchSubmit.submit. rewrite Hs. simpl.
  destruct (all_valid assignment (state w)) eqn:Hv; simpl;
    [| left; split; [exact Hs | left; reflexivity]].
  destruct (FetchSubmit.formFound e); simpl;
    [| left; split; [exact Hs | left; reflexivity]].
  destruct (FetchSubmit.fieldsFound e); simpl;
    [| left; split; [exact Hs | left; reflexivity]].
  destruct (FetchSubmit.transport e) as [| st body] eqn:Htr;
    [left; split; [exact Hs | right; reflexivity] |].
  destruct (response_ok st) eqn:Hok; simpl.
  - right. split; [reflexivity |]. split; [eauto | reflexivity].
  - left. split; [exact Hs | right; reflexivity].
Qed.

Lemma iframe_submit_cases (e : IframeSubmit.Env) (w : World) :
  submitted (state w) = false ->
  let w' := IframeSubmit.submit assignment expertId e w in
  (submitted (state w') = false /\ network w' = network w)
  \/ (all_valid assignment (state w) = true
      /\ w' = mark_submitted assignment expertId
                (send (post_of (IframeSubmit.tFinish e) (IframeSubmit.tSubmit e)
                               (IframeSubmit.hex e) w)
                   (setSubmitStatus StatusSubmitting
                      (stamp_submission assignment expertId
                         (IframeSubmit.tFinish e) (IframeSubmit.hex e)
                         (setSubmitDisabled true w))))).
Proof.
  intros Hs w'. subst w'.
  unfold IframeSubmit.submit, IframeSubmit.submitViaNetlifyForm.
  rewrite Hs. simpl.
  destruct (all_valid assignment (state w)) eqn:Hv; simpl;
    [| left; split; [exact Hs | reflexivity]].
  destruct (IframeSubmit.formFound e); simpl;
    [| left; split; [exact Hs | reflexivity]].
  destruct (IframeSubmit.iframeFound e); simpl;
    [| left; split; [exact Hs | reflexivity]].
  right. split; [reflexivity |].
  destruct (IframeSubmit.transport e); reflexivity.
Qed.

(** The session, page and storage after a successful run. *)
Lemma mark_submitted_after_send tFinish tSubmit hex w :
  let p := post_of tFinish tSubmit hex w in
  let w' := mark_submitted assignment expertId
              (send p (setSubmitStatus StatusSubmitting
                         (stamp_submission assignment expertId tFinish hex
                            (setSubmitDisabled true w)))) in
  network w' = (network w ++ [p])%list
  /\ state w' = set_submitted true (stamped tFinish hex (state w))
  /\ screen (ui w') = Some ScreenThanks
  /\ localStorage w' !! stateKey assignment expertId
     = Some (JSON_stringify (state w')).
Proof.
  intros p w'. subst w'. unfold mark_submitted.
  split; [reflexivity |]. split; [reflexivity |]. split; [reflexivity |].
  change (localStorage
            (persist assignment expertId
               (with_state (set_submitted true)
                  (send p (setSubmitStatus StatusSubmitting
                     (stamp_submission assignment expertId tFinish hex
                        (setSubmitDisabled true w))))))
          !! stateKey assignment expertId
          = Some (JSON_stringify
                    (set_submitted true (stamped tFinish hex (state w))))).
  apply persist_stored.
Qed.

(** X13.  In both revisions a session becomes submitted only in a run that
    found every task valid and handed exactly one post to the network.
    That post carries the submission identifier the session records as
    [lastSubmissionUuid], the session's client session identifier, its
    answers and timing totals and the [finishedAt] stamp; the session that
    is stored afterwards is the submitted one, and the thanks screen is
    shown.  In the [fetch] revision the endpoint must also have answered
    with a status in 200..299. *)
Theorem submitted_only_after_sending (w : World) :
  submitted (state w) = false ->
  (forall e,
     let w' := FetchSubmit.submit assignment expertId e w in
     submitted (state w') = true ->
     all_valid assignment (state w) = true
     /\ (exists st body, FetchSubmit.transport e = Response st body
                         /\ response_ok st = true)
     /\ exists p,
          network w' = (network w ++ [p])%list
          /\ lastSubmissionUuid (state w') = Some (f_submission_uuid p)
          /\ f_submission_uuid p = randomId "sub" (FetchSubmit.hex e)
          /\ p_submission_uuid (f_payload p) = f_submission_uuid p
          /\ f_client_session_id p = clientSessionId (state w)
          /\ p_answers (f_payload p) = answers (state w)
          /\ p_task_time_ms (f_payload p) = taskTimeMs (state w)
          /\ p_finished_at (f_payload p) = finishedAt (state w')
          /\ screen (ui w') = Some ScreenThanks
          /\ localStorage w' !! stateKey assignment expertId
             = Some (JSON_stringify (state w')))
  /\ (forall e,
     let w' := IframeSubmit.submit assignment expertId e w in
     submitted (state w') = true ->
     all_valid assignment (state w) = true
     /\ exists p,
          network w' = (network w ++ [p])%list
          /\ lastSubmissionUuid (state w') = Some (f_submission_uuid p)
          /\ f_submission_uuid p = randomId "sub" (IframeSubmit.hex e)
          /\ p_submission_uuid (f_payload p) = f_submission_uuid p
          /\ f_client_session_id p = clientSessionId (state w)
          /\ p_answers (f_payload p) = answers (state w)
          /\ p_task_time_ms (f_payload p) = taskTimeMs (state w)
          /\ p_finished_at (f_payload p) = finishedAt (state w')
          /\ screen (ui w') = Some ScreenThanks
          /\ localStorage w' !! stateKey assignment expertId
             = Some (JSON_stringify (state w'))).
Proof.
  intros Hs. split; intros e w' Hsub.
  - destruct (fetch_submit_cases e w Hs) as [[Hf _] | (Hv & Htr & Hw)];
      fold w' in Hf || fold w' in Hw; [congruence |].
    split; [exact Hv |]. split; [exact Htr |].
    destruct (mark_submitted_after_send (FetchSubmit.tFinish e)
                (FetchSubmit.tSubmit e) (FetchSubmit.hex e) w)
      as (Hn & Hst & Hscr & Hls).
    rewrite <- Hw in Hn, Hst, Hscr, Hls.
    eexists. split; [exact Hn |].
    repeat split; try assumption; rewrite Hst; reflexivity.
  - destruct (iframe_submit_cases e w Hs) as [[Hf _] | (Hv & Hw)];
      fold w' in Hf || fold w' in Hw; [congruence |].
    split; [exact Hv |].
    destruct (mark_submitted_after_send (IframeSubmit.tFinish e)
                (IframeSubmit.tSubmit e) (IframeSubmit.hex e) w)
      as (Hn & Hst & Hscr & Hls).
    rewrite <- Hw in Hn, Hst, Hscr, Hls.
    eexists. split; [exact Hn |].
    repeat split; try assumption; rewrite Hst; reflexivity.
Qed.
End Pipeline.

Lemma submit_blocked_when_incomplete_witness :
  submitted (state (Sample.world_of (set_started true defaultState))) = false
  /\ In Sample.c1 (tasks Sample.two_tasks)
  /\ ok (validateTask Sample.c1
           (answer_of (state (Sample.world_of (set_started true defaultState)))
                      Sample.c1)) = false
  /\ network (@IframeSubmit.submit Sample.browser Sample.two_tasks "E1"
                Sample.online
                (Sample.world_of (set_started true defaultState))) = [].
Proof.
  assert (Hin : In Sample.c1 (tasks Sample.two_tasks)) by (left; reflexivity).
  split; [reflexivity | split; [exact Hin | split; [reflexivity |]]].
  exact (proj1 (proj2
    (@submit_blocked_when_incomplete Sample.browser Sample.two_tasks "E1"
       (Sample.world_of (set_started true defaultState)) Sample.c1
       eq_refl Hin eq_refl) Sample.online)).
Defined.

Lemma submitted_only_after_sending_witness :
  submitted (state Sample.ready) = false
  /\ submitted (state (@FetchSubmit.submit Sample.browser Sample.two_tasks "E1"
                         Sample.online_fetch Sample.ready)) = true
  /\ all_valid Sample.two_tasks (state Sample.ready) = true.
Proof.
  assert (Hsub : submitted (state (@FetchSubmit.submit Sample.browser
                                     Sample.two_tasks "E1"
                                     Sample.online_fetch Sample.ready)) = true)
    by (vm_compute; reflexivity).
  split; [reflexivity | split; [exact Hsub |]].
  exact (proj1 (proj1
    (@submitted_only_after_sending Sample.browser Sample.two_tasks "E1"
       Sample.ready eq_refl) Sample.online_fetch Hsub)).
Defined.

Section Retry.
Context `{Platform}.
Variable assignment : Assignment.
Variable expertId : string.

Lemma fetch_submit_sends (e : FetchSubmit.Env) (w : World) :
  submitted (state w) = false ->
  all_valid assignment (state w) = true ->
  FetchSubmit.formFound e = true ->
  FetchSubmit.fieldsFound e = true ->
  network (FetchSubmit.submit assignment expertId e w)
  = (network w
     ++ [build_post assignment expertId (randomId "sub" (FetchSubmit.hex e))
           (FetchSubmit.tSubmit e)
           (stamped (FetchSubmit.tFinish e) (FetchSubmit.hex e) (state w))])%list.
Proof.
  intros Hs Hv Hf Hi. unfold FetchSubmit.submit.
  rewrite Hs. simpl. rewrite Hv, Hf, Hi. simpl.
  destruct (FetchSubmit.transport e) as [| st body]; [reflexivity |].
  destruct (response_ok st); reflexivity.
Qed.

Lemma randomId_sub_inj (h1 h2 : string) :
  randomId "sub" h1 = randomId "sub" h2 -> h1 = h2.
Proof.
  intros Heq. change ("sub" +:+ "_" +:+ h1 = "sub" +:+ "_" +:+ h2) in Heq.
  do 2 apply string_app_inv_head in Heq. exact Heq.
Qed.

(** X14.  In the [fetch] revision a failed transmission followed by a new
    attempt puts two posts on the network.  Both carry the session's
    client session identifier and the same answers; each carries its own
    submission identifier, different whenever the random digits differ;
    the second carries the second [finishedAt] stamp. *)
Theorem retry_posts (e1 e2 : FetchSubmit.Env) (w : World) :
  submitted (state w) = false ->
  all_valid assignment (state w) = true ->
  FetchSubmit.formFound e1 = true -> FetchSubmit.fieldsFound e1 = true ->
  (FetchSubmit.transport e1 = NetworkError \/
   exists st body, FetchSubmit.transport e1 = Response st body
                   /\ response_ok st = false) ->
  FetchSubmit.formFound e2 = true -> FetchSubmit.fieldsFound e2 = true ->
  let w1 := FetchSubmit.submit assignment expertId e1 w in
  let w2 := FetchSubmit.submit assignment expertId e2 w1 in
  exists p1 p2,
    network w2 = (network w ++ [p1; p2])%list
    /\ f_client_session_id p1 = clientSessionId (state w)
    /\ f_client_session_id p2 = clientSessionId (state w)
    /\ f_submission_uuid p1 = randomId "sub" (FetchSubmit.hex e1)
    /\ f_submission_uuid p2 = randomId "sub" (FetchSubmit.hex e2)
    /\ (FetchSubmit.hex e1 <> FetchSubmit.hex e2 ->
        f_submission_uuid p1 <> f_submission_uuid p2)
    /\ p_answers (f_payload p1) = answers (state w)
    /\ p_answers (f_payload p2) = answers (state w)
    /\ p_started_at (f_payload p2) = startedAt (state w)
    /\ p_finished_at (f_payload p2)
       = Some (toISOString (FetchSubmit.tFinish e2)).
Proof.
  intros Hs Hv Hf1 Hi1 Ht1 Hf2 Hi2 w1 w2.
  destruct (fetch_submit_transport_failure assignment expertId e1 w
              Hs Hv Hf1 Hi1 Ht1) as (Hs1 & _ & _ & Hst1 & _).
  fold w1 in Hs1, Hst1.
  assert (Hv1 : all_valid assignment (state w1) = true)
    by (rewrite Hst1; exact Hv).
  pose proof (fetch_submit_sends e1 w Hs Hv Hf1 Hi1) as Hn1. fold w1 in Hn1.
  pose proof (fetch_submit_sends e2 w1 Hs1 Hv1 Hf2 Hi2) as Hn2. fold w2 in Hn2.
  rewrite Hn1, Hst1, <- app_assoc in Hn2.
  eexists _, _. split; [exact Hn2 |].
  repeat split.
  intros Hne Heq. apply Hne. simpl in Heq. exact (randomId_sub_inj _ _ Heq).
Qed.
End Retry.

Lemma retry_posts_witness :
  submitted (state Sample.ready) = false
  /\ all_valid Sample.two_tasks (state Sample.ready) = true
  /\ FetchSubmit.transport Sample.offline_fetch = NetworkError
  /\ length (network
       (@FetchSubmit.submit Sample.browser Sample.two_tasks "E1"
          Sample.online_fetch
          (@FetchSubmit.submit Sample.browser Sample.two_tasks "E1"
             Sample.offline_fetch Sample.ready))) = 2%nat.
Proof.
  destruct (@retry_posts Sample.browser Sample.two_tasks "E1"
              Sample.offline_fetch Sample.online_fetch Sample.ready
              eq_refl eq_refl eq_refl eq_refl (or_introl eq_refl)
              eq_refl eq_refl) as (p1 & p2 & Hn & _).
  split; [reflexivity | split; [reflexivity | split; [reflexivity |]]].
  rewrite Hn. reflexivity.
Defined.

(** ** Editing a pair answer *)

Section PairEditing.
Context `{Platform}.
Variable assignment : Assignment.
Variable expertId : string.

(** X8.  After the rating callback of a pair task ran with a rating from
    1 to 5, the task reads back the answer with that rating and the other
    two fields as they were.  It validates exactly when the rating is
    below 4 or the common theme is not blank.  When the validator asks
    for the common theme, the view has its field: either the view already
    had it, or the callback called [render()].  A rating that stays on the
    same side of 4 is stored without [render()]. *)
Theorem onRelatedness_theme_field (task : Task) (r : option Z)
    (theme nt : JsText) (val : Z) (now : Z) (w : World) :
  type task = "pair" ->
  1 <= val <= 5 ->
  let w' := (onRelatedness assignment expertId task r theme nt val now w).1 in
  answer_of (state w') task = Some (PairAnswer (Some val) theme nt)
  /\ (ok (validateTask task (answer_of (state w') task)) = true
      <-> val < 4 \/ ~ whitespace_only theme)
  /\ (ok (validateTask task (answer_of (state w') task)) = false ->
      msg (validateTask task (answer_of (state w') task)) = msg_common_theme
      /\ shouldAskTheme (Some val) = true
      /\ (shouldAskTheme r = true \/ crossesThreshold r val = true))
  /\ (crossesThreshold r val = false ->
      shouldAskTheme (Some val) = shouldAskTheme r
      /\ onRelatedness assignment expertId task r theme nt val now w
         = (onUpdate assignment expertId task
              (PairAnswer (Some val) theme nt) w, Done)).
Proof.
  intros Hty Hval w'.
  assert (Hans : answer_of (state w') task
                 = Some (PairAnswer (Some val) theme nt)).
  { subst w'. unfold onRelatedness.
    pose proof (onUpdate_answer_of assignment expertId task
                  (PairAnswer (Some val) theme nt) w task) as [Hu _].
    simpl in Hu. rewrite decide_True in Hu by reflexivity.
    destruct (crossesThreshold r val); [| exact Hu].
    unfold answer_of in *.
    match goal with
    | |- context [render assignment now ?w0] =>
        destruct (render_fields assignment now w0) as ((_ & _ & -> & _) & _)
    end.
    exact Hu. }
  rewrite Hans, (validateTask_pair_eq _ _ Hty). simpl.
  destruct (Z.eqb_spec val 0) as [| _]; [lia |]. simpl.
  unfold crossesThreshold, shouldAskTheme. simpl.
  split; [reflexivity |].
  destruct (Z.geb_spec val 4) as [Hge | Hlt]; simpl.
  - destruct (truthy_text (trim theme)) eqn:Hb; simpl.
    + split; [split; [intros _; right | reflexivity] |].
      * intros Hw. apply trim_blank in Hw. congruence.
      * split; [discriminate |].
        intros Hc. split.
        -- destruct (Z.geb_spec (Number r) 4); [reflexivity | discriminate].
        -- subst w'. unfold onRelatedness, crossesThreshold.
           destruct (Z.geb_spec val 4); [| lia].
           destruct (Number r >=? 4); [reflexivity | discriminate].
    + apply trim_blank in Hb.
      split; [split; [discriminate | intros [? | ?]; [lia | contradiction]] |].
      split.
      * intros _. split; [reflexivity |]. split; [reflexivity |].
        destruct (Number r >=? 4); [left | right]; reflexivity.
      * intros Hc. split.
        -- destruct (Z.geb_spec (Number r) 4); [reflexivity | discriminate].
        -- subst w'. unfold onRelatedness, crossesThreshold.
           destruct (Z.geb_spec val 4); [| lia].
           destruct (Number r >=? 4); [reflexivity | discriminate].
  - split; [split; [intros _; left; lia | reflexivity] |].
    split; [discriminate |].
    intros Hc. split.
    + destruct (Z.geb_spec (Number r) 4); [discriminate | reflexivity].
    + subst w'. unfold onRelatedness, crossesThreshold.
      destruct (Z.geb_spec val 4); [lia |].
      destruct (Number r >=? 4); [discriminate | reflexivity].
Qed.
End PairEditing.

Lemma onRelatedness_theme_field_witness :
  type Sample.p1 = "pair" /\ 1 <= 4 <= 5
  /\ answer_of
       (state (@onRelatedness Sample.browser Sample.two_tasks "E1" Sample.p1
                 (Some 2) [] [] 4 7000 Sample.on_last).1) Sample.p1
     = Some (PairAnswer (Some 4) [] []).
Proof.
  assert (Hv : 1 <= 4 <= 5) by lia.
  split; [reflexivity | split; [exact Hv |]].
  exact (proj1 (@onRelatedness_theme_field Sample.browser Sample.two_tasks
                  "E1" Sample.p1 (Some 2) [] [] 4 7000 Sample.on_last
                  eq_refl Hv)).
Defined.

(** ** Editing a cluster answer *)

Lemma clusterView_ok task m l n : view_ok (clusterView task m l n).
Proof.
  split; [| split].
  - intros d r Hd. simpl in Hd. rewrite map_lookup_imap in Hd.
    destruct (m !! d); simpl in Hd; [| discriminate].
    injection Hd as <-. reflexivity.
  - intros p d r Hp. simpl in Hp. rewrite list_lookup_imap in Hp.
    destruct (items task !! p) as [it |] eqn:Hit; simpl in Hp; [| discriminate].
    injection Hp as <- <-.
    destruct (m !! doc_id it); [reflexivity |].
    simpl. rewrite list_lookup_imap, Hit. reflexivity.
  - intros d r q r' Hd Hq. simpl in Hd, Hq.
    rewrite map_lookup_imap in Hd. rewrite list_lookup_imap in Hq.
    destruct (m !! d) eqn:Hm; simpl in Hd; [| discriminate].
    injection Hd as <-.
    destruct (items task !! q) as [it |] eqn:Hit; simpl in Hq; [| discriminate].
    injection Hq as <- <-. exists q. simpl.
    rewrite list_lookup_imap, Hit. simpl. rewrite Hm. reflexivity.
Qed.

Lemma clusterView_cells task m l n p :
  cv_cells (clusterView task m l n) !! p
  = (fun it => (doc_id it,
                match m !! doc_id it with
                | Some _ => OldItem (doc_id it)
                | None => NewItem p
                end)) <$> items task !! p.
Proof. simpl. apply list_lookup_imap. Qed.

(** What an item edit does to the objects and to the keys. *)
Lemma editItem_spec f pos v v' :
  editItem f pos v = Some v' ->
  exists d r,
    cv_cells v !! pos = Some (d, r)
    /\ cv_cells v' = cv_cells v
    /\ cv_items v' = <[d := r]> (cv_items v)
    /\ cv_label v' = cv_label v /\ cv_note v' = cv_note v
    /\ (forall r', deref v' r' = if decide (r' = r) then f (deref v r)
                                 else deref v r').
Proof.
  unfold editItem. destruct (cv_cells v !! pos) as [[d r] |]; [| discriminate].
  intros Hv. injection Hv as <-. exists d, r. simpl.
  repeat split. intros r'.
  destruct (decide (r' = r)) as [-> | Hne].
  - destruct r; simpl; rewrite lookup_insert_eq; reflexivity.
  - destruct r as [d0 | p0], r' as [d1 | p1]; simpl; try reflexivity;
      rewrite lookup_insert_ne by congruence; reflexivity.
Qed.

Lemma editItem_ok f pos v v' :
  view_ok v -> editItem f pos v = Some v' -> view_ok v'.
Proof.
  intros (Hi & Hc & Hl) He.
  destruct (editItem_spec _ _ _ _ He) as (d & r & Hp & Hcells & Hitems & _).
  assert (Hrd : forall x, ref_doc v' x = ref_doc v x)
    by (intros [|]; simpl; rewrite ?Hcells; reflexivity).
  split; [| split].
  - intros d' r' Hd'. rewrite Hrd. rewrite Hitems in Hd'.
    destruct (decide (d = d')) as [<- | Hne].
    + rewrite lookup_insert_eq in Hd'. injection Hd' as <-. exact (Hc _ _ _ Hp).
    + rewrite lookup_insert_ne in Hd' by exact Hne. exact (Hi _ _ Hd').
  - intros p d' r' Hp'. rewrite Hrd. rewrite Hcells in Hp'. exact (Hc _ _ _ Hp').
  - intros d' r' q r'' Hd' Hq. rewrite Hcells in *. rewrite Hitems in Hd'.
    destruct (decide (d = d')) as [<- | Hne].
    + rewrite lookup_insert_eq in Hd'. injection Hd' as <-. eauto.
    + rewrite lookup_insert_ne in Hd' by exact Hne. exact (Hl _ _ _ _ Hd' Hq).
Qed.

Lemma applyEdit_ok e v v' : view_ok v -> applyEdit e v = Some v' -> view_ok v'.
Proof.
  intros Hok. destruct e; simpl; try apply (editItem_ok _ _ _ _ Hok);
    intros Hv; injection Hv as <-; exact Hok.
Qed.

Lemma applyEdit_cells e v v' :
  applyEdit e v = Some v' -> cv_cells v' = cv_cells v.
Proof.
  destruct e; simpl; intros Hv;
    try (destruct (editItem_spec _ _ _ _ Hv) as (? & ? & _ & Hc & _); exact Hc);
    injection Hv as <-; reflexivity.
Qed.

Lemma applyEdit_items_defined e v v' d :
  applyEdit e v = Some v' -> is_Some (cv_items v !! d) ->
  is_Some (cv_items v' !! d).
Proof.
  destruct e; simpl; intros Hv Hd;
    try (destruct (editItem_spec _ _ _ _ Hv) as (d0 & r0 & _ & _ & -> & _);
         destruct (decide (d0 = d)) as [-> | Hne];
         [rewrite lookup_insert_eq; eauto
         | rewrite lookup_insert_ne by exact Hne; exact Hd]);
    injection Hv as <-; exact Hd.
Qed.

Lemma applyEdit_rated e v v' r :
  scale_edit e -> applyEdit e v = Some v' -> rated v r -> rated v' r.
Proof.
  unfold rated. destruct e; simpl; intros Hs Hv Hr;
    try (destruct (editItem_spec _ _ _ _ Hv) as (d0 & r0 & _ & _ & _ & _ & _ & Hd);
         rewrite Hd; destruct (decide (r = r0)) as [-> | _]; simpl;
         try exact Hr);
    try (injection Hv as <-; exact Hr).
  destruct (Z.eqb_spec val 0); [lia | reflexivity].
Qed.

Lemma applyEdit_coherence p val v d r :
  1 <= val <= 5 -> cv_cells v !! p = Some (d, r) ->
  exists v', applyEdit (EditCoherence p val) v = Some v'
             /\ rated v' r /\ cv_items v' !! d = Some r.
Proof.
  intros Hval Hp. simpl. unfold editItem at 1. rewrite Hp.
  eexists. split; [reflexivity |].
  split.
  - unfold rated, deref. simpl. destruct r; simpl;
      rewrite lookup_insert_eq; simpl;
      destruct (Z.eqb_spec val 0); (lia || reflexivity).
  - simpl. apply lookup_insert_eq.
Qed.

Lemma step_ok e v : view_ok v -> view_ok (default v (applyEdit e v)).
Proof.
  intros Hok. destruct (applyEdit e v) as [v' |] eqn:He; [| exact Hok].
  exact (applyEdit_ok _ _ _ Hok He).
Qed.

Lemma step_cells e v : cv_cells (default v (applyEdit e v)) = cv_cells v.
Proof.
  destruct (applyEdit e v) as [v' |] eqn:He; [| reflexivity].
  exact (applyEdit_cells _ _ _ He).
Qed.

Lemma applyEdits_ok es v : view_ok v -> view_ok (applyEdits es v).
Proof.
  revert v. induction es as [| e es IH]; intros v Hok; [exact Hok |].
  apply IH, step_ok, Hok.
Qed.

Lemma applyEdits_cells es v : cv_cells (applyEdits es v) = cv_cells v.
Proof.
  revert v. induction es as [| e es IH]; intros v; [reflexivity |].
  change (applyEdits (e :: es) v)
    with (applyEdits es (default v (applyEdit e v))).
  rewrite IH. apply step_cells.
Qed.

Lemma applyEdits_kept es v r d :
  Forall scale_edit es ->
  (rated v r -> rated (applyEdits es v) r)
  /\ (is_Some (cv_items v !! d) -> is_Some (cv_items (applyEdits es v) !! d)).
Proof.
  intros Hs. revert v. induction Hs as [| e es He _ IH]; intros v;
    [split; auto |].
  destruct (IH (default v (applyEdit e v))) as [IHr IHd].
  split; intros Hv; [apply IHr | apply IHd];
    destruct (applyEdit e v) as [v' |] eqn:Hev; simpl; try exact Hv.
  - exact (applyEdit_rated _ _ _ _ He Hev Hv).
  - exact (applyEdit_items_defined _ _ _ _ Hev Hv).
Qed.

(** Once the scale of an item was used, its object stays rated and its
    key stays in [a.items]. *)
Lemma applyEdits_rates es v p val d r :
  Forall scale_edit es ->
  In (EditCoherence p val) es ->
  cv_cells v !! p = Some (d, r) ->
  rated (applyEdits es v) r /\ is_Some (cv_items (applyEdits es v) !! d).
Proof.
  intros Hs. revert v.
  induction Hs as [| e es He Hes IH]; intros v Hin Hp; [contradiction |].
  destruct Hin as [-> | Hin].
  - destruct (applyEdit_coherence p val v d r He Hp) as (v' & Hv' & Hr & Hi).
    change (applyEdits (EditCoherence p val :: es) v)
      with (applyEdits es (default v (applyEdit (EditCoherence p val) v))).
    rewrite Hv'. simpl.
    destruct (applyEdits_kept es v' r d Hes) as [Kr Kd].
    split; [exact (Kr Hr) | apply Kd; rewrite Hi; eauto].
  - apply (IH _ Hin). rewrite step_cells. exact Hp.
Qed.

Lemma validate_items_rated its a :
  (forall it, In it its ->
     exists ia, item_answer a (doc_id it) = Some ia
                /\ truthy_num (coherence ia) = true) ->
  validate_items its a = valid.
Proof.
  induction its as [| it its IH]; intros Hall; [reflexivity |].
  simpl. destruct (Hall it (or_introl eq_refl)) as (ia & -> & ->).
  apply IH. intros it' Hin. apply Hall. right. exact Hin.
Qed.

Lemma view_validates task m l n es :
  Forall scale_edit es ->
  (forall p, (p < length (items task))%nat ->
             exists val, In (EditCoherence p val) es) ->
  validate_items (items task)
    (answerOf (applyEdits es (clusterView task m l n))) = valid.
Proof.
  intros Hs Hall. set (v0 := clusterView task m l n).
  assert (Hcell : forall q d r, cv_cells v0 !! q = Some (d, r) ->
            rated (applyEdits es v0) r).
  { intros q d r Hq.
    assert (Hlt : (q < length (items task))%nat).
    { apply lookup_lt_Some in Hq. subst v0. simpl in Hq.
      rewrite length_imap in Hq. exact Hq. }
    destruct (Hall q Hlt) as (val & Hin).
    exact (proj1 (applyEdits_rates es v0 q val d r Hs Hin Hq)). }
  apply validate_items_rated. intros it Hin.
  apply list_elem_of_In, list_elem_of_lookup_1 in Hin as [p Hp].
  pose proof (lookup_lt_Some _ _ _ Hp) as Hlt.
  destruct (Hall p Hlt) as (val & Hval).
  assert (Hc : exists r, cv_cells v0 !! p = Some (doc_id it, r)).
  { subst v0. rewrite clusterView_cells, Hp. simpl. eauto. }
  destruct Hc as (r & Hc).
  destruct (applyEdits_rates es v0 p val _ r Hs Hval Hc) as [_ [r' Hr']].
  destruct (applyEdits_ok es v0 (clusterView_ok task m l n)) as (_ & _ & Hl).
  destruct (Hl (doc_id it) r' p r Hr') as (q' & Hq').
  { rewrite applyEdits_cells. exact Hc. }
  rewrite applyEdits_cells in Hq'.
  exists (deref (applyEdits es v0) r'). split.
  - unfold item_answer, answerOf. simpl. rewrite lookup_fmap, Hr'. reflexivity.
  - exact (Hcell q' _ r' Hq').
Qed.

Section ClusterCallbacks.
Context `{Platform}.
Variable assignment : Assignment.
Variable expertId : string.

Lemma clusterCallbacks_view task es v w :
  (clusterCallbacks assignment expertId task es (v, w)).1 = applyEdits es v.
Proof.
  revert v w. induction es as [| e es IH]; intros v w; [reflexivity |].
  unfold clusterCallbacks in *. simpl foldl.
  change (applyEdits (e :: es) v)
    with (applyEdits es (default v (applyEdit e v))).
  assert (Hstep : clusterCallback assignment expertId task e (v, w)
                  = match applyEdit e v with
                    | Some v' => (v', onUpdate assignment expertId task
                                        (answerOf v') w)
                    | None => (v, w)
                    end) by reflexivity.
  rewrite Hstep. destruct (applyEdit e v) as [v' |]; simpl default; apply IH.
Qed.

(** Every callback leaves the network, the page, the cursor and the timing
    alone and stores the session. *)
Lemma clusterCallbacks_world task es v w :
  let w' := (clusterCallbacks assignment expertId task es (v, w)).2 in
  network w' = network w /\ ui w' = ui w
  /\ taskIndex (state w') = taskIndex (state w)
  /\ taskTimeMs (state w') = taskTimeMs (state w)
  /\ (forall other,
        prop_name (getAnswerKey other) <> prop_name (getAnswerKey task) ->
        answer_of (state w') other = answer_of (state w) other)
  /\ ((answer_of (state w') task = Some (answerOf (applyEdits es v))
       /\ localStorage w' !! stateKey assignment expertId
          = Some (JSON_stringify (state w')))
      \/ (w' = w /\ Forall (fun e => applyEdit e v = None) es)).
Proof.
  revert v w. induction es as [| e es IH]; intros v w.
  - simpl. repeat split. right. split; [reflexivity | constructor].
  - unfold clusterCallbacks in *. simpl foldl.
    assert (Hstep : clusterCallback assignment expertId task e (v, w)
                    = match applyEdit e v with
                      | Some v' => (v', onUpdate assignment expertId task
                                          (answerOf v') w)
                      | None => (v, w)
                      end) by reflexivity.
    rewrite Hstep. clear Hstep.
    change (applyEdits (e :: es) v)
      with (applyEdits es (default v (applyEdit e v))).
    destruct (applyEdit e v) as [v' |] eqn:Hev; simpl default; cbv zeta.
    + destruct (onUpdate_answer_of assignment expertId task (answerOf v') w task)
        as (Ha & Hls & Hti & Htt & Hn & Hu & _).
      rewrite decide_True in Ha by reflexivity.
      destruct (IH v' (onUpdate assignment expertId task (answerOf v') w))
        as (In1 & In2 & In3 & In4 & In5 & In6). cbv zeta in *.
      split; [congruence |]. split; [congruence |]. split; [congruence |].
      split; [congruence |]. split.
      * intros other Ho. rewrite (In5 other Ho).
        destruct (onUpdate_answer_of assignment expertId task (answerOf v') w
                    other) as (Ho' & _).
        rewrite decide_False in Ho' by exact Ho. exact Ho'.
      * left. destruct In6 as [In6 | [Heq Hnone]]; [exact In6 |].
        rewrite Heq. split; [| exact Hls].
        rewrite Ha. f_equal. f_equal.
        clear -Hnone. induction Hnone as [| e' es' He' _ IHn]; [reflexivity |].
        change (applyEdits (e' :: es') v')
          with (applyEdits es' (default v' (applyEdit e' v'))).
        rewrite He'. exact IHn.
    + destruct (IH v w) as (In1 & In2 & In3 & In4 & In5 & In6).
      cbv zeta in *.
      repeat (split; [assumption |]).
      destruct In6 as [In6 | [Heq Hnone]]; [left; exact In6 |].
      right. split; [exact Heq | constructor; assumption].
Qed.

(** X7.  On a cluster task with at least one item, once the expert has
    used the rating scale of every item (in any order, any number of
    times, with any other edits of the view in between), the answer the
    session holds for the task is the edited object and the task
    validates.  The callbacks send nothing and leave the page, the cursor
    and the answers under the other keys alone; the stored record is the
    session with the edited answer. *)
Theorem cluster_ratings_validate (task : Task) (v0 : ClusterView)
    (es : list ClusterEdit) (w : World) :
  type task = "cluster" ->
  items task <> [] ->
  clusterViewOf task (answer_of (state w) task) = Some v0 ->
  Forall scale_edit es ->
  (forall p, (p < length (items task))%nat ->
             exists val, In (EditCoherence p val) es) ->
  let v := (clusterCallbacks assignment expertId task es (v0, w)).1 in
  let w' := (clusterCallbacks assignment expertId task es (v0, w)).2 in
  answer_of (state w') task = Some (answerOf v)
  /\ validateTask task (answer_of (state w') task) = {| ok := true; msg := "" |}
  /\ network w' = network w /\ ui w' = ui w
  /\ taskIndex (state w') = taskIndex (state w)
  /\ (forall other,
        prop_name (getAnswerKey other) <> prop_name (getAnswerKey task) ->
        answer_of (state w') other = answer_of (state w) other)
  /\ localStorage w' !! stateKey assignment expertId
     = Some (JSON_stringify (state w')).
Proof.
  intros Hty Hit Hv0 Hs Hall v w'.
  subst v. rewrite clusterCallbacks_view.
  destruct (clusterCallbacks_world task es v0 w)
    as (Hn & Hu & Hti & _ & Hother & Hans).
  fold w' in Hn, Hu, Hti, Hother, Hans.
  assert (Hvalid : validate_items (items task) (answerOf (applyEdits es v0))
                   = valid).
  { unfold clusterViewOf in Hv0.
    destruct (answer_of (state w) task) as [[m l n | ? ? ?] |];
      try discriminate; injection Hv0 as <-; apply view_validates; assumption. }
  assert (Heff : answer_of (state w') task = Some (answerOf (applyEdits es v0))
                 /\ localStorage w' !! stateKey assignment expertId
                    = Some (JSON_stringify (state w'))).
  { destruct Hans as [Hans | [_ Hnone]]; [exact Hans |]. exfalso.
    destruct (items task) as [| it its] eqn:Hits; [contradiction |].
    destruct (Hall O) as (val & Hin); [simpl; lia |].
    rewrite List.Forall_forall in Hnone, Hs.
    specialize (Hnone _ Hin). specialize (Hs _ Hin).
    assert (Hc : exists d r, cv_cells v0 !! O = Some (d, r)).
    { unfold clusterViewOf in Hv0.
      destruct (answer_of (state w) task) as [[m l n | ? ? ?] |];
        try discriminate; injection Hv0 as <-;
        rewrite clusterView_cells, Hits; simpl; eauto. }
    destruct Hc as (d & r & Hc).
    destruct (applyEdit_coherence O val v0 d r Hs Hc) as (v' & Hv' & _).
    congruence. }
  destruct Heff as [Ha Hls].
  split; [exact Ha |]. split.
  - rewrite Ha, (validateTask_cluster_eq _ _ Hty). exact Hvalid.
  - repeat split; assumption.
Qed.
End ClusterCallbacks.

Lemma cluster_ratings_validate_witness :
  type Sample.c1 = "cluster" /\ items Sample.c1 <> []
  /\ Forall scale_edit Sample.rate_c1
  /\ validateTask Sample.c1
       (answer_of
          (state (@clusterCallbacks Sample.browser Sample.two_tasks "E1"
                    Sample.c1 Sample.rate_c1
                    (clusterView Sample.c1 ∅ [] [],
                     Sample.world_of (set_started true defaultState))).2)
          Sample.c1)
     = {| ok := true; msg := "" |}.
Proof.
  assert (Hit : items Sample.c1 <> []) by discriminate.
  assert (Hs : Forall scale_edit Sample.rate_c1)
    by (repeat constructor; simpl; lia).
  assert (Hall : forall p, (p < length (items Sample.c1))%nat ->
            exists val, In (EditCoherence p val) Sample.rate_c1).
  { intros p Hp. simpl in Hp.
    destruct p as [| [| [| p]]]; [exists 5 | exists 5 | exists 4 | lia];
      simpl; auto. }
  split; [reflexivity | split; [exact Hit | split; [exact Hs |]]].
  exact (proj1 (proj2
    (@cluster_ratings_validate Sample.browser Sample.two_tasks "E1" Sample.c1
       (clusterView Sample.c1 ∅ [] []) Sample.rate_c1
       (Sample.world_of (set_started true defaultState))
       eq_refl Hit eq_refl Hs Hall))).
Defined.

(** X19.  An edit of one item of the cluster view changes the one field
    it is about: the answer recorded for every other [doc_id], the other
    two fields of the item, the cluster label and the cluster note stay
    as they were, and the item's object is what [a.items] holds under its
    [doc_id] afterwards. *)
Theorem cluster_edit_local (e : ClusterEdit) (v v' : ClusterView)
    (p : nat) (d : string) (r : ItemRef) :
  view_ok v ->
  applyEdit e v = Some v' ->
  edit_pos e = Some p ->
  cv_cells v !! p = Some (d, r) ->
  (forall d', d' <> d ->
     item_answer (answerOf v') d' = item_answer (answerOf v) d')
  /\ item_answer (answerOf v') d = Some (deref v' r)
  /\ (forall val, e = EditCoherence p val ->
        deref v' r = {| coherence := Some val;
                        misplaced := misplaced (deref v r);
                        note := note (deref v r) |})
  /\ (forall b, e = EditMisplaced p b ->
        deref v' r = {| coherence := coherence (deref v r);
                        misplaced := b; note := note (deref v r) |})
  /\ (forall txt, e = EditNote p txt ->
        deref v' r = {| coherence := coherence (deref v r);
                        misplaced := misplaced (deref v r); note := txt |})
  /\ cv_label v' = cv_label v /\ cv_note v' = cv_note v.
Proof.
  intros (Hi & Hc & _) He Hp Hcell.
  assert (Hspec : exists f,
            editItem f p v = Some v'
            /\ (forall val, e = EditCoherence p val ->
                  f = fun ia => {| coherence := Some val;
                                   misplaced := misplaced ia; note := note ia |})
            /\ (forall b, e = EditMisplaced p b ->
                  f = fun ia => {| coherence := coherence ia;
                                   misplaced := b; note := note ia |})
            /\ (forall txt, e = EditNote p txt ->
                  f = fun ia => {| coherence := coherence ia;
                                   misplaced := misplaced ia; note := txt |})).
  { destruct e; simpl in Hp; try discriminate; injection Hp as ->;
      eexists; (split; [exact He |]);
      repeat split; intros x Hx; try discriminate; injection Hx as ->;
      reflexivity. }
  destruct Hspec as (f & Hf & Hf1 & Hf2 & Hf3).
  destruct (editItem_spec _ _ _ _ Hf)
    as (d0 & r0 & Hp0 & _ & Hitems & Hl & Hn & Hd).
  rewrite Hcell in Hp0. injection Hp0 as <- <-.
  assert (Hr : deref v' r = f (deref v r))
    by (rewrite Hd, decide_True by reflexivity; reflexivity).
  split; [| split; [| split; [| split; [| split; [| split]]]]].
  - intros d' Hne. unfold item_answer, answerOf. simpl.
    rewrite !lookup_fmap, Hitems, lookup_insert_ne by congruence.
    destruct (cv_items v !! d') as [r' |] eqn:Hr'; [| reflexivity].
    simpl. rewrite Hd. rewrite decide_False; [reflexivity |].
    intros ->. pose proof (Hi _ _ Hr') as H1. pose proof (Hc _ _ _ Hcell) as H2.
    congruence.
  - unfold item_answer, answerOf. simpl.
    rewrite lookup_fmap, Hitems, lookup_insert_eq. reflexivity.
  - intros val Hx. rewrite Hr, (Hf1 val Hx). reflexivity.
  - intros b Hx. rewrite Hr, (Hf2 b Hx). reflexivity.
  - intros txt Hx. rewrite Hr, (Hf3 txt Hx). reflexivity.
  - exact Hl.
  - exact Hn.
Qed.

Lemma cluster_edit_local_witness :
  view_ok (clusterView Sample.c1 ∅ [] [])
  /\ cv_cells (clusterView Sample.c1 ∅ [] []) !! 1%nat
     = Some ("d2", NewItem 1)
  /\ exists v',
       applyEdit (EditCoherence 1 3) (clusterView Sample.c1 ∅ [] []) = Some v'
       /\ item_answer (answerOf v') "d1"
          = item_answer (answerOf (clusterView Sample.c1 ∅ [] [])) "d1".
Proof.
  pose proof (clusterView_ok Sample.c1 ∅ [] []) as Hok.
  split; [exact Hok | split; [reflexivity |]].
  eexists. split; [reflexivity |].
  apply (proj1 (cluster_edit_local (EditCoherence 1 3)
                  (clusterView Sample.c1 ∅ [] []) _ 1 "d2" (NewItem 1)
                  Hok eq_refl eq_refl eq_refl)).
  discriminate.
Defined.

(** * The validator on every answer *)

(** A relatedness outside 1..5 passes the validator: the pair answers
    with relatedness 7 and a common theme, and with relatedness -3, are
    valid. *)
Lemma validateTask_pair_out_of_range :
  type Sample.p1 = "pair"
  /\ ~ rating (Some 7) /\ ~ rating (Some (-3))
  /\ validateTask Sample.p1 (Some (PairAnswer (Some 7) [0x41%N] []))
     = {| ok := true; msg := "" |}
  /\ validateTask Sample.p1 (Some (PairAnswer (Some (-3)) [] []))
     = {| ok := true; msg := "" |}.
Proof.
  split; [reflexivity |].
  split; [intros (z & Hz & Hr); injection Hz as <-; lia |].
  split; [intros (z & Hz & Hr); injection Hz as <-; lia |].
  split; reflexivity.
Qed.

(** C2.  Pair tasks, every answer.  The verdict is "rate the pair" when
    there is no answer, when the answer is not pair-shaped and when its
    relatedness is [null] or 0; it is "common theme required" when the
    relatedness is another number, at least 4, and the common theme is
    empty or made of white space only; in every other case, whatever the
    number, it is [ok = true] with an empty message. *)
Theorem validateTask_pair_verdict (task : Task) :
  type task = "pair" ->
  validateTask task None = {| ok := false; msg := msg_rate_pair |}
  /\ (forall m l n,
        validateTask task (Some (ClusterAnswer m l n))
        = {| ok := false; msg := msg_rate_pair |})
  /\ (forall theme nt,
        validateTask task (Some (PairAnswer None theme nt))
        = {| ok := false; msg := msg_rate_pair |}
        /\ validateTask task (Some (PairAnswer (Some 0) theme nt))
           = {| ok := false; msg := msg_rate_pair |})
  /\ (forall z theme nt,
        z <> 0 -> 4 <= z -> whitespace_only theme ->
        validateTask task (Some (PairAnswer (Some z) theme nt))
        = {| ok := false; msg := msg_common_theme |})
  /\ (forall z theme nt,
        z <> 0 -> z < 4 \/ ~ whitespace_only theme ->
        validateTask task (Some (PairAnswer (Some z) theme nt))
        = {| ok := true; msg := "" |}).
Proof.
  intros Hty.
  split; [rewrite (validateTask_pair_eq _ _ Hty); reflexivity |].
  split; [intros; rewrite (validateTask_pair_eq _ _ Hty); reflexivity |].
  split; [intros; rewrite !(validateTask_pair_eq _ _ Hty); split; reflexivity |].
  split.
  - intros z theme nt Hz Hge Hb. rewrite (validateTask_pair_eq _ _ Hty). simpl.
    destruct (Z.eqb_spec z 0); [contradiction |]. simpl.
    apply trim_blank in Hb. rewrite Hb.
    destruct (Z.geb_spec z 4); [reflexivity | lia].
  - intros z theme nt Hz Hth. rewrite (validateTask_pair_eq _ _ Hty). simpl.
    destruct (Z.eqb_spec z 0); [contradiction |]. simpl.
    destruct (Z.geb_spec z 4) as [Hge | Hlt]; [| reflexivity].
    destruct (truthy_text (trim theme)) eqn:Hb; [reflexivity |].
    exfalso. apply trim_blank in Hb. destruct Hth; [lia | contradiction].
Qed.

Lemma validateTask_pair_verdict_witness :
  type Sample.p1 = "pair"
  /\ whitespace_only [0x20%N; 0x9%N; 0xA0%N; 0x3000%N]
  /\ ~ whitespace_only [0x20%N; 0x41%N]
  /\ validateTask Sample.p1
       (Some (PairAnswer (Some 4) [0x20%N; 0x9%N; 0xA0%N; 0x3000%N] []))
     = {| ok := false; msg := msg_common_theme |}
  /\ validateTask Sample.p1 (Some (PairAnswer (Some 4) [0x20%N; 0x41%N] []))
     = {| ok := true; msg := "" |}
  /\ validateTask Sample.p1 (Some (PairAnswer (Some 3) [] []))
     = {| ok := true; msg := "" |}.
Proof.
  assert (Hb : whitespace_only [0x20%N; 0x9%N; 0xA0%N; 0x3000%N])
    by (repeat constructor).
  assert (Hn : ~ whitespace_only [0x20%N; 0x41%N]).
  { intros Hw. inversion Hw as [| ? ? _ Hw']; subst.
    inversion Hw' as [| ? ? Hc _]; subst. discriminate. }
  destruct (validateTask_pair_verdict Sample.p1 eq_refl)
    as (_ & _ & _ & Hth & Hok).
  split; [reflexivity | split; [exact Hb | split; [exact Hn |]]].
  split; [apply Hth; [discriminate | lia | exact Hb] |].
  split; apply Hok; try discriminate; [right; exact Hn | left; lia].
Defined.

(** A coherence outside 1..5 passes the validator: with coherence 9, 9
    and -1 on its three items the cluster task is valid. *)
Lemma validateTask_cluster_out_of_range :
  type Sample.c1 = "cluster"
  /\ ~ rating (Some 9) /\ ~ rating (Some (-1))
  /\ validateTask Sample.c1
       (Some (ClusterAnswer
                (<["d1" := Sample.rated 9]>
                   (<["d2" := Sample.rated 9]>
                      (<["d3" := Sample.rated (-1)]> ∅)))
                [] []))
     = {| ok := true; msg := "" |}.
Proof.
  split; [reflexivity |].
  split; [intros (z & Hz & Hr); injection Hz as <-; lia |].
  split; [intros (z & Hz & Hr); injection Hz as <-; lia |].
  vm_compute. reflexivity.
Qed.

Lemma validate_items_true its a :
  ok (validate_items its a) = true <->
  Forall (fun it => exists ia, item_answer a (doc_id it) = Some ia
                               /\ truthy_num (coherence ia) = true) its.
Proof.
  induction its as [| it its IH]; simpl.
  - split; [constructor | reflexivity].
  - destruct (item_answer a (doc_id it)) as [ia |] eqn:Hia.
    + destruct (truthy_num (coherence ia)) eqn:Hc.
      * rewrite IH. split.
        -- intros Hf. constructor; [eauto | exact Hf].
        -- intros Hf. inversion Hf; assumption.
      * simpl. split; [discriminate |].
        intros Hf. inversion Hf as [| ? ? (ia' & Hia' & Hc') _]; subst.
        congruence.
    + simpl. split; [discriminate |].
      intros Hf. inversion Hf as [| ? ? (ia' & Hia' & _) _]; subst. congruence.
Qed.

Lemma validate_items_msg its a :
  ok (validate_items its a) = false -> msg (validate_items its a) = msg_rate_all.
Proof.
  induction its as [| it its IH]; simpl; [discriminate |].
  destruct (item_answer a (doc_id it)) as [ia |]; [| reflexivity].
  destruct (truthy_num (coherence ia)); [exact IH | reflexivity].
Qed.

(** C3.  Cluster tasks, every answer.  Without an answer the verdict is
    "answer the cluster".  With a cluster-shaped answer it is [ok = true]
    exactly when, for every item of the task, the answer's item map holds
    under the item's [doc_id] an entry whose coherence is a number other
    than 0; a failing verdict carries the "rate every work" message.  A
    pair-shaped answer validates only a task without items.  Two answers
    whose item maps record the same coherence under every key get the same
    verdict, whatever their misplaced flags, item notes, cluster label and
    cluster note are. *)
Theorem validateTask_cluster_verdict (task : Task) :
  type task = "cluster" ->
  validateTask task None = {| ok := false; msg := msg_answer_cluster |}
  /\ (forall m l n,
        ok (validateTask task (Some (ClusterAnswer m l n))) = true <->
        Forall (fun it => exists ia z,
                  m !! doc_id it = Some ia /\ coherence ia = Some z /\ z <> 0)
               (items task))
  /\ (forall a,
        ok (validateTask task (Some a)) = true ->
        validateTask task (Some a) = {| ok := true; msg := "" |})
  /\ (forall a,
        ok (validateTask task (Some a)) = false ->
        validateTask task (Some a) = {| ok := false; msg := msg_rate_all |})
  /\ (forall r c n,
        ok (validateTask task (Some (PairAnswer r c n))) = true <->
        items task = [])
  /\ (forall m l n m' l' n',
        (forall d, (m !! d ≫= coherence) = (m' !! d ≫= coherence)) ->
        validateTask task (Some (ClusterAnswer m l n))
        = validateTask task (Some (ClusterAnswer m' l' n'))).
Proof.
  intros Hty.
  split; [rewrite (validateTask_cluster_eq _ _ Hty); reflexivity |].
  split; [| split; [| split; [| split]]].
  - intros m l n. rewrite (validateTask_cluster_eq _ _ Hty), validate_items_true.
    apply Forall_iff. intros it. unfold item_answer. simpl. split.
    + intros (ia & Hia & Hc). exists ia.
      destruct (coherence ia) as [z |] eqn:Hz; [| discriminate].
      exists z. repeat split; try assumption.
      intros ->. discriminate.
    + intros (ia & z & Hia & Hz & Hne). exists ia. split; [exact Hia |].
      rewrite Hz. simpl. destruct (Z.eqb_spec z 0); [contradiction | reflexivity].
  - intros a. rewrite (validateTask_cluster_eq _ _ Hty). intros Hok.
    apply validate_items_rated. intros it Hin.
    apply validate_items_true in Hok.
    rewrite List.Forall_forall in Hok. exact (Hok it Hin).
  - intros a. rewrite (validateTask_cluster_eq _ _ Hty). intros Hok.
    pose proof (validate_items_msg _ _ Hok) as Hm.
    destruct (validate_items (items task) a) as [o m0]. simpl in *.
    subst. reflexivity.
  - intros r c n. rewrite (validateTask_cluster_eq _ _ Hty).
    destruct (items task) as [| it its]; simpl.
    + split; reflexivity.
    + split; discriminate.
  - intros m l n m' l' n' Heq. rewrite !(validateTask_cluster_eq _ _ Hty).
    apply validate_items_ext. intros d. unfold coherence_of, item_answer. simpl.
    specialize (Heq d).
    destruct (m !! d), (m' !! d); simpl in *; congruence.
Qed.

Lemma validateTask_cluster_verdict_witness :
  type Sample.c1 = "cluster"
  /\ validateTask Sample.c1 (Some Sample.c1_done) = {| ok := true; msg := "" |}
  /\ validateTask Sample.c1
       (Some (ClusterAnswer
                (<["d1" := Sample.rated 5]> (<["d2" := Sample.rated 0]> ∅))
                [] []))
     = {| ok := false; msg := msg_rate_all |}.
Proof.
  destruct (validateTask_cluster_verdict Sample.c1 eq_refl)
    as (_ & Hiff & Hok & Hfail & _).
  split; [reflexivity | split].
  - apply Hok. unfold Sample.c1_done. apply Hiff.
    apply List.Forall_forall. intros it Hin. simpl in Hin.
    destruct Hin as [<- | [<- | [<- | []]]];
      exists (Sample.rated 5), 5; repeat split; discriminate.
  - apply Hfail.
    destruct (ok (validateTask Sample.c1
                    (Some (ClusterAnswer
                             (<["d1" := Sample.rated 5]>
                                (<["d2" := Sample.rated 0]> ∅)) [] []))))
      eqn:Hv; [| reflexivity].
    exfalso. apply Hiff in Hv. rewrite List.Forall_forall in Hv.
    destruct (Hv {| doc_id := "d2"; title := None; excerpt := None |})
      as (ia & z & Hia & Hz & Hne); [simpl; auto |].
    simpl in Hia. vm_compute in Hia. injection Hia as <-.
    simpl in Hz. injection Hz as <-. contradiction.
Defined.

(** * Navigation *)

Section Steps.
Context `{Platform}.
Variable assignment : Assignment.
Variable expertId : string.

Lemma task_at_lookup i task :
  0 <= i -> tasks assignment !! Z.to_nat i = Some task ->
  task_at assignment i = Some task.
Proof.
  intros Hi Hl. unfold task_at.
  destruct (Z.ltb_spec i 0); [lia | exact Hl].
Qed.

(** C6.  With [n] tasks and the cursor on [i]: back is not gated, raises
    no alert and puts the cursor on [max 0 (min n (i - 1))], which is
    [i - 1] from a position in 1..n, 0 from below and [n] from above;
    next, with a task under the cursor, puts the cursor on [i + 1] (at
    most [n]) without an alert when the validator accepts the task's
    answer, and otherwise leaves the session, the storage, the network
    and the screen as they were and adds the validator's message to the
    alerts; a cursor in [0, n] is in [0, n] after either. *)
Theorem navigation_clamped (now : Z) (w : World) :
  let n := Z.of_nat (length (tasks assignment)) in
  let i := taskIndex (state w) in
  let back := (btnBack assignment expertId now w).1 in
  let next := (btnNext assignment expertId now w).1 in
  (taskIndex (state back) = Z.max 0 (Z.min n (i - 1))
   /\ (1 <= i <= n -> taskIndex (state back) = i - 1)
   /\ (i <= 1 -> taskIndex (state back) = 0)
   /\ (n < i -> taskIndex (state back) = n)
   /\ alerts (ui back) = alerts (ui w))
  /\ (forall task,
        0 <= i -> tasks assignment !! Z.to_nat i = Some task ->
        ok (validateTask task (answer_of (state w) task)) = true ->
        taskIndex (state next) = i + 1 /\ i + 1 <= n
        /\ alerts (ui next) = alerts (ui w))
  /\ (forall task,
        0 <= i -> tasks assignment !! Z.to_nat i = Some task ->
        ok (validateTask task (answer_of (state w) task)) = false ->
        state next = state w
        /\ localStorage next = localStorage w
        /\ network next = network w
        /\ screen (ui next) = screen (ui w)
        /\ alerts (ui next)
           = (alerts (ui w)
              ++ [msg (validateTask task (answer_of (state w) task))])%list
        /\ btnSubmitDisabled (ui next) = btnSubmitDisabled (ui w)
        /\ submitStatus (ui next) = submitStatus (ui w)
        /\ partOf (ui next) = partOf (ui w))
  /\ (0 <= i <= n ->
      0 <= taskIndex (state back) <= n /\ 0 <= taskIndex (state next) <= n).
Proof.
  intros n i back next.
  assert (Hb : taskIndex (state back) = Z.max 0 (Z.min n (i - 1))).
  { subst back. rewrite btnBack_taskIndex. unfold clamp, taskCount.
    fold n. fold i. lia. }
  assert (Hn : 0 <= n) by (subst n; lia).
  split; [| split; [| split]].
  - split; [exact Hb |]. rewrite Hb.
    split; [lia |]. split; [lia |]. split; [lia |].
    subst back. unfold btnBack. rewrite render_alerts, persist_ui. reflexivity.
  - intros task Hi Hl Hok. apply task_at_lookup in Hl; [| exact Hi].
    pose proof (task_at_range _ _ _ Hl) as Hr. unfold taskCount in Hr.
    fold n in Hr. fold i in Hr.
    destruct (btnNext_accept assignment expertId now w task Hl Hok) as [Hj Ha].
    subst next. rewrite Hj, Ha. unfold clamp, taskCount. fold n. fold i.
    split; [lia |]. split; [lia | reflexivity].
  - intros task Hi Hl Hok. apply task_at_lookup in Hl; [| exact Hi].
    subst next. rewrite (btnNext_reject assignment expertId now w task Hl Hok).
    repeat split.
  - intros Hi. split; [rewrite Hb; lia |].
    destruct (task_at assignment i) as [task |] eqn:Ht.
    + pose proof (task_at_range _ _ _ Ht) as Hr. unfold taskCount in Hr.
      fold n in Hr.
      destruct (ok (validateTask task (answer_of (state w) task))) eqn:Hok.
      * destruct (btnNext_accept assignment expertId now w task Ht Hok) as [Hj _].
        subst next. rewrite Hj. unfold clamp, taskCount. fold n. fold i. lia.
      * subst next. rewrite (btnNext_reject assignment expertId now w task Ht Hok).
        exact Hi.
    + subst next. rewrite (btnNext_no_task assignment expertId now w Ht).
      exact Hi.
Qed.
End Steps.

Lemma navigation_clamped_witness :
  (1 <= taskIndex (state Sample.on_last)
     <= Z.of_nat (length (tasks Sample.two_tasks))
   /\ taskIndex (state (@btnBack Sample.browser Sample.two_tasks "E1" 7000
                          Sample.on_last).1) = 0)
  /\ (tasks Sample.two_tasks !! Z.to_nat (taskIndex (state Sample.on_last))
      = Some Sample.p1
      /\ ok (validateTask Sample.p1 (answer_of (state Sample.on_last) Sample.p1))
         = true
      /\ taskIndex (state (@btnNext Sample.browser Sample.two_tasks "E1" 7000
                             Sample.on_last).1) = 2)
  /\ (tasks Sample.two_tasks !! Z.to_nat (taskIndex (state Sample.unanswered))
      = Some Sample.p1
      /\ ok (validateTask Sample.p1
               (answer_of (state Sample.unanswered) Sample.p1)) = false
      /\ taskIndex (state (@btnNext Sample.browser Sample.two_tasks "E1" 7000
                             Sample.unanswered).1) = 1
      /\ alerts (ui (@btnNext Sample.browser Sample.two_tasks "E1" 7000
                       Sample.unanswered).1) = [msg_rate_pair]).
Proof.
  pose proof (@navigation_clamped Sample.browser Sample.two_tasks "E1" 7000
                Sample.on_last) as (Hback & Hnext & _ & _).
  pose proof (@navigation_clamped Sample.browser Sample.two_tasks "E1" 7000
                Sample.unanswered) as (_ & _ & Hstay & _).
  assert (Hr : 1 <= taskIndex (state Sample.on_last)
               <= Z.of_nat (length (tasks Sample.two_tasks)))
    by (vm_compute; split; discriminate).
  assert (H0 : 0 <= taskIndex (state Sample.on_last))
    by (vm_compute; discriminate).
  assert (H0' : 0 <= taskIndex (state Sample.unanswered))
    by (vm_compute; discriminate).
  assert (Hok : ok (validateTask Sample.p1
                      (answer_of (state Sample.on_last) Sample.p1)) = true)
    by (vm_compute; reflexivity).
  assert (Hno : ok (validateTask Sample.p1
                      (answer_of (state Sample.unanswered) Sample.p1)) = false)
    by (vm_compute; reflexivity).
  split; [split; [exact Hr |] | split; [split; [reflexivity | split; [exact Hok |]] |]].
  - exact (proj1 (proj2 Hback) Hr).
  - exact (proj1 (Hnext Sample.p1 H0 eq_refl Hok)).
  - destruct (Hstay Sample.p1 H0' eq_refl Hno)
      as (Hs & _ & _ & _ & Ha & _).
    split; [reflexivity | split; [exact Hno | split]].
    + rewrite Hs. reflexivity.
    + exact Ha.
Defined.

Section Moves.
Context `{Platform}.
Variable assignment : Assignment.
Variable expertId : string.

(** [persist] and then [render] with the cursor set on [j]. *)
Lemma set_cursor_moved now w j newKey :
  (exists task, task_at assignment j = Some task /\ newKey = getAnswerKey task)
  \/ (j >= taskCount assignment /\ newKey = None) ->
  cursor_moved
    ("pap_eval_v2::" +:+ expertId +:+ "::" +:+ assignment_id assignment)
    now j newKey w
    (render assignment now
       (persist assignment expertId (with_state (set_taskIndex j) w))).1.
Proof.
  intros Hj.
  set (w1 := persist assignment expertId (with_state (set_taskIndex j) w)).
  assert (Hs1 : state w1 = set_taskIndex j (state w))
    by (subst w1; rewrite persist_state; reflexivity).
  assert (Hst : state (render assignment now w1).1
                = updateTimingOnTaskSwitch now newKey (set_taskIndex j (state w))).
  { rewrite <- Hs1. destruct Hj as [(task & Ht & ->) | [Hge ->]].
    - apply (proj2 (render_timing assignment now w1)).
      rewrite Hs1. exact Ht.
    - apply (proj1 (render_timing assignment now w1)).
      rewrite Hs1. exact Hge. }
  unfold cursor_moved. rewrite Hst. split.
  - exists (set_taskIndex j (state w)). split; [| repeat split].
    destruct (render_fields assignment now w1) as (_ & _ & -> & _).
    subst w1. exact (persist_stored assignment expertId _).
  - split; [reflexivity |]. split; [reflexivity |].
    split; [reflexivity |]. split; [reflexivity |].
    intros prev enter Hk Hne He Hz.
    rewrite (updateTiming_armed now newKey (set_taskIndex j (state w))
               prev enter Hk Hne He Hz). simpl. split.
    + apply lookup_insert_eq.
    + intros other Ho. apply lookup_insert_ne. congruence.
Qed.

(** X16.  Back and an accepted next store the session before [render]
    runs.  Both leave, under the session's storage key, the text of the
    old session with only the cursor changed (the timing fields as they
    were before the move), and in memory the cursor on its new position,
    the timing cursor on the task now shown (on no task past the end)
    since [now], and the time since the previous task was entered added
    to that task's total. *)
Theorem navigation_stored_before_render (now : Z) (w : World) :
  let n := Z.of_nat (length (tasks assignment)) in
  let i := taskIndex (state w) in
  let key :=
    "pap_eval_v2::" +:+ expertId +:+ "::" +:+ assignment_id assignment in
  let back := (btnBack assignment expertId now w).1 in
  let next := (btnNext assignment expertId now w).1 in
  (forall task,
     tasks assignment !! Z.to_nat (Z.max 0 (Z.min n (i - 1))) = Some task ->
     cursor_moved key now (Z.max 0 (Z.min n (i - 1))) (getAnswerKey task) w back)
  /\ (n = 0 \/ n < i -> cursor_moved key now n None w back)
  /\ (forall task,
        0 <= i -> tasks assignment !! Z.to_nat i = Some task ->
        ok (validateTask task (answer_of (state w) task)) = true ->
        (forall shown,
           tasks assignment !! Z.to_nat (i + 1) = Some shown ->
           cursor_moved key now (i + 1) (getAnswerKey shown) w next)
        /\ (i + 1 = n -> cursor_moved key now n None w next)).
Proof.
  intros n i key back next.
  assert (Hn : 0 <= n) by (subst n; lia).
  assert (Hb : clamp (i - 1) 0 (taskCount assignment)
               = Z.max 0 (Z.min n (i - 1)))
    by (unfold clamp, taskCount; fold n; lia).
  split; [| split].
  - intros task Hl. subst back. unfold btnBack. fold i. rewrite Hb.
    apply set_cursor_moved. left. exists task. split; [| reflexivity].
    apply task_at_lookup; [lia | exact Hl].
  - intros Hcase. subst back. unfold btnBack. fold i. rewrite Hb.
    replace (Z.max 0 (Z.min n (i - 1))) with n by lia.
    apply set_cursor_moved. right. split; [| reflexivity].
    unfold taskCount. fold n. lia.
  - intros task Hi Hl Hok. apply task_at_lookup in Hl; [| exact Hi].
    pose proof (task_at_range _ _ _ Hl) as Hr. unfold taskCount in Hr.
    fold n in Hr. fold i in Hr.
    assert (Hc : clamp (i + 1) 0 (taskCount assignment) = i + 1)
      by (unfold clamp, taskCount; fold n; lia).
    assert (Hnext : next
                    = (render assignment now
                         (persist assignment expertId
                            (with_state (set_taskIndex (i + 1)) w))).1).
    { subst next. unfold btnNext. fold i. rewrite Hl, Hok. simpl negb.
      cbv iota. rewrite Hc. reflexivity. }
    rewrite Hnext. split.
    + intros shown Hs. apply set_cursor_moved. left. exists shown.
      split; [| reflexivity]. apply task_at_lookup; [lia | exact Hs].
    + intros Hlast. rewrite <- Hlast. apply set_cursor_moved. right.
      split; [| reflexivity]. unfold taskCount. fold n. lia.
Qed.
End Moves.

Lemma cursor_on_eq (j : Z) (s s' : Session) :
  cursor_on j s s' ->
  s' = {| started := started s; taskIndex := j; answers := answers s;
          startedAt := startedAt s; finishedAt := finishedAt s;
          clientSessionId := clientSessionId s; submitted := submitted s;
          lastSubmissionUuid := lastSubmissionUuid s;
          taskTimeMs := taskTimeMs s; _lastTaskKey := _lastTaskKey s;
          _lastTaskEnterAt := _lastTaskEnterAt s |}.
Proof.
  intros (H1 & H2 & H3 & H4 & H5 & H6 & H7 & H8 & H9 & H10 & H11).
  destruct s'. simpl in *. congruence.
Qed.

(** On the last task of two, entered at clock 1000 with 250 ms on its
    account, back and next at clock 7000 both bring its total to 6250 and
    move the timing cursor; after next from [Sample.on_last] the stored
    record is the one of the session with the cursor on 2, while the
    session in memory is already timed from clock 7000. *)
Lemma navigation_stored_before_render_witness :
  tasks Sample.two_tasks
    !! Z.to_nat (Z.max 0 (Z.min (Z.of_nat (length (tasks Sample.two_tasks)))
                            (taskIndex (state Sample.on_last_timed) - 1)))
  = Some Sample.c1
  /\ (_lastTaskKey (state Sample.on_last_timed) = Some "A_p1"
      /\ "A_p1" <> ""
      /\ _lastTaskEnterAt (state Sample.on_last_timed) = Some 1000
      /\ 1000 <> 0)
  /\ taskTimeMs (state (@btnBack Sample.browser Sample.two_tasks "E1" 7000
                          Sample.on_last_timed).1) !! "A_p1" = Some 6250
  /\ _lastTaskKey (state (@btnBack Sample.browser Sample.two_tasks "E1" 7000
                            Sample.on_last_timed).1) = Some "A_c0_b000"
  /\ (tasks Sample.two_tasks
        !! Z.to_nat (taskIndex (state Sample.on_last_timed)) = Some Sample.p1
      /\ ok (validateTask Sample.p1
               (answer_of (state Sample.on_last_timed) Sample.p1)) = true
      /\ taskIndex (state Sample.on_last_timed) + 1
         = Z.of_nat (length (tasks Sample.two_tasks)))
  /\ taskTimeMs (state (@btnNext Sample.browser Sample.two_tasks "E1" 7000
                          Sample.on_last_timed).1) !! "A_p1" = Some 6250
  /\ _lastTaskKey (state (@btnNext Sample.browser Sample.two_tasks "E1" 7000
                            Sample.on_last_timed).1) = None
  /\ localStorage (@btnNext Sample.browser_ready Sample.two_tasks "E1" 7000
                     Sample.on_last).1 !! "pap_eval_v2::E1::demo"
     = Some "{cursor:2,answers:2}"
  /\ @JSON_parse Sample.browser_ready "{cursor:2,answers:2}"
     = Some (state Sample.ready)
  /\ _lastTaskEnterAt (state Sample.ready) = None
  /\ _lastTaskEnterAt
       (state (@btnNext Sample.browser_ready Sample.two_tasks "E1" 7000
                 Sample.on_last).1) = Some 7000.
Proof.
  pose proof (@navigation_stored_before_render Sample.browser Sample.two_tasks
                "E1" 7000 Sample.on_last_timed) as (Hback & _ & Hnext).
  pose proof (@navigation_stored_before_render Sample.browser_ready
                Sample.two_tasks "E1" 7000 Sample.on_last) as (_ & _ & Hstored).
  assert (H0 : 0 <= taskIndex (state Sample.on_last_timed))
    by (vm_compute; discriminate).
  assert (H0' : 0 <= taskIndex (state Sample.on_last))
    by (vm_compute; discriminate).
  assert (Hne : "A_p1" <> "") by discriminate.
  assert (Hz : 1000 <> 0) by discriminate.
  assert (Hok : ok (validateTask Sample.p1
                      (answer_of (state Sample.on_last_timed) Sample.p1)) = true)
    by (vm_compute; reflexivity).
  assert (Hok' : ok (validateTask Sample.p1
                       (answer_of (state Sample.on_last) Sample.p1)) = true)
    by (vm_compute; reflexivity).
  destruct (Hback Sample.c1 eq_refl) as (_ & _ & _ & Hkb & _ & Htb).
  destruct (proj2 (Hnext Sample.p1 H0 eq_refl Hok) eq_refl)
    as (_ & _ & _ & Hkn & _ & Htn).
  destruct (proj2 (Hstored Sample.p1 H0' eq_refl Hok') eq_refl)
    as ((s & Hs & Hon) & _ & _ & _ & Hen & _).
  split; [reflexivity |].
  split; [split; [reflexivity | split; [exact Hne | split; [reflexivity | exact Hz]]] |].
  split; [exact (proj1 (Htb "A_p1" 1000 eq_refl Hne eq_refl Hz)) |].
  split; [exact Hkb |].
  split; [split; [reflexivity | split; [exact Hok | reflexivity]] |].
  split; [exact (proj1 (Htn "A_p1" 1000 eq_refl Hne eq_refl Hz)) |].
  split; [exact Hkn |].
  split; [| split; [reflexivity | split; [reflexivity | exact Hen]]].
  refine (eq_trans Hs _). f_equal. apply cursor_on_eq in Hon. rewrite Hon.
  simpl. unfold Sample.stringify_ready.
  rewrite decide_True by reflexivity. reflexivity.
Defined.

(** * Start-up screen *)

(** C5.  [init] asks for the assignment file of the expert named in the
    address (E1 when none is named).  When the file loads, [init] goes on
    with that assignment and shows the screen the stored session calls
    for: with a record stored under the session's key that parses to [s],
    thanks if [s] is submitted, else submit or task (by comparing the
    cursor of [s] with the number of tasks) if [s] is started, else
    welcome; with no record, an empty one or one that does not parse,
    welcome.  The clock, the random digits and the page as it was do not
    enter the choice.  When the file does not load, no screen is shown
    and the page gets the one alert. *)
Theorem init_reconstructs_screen `{Platform} (expertParam : option string)
    (expert : string) (fetched : string -> option Assignment) (hex : string)
    (now : Z) (ui0 : UI) (ls : gmap string string) :
  (expertParam = Some expert /\ expert <> "")
  \/ ((expertParam = None \/ expertParam = Some "") /\ expert = "E1") ->
  (forall a,
     fetched ("data/assignments/" +:+ expert +:+ ".json") = Some a ->
     exists w,
       init expertParam fetched hex now ui0 ls = inl (a, w)
       /\ (forall raw s,
             ls !! ("pap_eval_v2::" +:+ expert +:+ "::" +:+ assignment_id a)
               = Some raw ->
             raw <> "" -> JSON_parse raw = Some s ->
             screen (ui w)
             = Some (if submitted s then ScreenThanks
                     else if started s then
                       if Z.of_nat (length (tasks a)) <=? taskIndex s
                       then ScreenSubmit else ScreenTask
                     else ScreenWelcome))
       /\ (ls !! ("pap_eval_v2::" +:+ expert +:+ "::" +:+ assignment_id a) = None
           \/ ls !! ("pap_eval_v2::" +:+ expert +:+ "::" +:+ assignment_id a)
              = Some ""
           \/ (exists raw,
                 ls !! ("pap_eval_v2::" +:+ expert +:+ "::" +:+ assignment_id a)
                   = Some raw
                 /\ JSON_parse raw = None) ->
           screen (ui w) = Some ScreenWelcome)
       /\ (forall hex' now' ui1,
             exists w',
               init expertParam fetched hex' now' ui1 ls = inl (a, w')
               /\ screen (ui w') = screen (ui w)))
  /\ (fetched ("data/assignments/" +:+ expert +:+ ".json") = None ->
      exists u,
        init expertParam fetched hex now ui0 ls = inr u
        /\ screen u = screen ui0
        /\ alerts u = (alerts ui0 ++ [msg_no_assignment expert])%list).
Proof.
  intros Hexp.
  assert (He : expert_of expertParam = expert).
  { unfold expert_of.
    destruct Hexp as [[-> Hne] | [[-> | ->] ->]]; simpl; try reflexivity.
    unfold truthy_str. destruct (String.eqb_spec expert ""); [contradiction |].
    reflexivity. }
  split.
  - intros a Hf. unfold init. rewrite He, Hf.
    eexists. split; [reflexivity |].
    rewrite init_loaded_screen.
    change (stateKey a expert)
      with ("pap_eval_v2::" +:+ expert +:+ "::" +:+ assignment_id a).
    set (key := "pap_eval_v2::" +:+ expert +:+ "::" +:+ assignment_id a).
    split; [| split].
    + intros raw s Hl Hne Hp. unfold loadState. rewrite Hl.
      unfold truthy_str. destruct (String.eqb_spec raw ""); [contradiction |].
      simpl. rewrite Hp. simpl. unfold screen_for, taskCount.
      rewrite Z.geb_leb. reflexivity.
    + intros Hnone. unfold loadState.
      destruct Hnone as [-> | [-> | (raw & -> & Hp)]]; try reflexivity.
      destruct (negb (truthy_str raw)); [reflexivity |].
      rewrite Hp. reflexivity.
    + intros hex' now' ui1. eexists. split; [reflexivity |].
      rewrite init_loaded_screen. reflexivity.
  - intros Hf. unfold init. rewrite He, Hf.
    eexists. split; [reflexivity |]. split; reflexivity.
Qed.

Lemma init_reconstructs_screen_witness :
  ((@None string = None \/ @None string = Some "") /\ "E1" = "E1")
  /\ (exists w,
        @init Sample.browser None Sample.server "00" 1000 Sample.blank_ui
          Sample.after_submission = inl (Sample.two_tasks, w)
        /\ screen (ui w) = Some ScreenThanks)
  /\ (exists w,
        @init Sample.browser_ready None Sample.server "00" 1000 Sample.blank_ui
          Sample.ready_saved = inl (Sample.two_tasks, w)
        /\ screen (ui w) = Some ScreenSubmit)
  /\ (exists u,
        @init Sample.browser (Some "E7") Sample.server "00" 1000
          Sample.blank_ui Sample.after_submission = inr u
        /\ screen u = None
        /\ alerts u = [msg_no_assignment "E7"]).
Proof.
  assert (Hexp : ((@None string = None \/ @None string = Some "") /\ "E1" = "E1"))
    by (split; [left |]; reflexivity).
  assert (Hexp7 : Some "E7" = Some "E7" /\ "E7" <> "")
    by (split; [reflexivity | discriminate]).
  split; [exact Hexp |]. split; [| split].
  - destruct (proj1 (@init_reconstructs_screen Sample.browser None "E1"
                       Sample.server "00" 1000 Sample.blank_ui
                       Sample.after_submission (or_intror Hexp))
                Sample.two_tasks eq_refl) as (w & Hw & Hs & _).
    exists w. split; [exact Hw |].
    apply (Hs "{started:true,submitted:true}"
              (set_submitted true (set_started true defaultState)));
      [reflexivity | discriminate | reflexivity].
  - destruct (proj1 (@init_reconstructs_screen Sample.browser_ready None "E1"
                       Sample.server "00" 1000 Sample.blank_ui
                       Sample.ready_saved (or_intror Hexp))
                Sample.two_tasks eq_refl) as (w & Hw & Hs & _).
    exists w. split; [exact Hw |].
    apply (Hs "{cursor:2,answers:2}" (state Sample.ready));
      [reflexivity | discriminate | reflexivity].
  - destruct (proj2 (@init_reconstructs_screen Sample.browser (Some "E7") "E7"
                       Sample.server "00" 1000 Sample.blank_ui
                       Sample.after_submission (or_introl Hexp7)) eq_refl)
      as (u & Hu & Hs & Ha).
    exists u. split; [exact Hu | split; [exact Hs | exact Ha]].
Defined.

(** The session of [Sample.ready] (both tasks answered, the cursor past the
    last task) is saved and the page reloaded: the cursor, the answers and
    the submit screen come back, where a page without the record would
    start on the welcome screen with the cursor on 0 and no answer. *)
Lemma reload_resumes_witness :
  @JSON_parse Sample.browser_ready
    (@JSON_stringify Sample.browser_ready (state Sample.ready))
  = Some (state Sample.ready)
  /\ @JSON_stringify Sample.browser_ready (state Sample.ready) <> ""
  /\ taskIndex
       (state (@init_loaded Sample.browser_ready Sample.two_tasks "E1" "00" 1000
                 Sample.blank_ui
                 (localStorage
                    (@persist Sample.browser_ready Sample.two_tasks "E1"
                       Sample.ready)))) = 2
  /\ answers
       (state (@init_loaded Sample.browser_ready Sample.two_tasks "E1" "00" 1000
                 Sample.blank_ui
                 (localStorage
                    (@persist Sample.browser_ready Sample.two_tasks "E1"
                       Sample.ready)))) = Sample.all_answered
  /\ started
       (state (@init_loaded Sample.browser_ready Sample.two_tasks "E1" "00" 1000
                 Sample.blank_ui
                 (localStorage
                    (@persist Sample.browser_ready Sample.two_tasks "E1"
                       Sample.ready)))) = true
  /\ screen
       (ui (@init_loaded Sample.browser_ready Sample.two_tasks "E1" "00" 1000
              Sample.blank_ui
              (localStorage
                 (@persist Sample.browser_ready Sample.two_tasks "E1"
                    Sample.ready)))) = Some ScreenSubmit
  /\ screen
       (ui (@init_loaded Sample.browser_ready Sample.two_tasks "E1" "00" 1000
              Sample.blank_ui ∅)) = Some ScreenWelcome.
Proof.
  assert (Hrt : @JSON_parse Sample.browser_ready
                  (@JSON_stringify Sample.browser_ready (state Sample.ready))
                = Some (state Sample.ready)).
  { simpl. unfold Sample.stringify_ready.
    rewrite decide_True by reflexivity. reflexivity. }
  assert (Hne : @JSON_stringify Sample.browser_ready (state Sample.ready) <> "").
  { simpl. unfold Sample.stringify_ready.
    rewrite decide_True by reflexivity. discriminate. }
  destruct (@reload_resumes Sample.browser_ready Sample.two_tasks "E1" "00" 1000
              Sample.blank_ui Sample.ready Hrt Hne)
    as ((Hsta & Hidx & Hans & _) & Hscr & _).
  split; [exact Hrt | split; [exact Hne |]].
  split; [exact Hidx |]. split; [exact Hans |]. split; [exact Hsta |].
  split; [exact Hscr | vm_compute; reflexivity].
Defined.

(** * Cluster batches: which part of how many *)






